(** * FinanceBot (bot_final_corrigido.py): conversation router and clients

    A shallow embedding of the Telegram bot of [bot_final_corrigido.py]:
    the Python values it handles (text, floats, JSON), its purchase table,
    its per-user [context.user_data] and its four handlers, followed by the
    properties of the handlers.

    What lies outside the program is an input of the model: the answers of
    the three remote services, the clock, and whether [OPENAI_API_KEY] was
    set when the module was loaded.  Every handler returns the new bot state
    together with the trace of what it did, in program order; a message in
    the trace is the call that sends it, and what Telegram does with the
    call is not modelled. *)

From Stdlib Require Import ZArith NArith Ascii String List Lia Permutation Sorted.
From Stdlib Require Import Floats.SpecFloat.
From stdpp Require Import base option list gmap strings.

Local Open Scope N_scope.

(** ** Python text

    A Python [str] is a sequence of Unicode code points. *)

Abbreviation chr := N (only parsing).
Abbreviation str := (list N) (only parsing).

(** Literals are written as in the source and decoded from UTF-8. *)

Definition cont (b : N) : N := N.land b 63.

Fixpoint utf8_decode (bs : list N) : str :=
  match bs with
  | [] => []
  | b :: r =>
    if b <? 128 then b :: utf8_decode r
    else if b <? 224 then
      match r with
      | b1 :: r' => (N.land b 31 * 64 + cont b1) :: utf8_decode r'
      | _ => []
      end
    else if b <? 240 then
      match r with
      | b1 :: b2 :: r' =>
        (N.land b 15 * 4096 + cont b1 * 64 + cont b2) :: utf8_decode r'
      | _ => []
      end
    else
      match r with
      | b1 :: b2 :: b3 :: r' =>
        (N.land b 7 * 262144 + cont b1 * 4096 + cont b2 * 64 + cont b3)
          :: utf8_decode r'
      | _ => []
      end
  end.

Definition py (s : string) : str :=
  utf8_decode (map N_of_ascii (list_ascii_of_string s)).

Definition nl : str := [10].

(** [ch.isspace()]: the code points Python treats as whitespace. *)
Definition isspace (c : chr) : bool :=
  ((9 <=? c) && (c <=? 13)) || ((28 <=? c) && (c <=? 32))
  || (c =? 133) || (c =? 160) || (c =? 5760)
  || ((8192 <=? c) && (c <=? 8202))
  || (c =? 8232) || (c =? 8233) || (c =? 8239) || (c =? 8287) || (c =? 12288).

Fixpoint lstrip (s : str) : str :=
  match s with
  | c :: r => if isspace c then lstrip r else s
  | [] => []
  end.

Definition rstrip (s : str) : str := rev (lstrip (rev s)).

(** [s.strip()] *)
Definition strip (s : str) : str := rstrip (lstrip s).

(** [s.split(sep)] for a separator of one character: a field ends at every
    occurrence of [sep], empty fields are kept. *)
Fixpoint split (sep : chr) (s : str) : list str :=
  match s with
  | [] => [[]]
  | c :: r =>
    if c =? sep then [] :: split sep r
    else match split sep r with
         | f :: fs => (c :: f) :: fs
         | [] => [[c]]
         end
  end.

(** [s.replace(old, new)] for [old] of one character. *)
Fixpoint replace (old : chr) (new : str) (s : str) : str :=
  match s with
  | [] => []
  | c :: r => (if c =? old then new else [c]) ++ replace old new r
  end.

Fixpoint str_eqb (a b : str) : bool :=
  match a, b with
  | [], [] => true
  | x :: a', y :: b' => (x =? y) && str_eqb a' b'
  | _, _ => false
  end.

(** [s.startswith(p)] *)
Fixpoint startswith (p s : str) : bool :=
  match p, s with
  | [], _ => true
  | x :: p', y :: s' => (x =? y) && startswith p' s'
  | _ :: _, [] => false
  end.

(** [sub in s] *)
Fixpoint contains (sub s : str) : bool :=
  startswith sub s ||
  match s with
  | [] => false
  | _ :: r => contains sub r
  end.

(** [sep.join(parts)] *)
Fixpoint join (sep : str) (parts : list str) : str :=
  match parts with
  | [] => []
  | [p] => p
  | p :: r => p ++ sep ++ join sep r
  end.

(** Decimal digits of a natural number, as [str(n)] prints them. *)
Fixpoint uint_digits (d : Decimal.uint) : str :=
  match d with
  | Decimal.Nil => []
  | Decimal.D0 r => 48 :: uint_digits r
  | Decimal.D1 r => 49 :: uint_digits r
  | Decimal.D2 r => 50 :: uint_digits r
  | Decimal.D3 r => 51 :: uint_digits r
  | Decimal.D4 r => 52 :: uint_digits r
  | Decimal.D5 r => 53 :: uint_digits r
  | Decimal.D6 r => 54 :: uint_digits r
  | Decimal.D7 r => 55 :: uint_digits r
  | Decimal.D8 r => 56 :: uint_digits r
  | Decimal.D9 r => 57 :: uint_digits r
  end.

Definition str_of_N (n : N) : str := uint_digits (N.to_uint n).

Definition str_of_Z (z : Z) : str :=
  match z with
  | Zneg p => 45 :: str_of_N (Npos p)
  | _ => str_of_N (Z.to_N z)
  end.

(** [str(n).rjust(w, '0')] for a natural number: [%02d] and the like. *)
Definition zfill (w : nat) (s : str) : str :=
  repeat 48 (w - length s)%nat ++ s.

(** ** Python floats

    A [float] is an IEEE 754 binary64 number: [spec_float] at precision 53
    and maximal exponent 1024.  Conversions round to nearest, ties to even,
    as CPython's do. *)

Definition float := spec_float.
Definition prec : Z := 53.
Definition emax : Z := 1024.

(** The binary64 number nearest to [m * 10^e]. *)
Definition float_of_decimal (neg : bool) (m : N) (e : Z) : float :=
  match m with
  | N0 => S754_zero neg
  | Npos p =>
    if (0 <=? e)%Z
    then binary_normalize prec emax (Z.mul (if neg then Zneg p else Zpos p) (10 ^ e)) 0 neg
    else
      let '(q, e', l) := SFdiv_core_binary prec emax (Zpos p) 0 (10 ^ (- e)) 0 in
      binary_round_aux prec emax neg q e' l
  end.

(** [float(n)] for an integer; [None] is [OverflowError]. *)
Definition float_of_Z (z : Z) : option float :=
  match binary_normalize prec emax z 0 false with
  | S754_infinity _ => None
  | x => Some x
  end.

(** The table behind [Py_UNICODE_TODECIMAL]: the first code point of every
    run of ten decimal digits (Unicode 14.0). *)
Definition decimal_bases : list N :=
  [ 0x30; 0x660; 0x6f0; 0x7c0; 0x966; 0x9e6; 0xa66; 0xae6; 0xb66; 0xbe6;
    0xc66; 0xce6; 0xd66; 0xde6; 0xe50; 0xed0; 0xf20; 0x1040; 0x1090;
    0x17e0; 0x1810; 0x1946; 0x19d0; 0x1a80; 0x1a90; 0x1b50; 0x1bb0;
    0x1c40; 0x1c50; 0xa620; 0xa8d0; 0xa900; 0xa9d0; 0xa9f0; 0xaa50;
    0xabf0; 0xff10; 0x104a0; 0x10d30; 0x11066; 0x110f0; 0x11136; 0x111d0;
    0x112f0; 0x11450; 0x114d0; 0x11650; 0x116c0; 0x11730; 0x118e0;
    0x11950; 0x11c50; 0x11d50; 0x11da0; 0x16a60; 0x16ac0; 0x16b50;
    0x1d7ce; 0x1d7d8; 0x1d7e2; 0x1d7ec; 0x1d7f6; 0x1e140; 0x1e2f0;
    0x1e950; 0x1fbf0 ].

Definition Py_UNICODE_TODECIMAL (c : chr) : option N :=
  match List.find (fun b => (b <=? c) && (c <? b + 10)) decimal_bases with
  | Some b => Some (c - b)
  | None => None
  end.

(** [_PyUnicode_TransformDecimalAndSpaceToASCII]: a text with a non-ASCII
    character has its whitespace turned into spaces and its decimal digits
    into ASCII digits, and is cut after the first other character, which
    becomes a question mark. *)
Fixpoint transform_decimal_and_space (s : str) : str :=
  match s with
  | [] => []
  | c :: r =>
    if c <? 127 then c :: transform_decimal_and_space r
    else if isspace c then 32 :: transform_decimal_and_space r
    else match Py_UNICODE_TODECIMAL c with
         | Some d => (48 + d) :: transform_decimal_and_space r
         | None => [63]
         end
  end.

Definition to_ascii (s : str) : str :=
  if forallb (fun c => c <? 128) s then s else transform_decimal_and_space s.

(** [Py_ISSPACE] *)
Definition ascii_isspace (c : chr) : bool :=
  ((9 <=? c) && (c <=? 13)) || (c =? 32).

Fixpoint ascii_lstrip (s : str) : str :=
  match s with
  | c :: r => if ascii_isspace c then ascii_lstrip r else s
  | [] => []
  end.

Definition ascii_strip (s : str) : str :=
  rev (ascii_lstrip (rev (ascii_lstrip s))).

Definition isdigit (c : chr) : bool := (48 <=? c) && (c <=? 57).

(** Underscores of a numeric literal: one is accepted only between two
    digits, and all are removed. [prev] is the character before [s]. *)
Fixpoint remove_underscores (prev : chr) (s : str) : option str :=
  match s with
  | [] => if prev =? 95 then None else Some []
  | c :: r =>
    if c =? 95 then
      if isdigit prev then remove_underscores c r else None
    else if (prev =? 95) && negb (isdigit c) then None
    else option_map (cons c) (remove_underscores c r)
  end.

Fixpoint span_digits (s : str) : str * str :=
  match s with
  | c :: r =>
    if isdigit c then let '(d, t) := span_digits r in (c :: d, t) else ([], s)
  | [] => ([], [])
  end.

Definition digits_value (d : str) : N :=
  fold_left (fun acc c => 10 * acc + (c - 48)) d 0.

Definition parse_sign (s : str) : bool * str :=
  match s with
  | 45 :: r => (true, r)
  | 43 :: r => (false, r)
  | _ => (false, s)
  end.

Definition lower (c : chr) : chr :=
  if (65 <=? c) && (c <=? 90) then c + 32 else c.

(** The exponent part: empty, or [e] or [E], a sign, and digits. *)
Definition parse_exponent (s : str) : option Z :=
  match s with
  | [] => Some 0%Z
  | c :: r =>
    if (c =? 101) || (c =? 69) then
      let '(neg, r1) := parse_sign r in
      match span_digits r1 with
      | ((_ :: _) as d, []) =>
        let v := Z.of_N (digits_value d) in
        Some (if neg then (- v)%Z else v)
      | _ => None
      end
    else None
  end.

(** An unsigned literal: [inf], [infinity], [nan] in any case, or digits
    with an optional point and exponent and at least one digit. *)
Definition parse_unsigned (neg : bool) (s : str) : option float :=
  let l := map lower s in
  if str_eqb l (py "inf") || str_eqb l (py "infinity") then Some (S754_infinity neg)
  else if str_eqb l (py "nan") then Some S754_nan
  else
    let '(ip, r1) := span_digits s in
    let '(fp, r2) :=
      match r1 with
      | 46 :: t => span_digits t
      | _ => ([], r1)
      end in
    match ip ++ fp with
    | [] => None
    | ds =>
      match parse_exponent r2 with
      | Some e =>
        Some (float_of_decimal neg (digits_value ds) (e - Z.of_nat (length fp)))
      | None => None
      end
    end.

(** [float(s)] for a text; [None] is [ValueError]. *)
Definition float_of_str (s : str) : option float :=
  match ascii_strip (to_ascii s) with
  | [] => None
  | t =>
    match (if existsb (N.eqb 95) t then remove_underscores 0 t else Some t) with
    | Some u => let '(neg, r) := parse_sign u in parse_unsigned neg r
    | None => None
    end
  end.

(** [a / b] rounded to the nearest integer, ties to even, for [b > 0]. *)
Definition div_half_even (a b : Z) : Z :=
  let q := (a / b)%Z in
  match (2 * (a mod b) ?= b)%Z with
  | Lt => q
  | Gt => (q + 1)%Z
  | Eq => if Z.even q then q else (q + 1)%Z
  end.

(** The digits of [n / 10^p] with [p] places after the point. *)
Definition fixed_point (p : nat) (n : Z) : str :=
  let ds := zfill (S p) (str_of_N (Z.to_N n)) in
  let k := (length ds - p)%nat in
  match p with
  | O => ds
  | _ => take k ds ++ 46 :: drop k ds
  end.

Definition sign_str (neg : bool) : str := if neg then [45] else [].

(** [format(x, '.{p}f')] *)
Definition format_f (p : nat) (x : float) : str :=
  match x with
  | S754_nan => py "nan"
  | S754_infinity s => sign_str s ++ py "inf"
  | S754_zero s => sign_str s ++ fixed_point p 0
  | S754_finite s m e =>
    let scaled := (Zpos m * 10 ^ Z.of_nat p)%Z in
    let n := if (0 <=? e)%Z then (scaled * 2 ^ e)%Z
             else div_half_even scaled (2 ^ (- e)) in
    sign_str s ++ fixed_point p n
  end.

(** [x + y] *)
Definition float_add (x y : float) : float := SFadd prec emax x y.

(** [sum(xs)] over floats: the integer start value 0 converts to [0.0]
    and the terms are added from left to right, each addition rounded.
    This is the sum of CPython up to 3.11; from 3.12 on [sum] compensates
    the rounding errors and may differ in the last place. *)
Definition float_sum (xs : list float) : float :=
  fold_left float_add xs (S754_zero false).

(** [math.isnan(x)] *)
Definition is_nan (x : float) : bool :=
  match x with
  | S754_nan => true
  | _ => false
  end.

(** [x < 0.0] or [x] is the negative zero: the sign bit of a number. *)
Definition is_negative (x : float) : bool :=
  match x with
  | S754_zero s | S754_infinity s | S754_finite s _ _ => s
  | S754_nan => false
  end.

(** ** Exceptions *)

Inductive exn :=
| RequestException
| AttributeError
| TypeError
| ValueError
| OverflowError.

Definition exn_eqb (a b : exn) : bool :=
  match a, b with
  | RequestException, RequestException
  | AttributeError, AttributeError
  | TypeError, TypeError
  | ValueError, ValueError
  | OverflowError, OverflowError => true
  | _, _ => false
  end.

Inductive res (A : Type) :=
| Ok (a : A)
| Raise (e : exn).
Arguments Ok {A} a.
Arguments Raise {A} e.

#[global] Instance res_ret : MRet res := fun A a => Ok a.
#[global] Instance res_bind : MBind res := fun A B f m =>
  match m with
  | Ok a => f a
  | Raise e => Raise e
  end.

(** ** JSON values, as [response.json()] returns them *)

#[local] Unset Elimination Schemes.
Inductive json :=
| JNull
| JBool (b : bool)
| JInt (n : Z)
| JFloat (x : float)
| JStr (s : str)
| JList (l : list json)
| JObj (items : list (str * json)).
#[local] Set Elimination Schemes.

Fixpoint assoc (k : str) (items : list (str * json)) : option json :=
  match items with
  | [] => None
  | (k', v) :: r => if str_eqb k k' then Some v else assoc k r
  end.

(** [o.get(k, d)]: only a dict has the method. *)
Definition py_get (o : json) (k : str) (d : json) : res json :=
  match o with
  | JObj items => Ok (default d (assoc k items))
  | _ => Raise AttributeError
  end.

(** [bool(v)] *)
Definition truthy (v : json) : bool :=
  match v with
  | JNull => false
  | JBool b => b
  | JInt n => negb (n =? 0)%Z
  | JFloat (S754_zero _) => false
  | JFloat _ => true
  | JStr s => negb (str_eqb s [])
  | JList l => match l with [] => false | _ => true end
  | JObj items => match items with [] => false | _ => true end
  end.

(** [iter(v)]: the elements of a list, the characters of a text, the keys
    of a dict. *)
Definition py_iter (v : json) : res (list json) :=
  match v with
  | JList l => Ok l
  | JStr s => Ok (map (fun c => JStr [c]) s)
  | JObj items => Ok (map (fun kv => JStr (fst kv)) items)
  | _ => Raise TypeError
  end.

(** [format(v, '.{p}f')] *)
Definition py_format_f (p : nat) (v : json) : res str :=
  match v with
  | JFloat x => Ok (format_f p x)
  | JInt n =>
    match float_of_Z n with
    | Some x => Ok (format_f p x)
    | None => Raise OverflowError
    end
  | JBool b => Ok (format_f p (if b then SFone prec emax else S754_zero false))
  | JStr _ => Raise ValueError
  | _ => Raise TypeError
  end.

(** ** The purchase table

    The table [purchases] is modelled as the list of its rows, in the order
    of insertion, each row as the handler added it; this program is the
    only writer of the table.  The column [value] is nullable, and SQLite
    keeps a NaN as NULL and the negative zero as zero: a row whose [value]
    is a NaN is a row whose stored value is NULL, and a query reads [None]
    for it ([loaded_value]).  The other columns are read as they were
    written. *)

Record datetime := {
  year : N; month : N; day : N;
  hour : N; minute : N; second : N; microsecond : N }.

Definition datetime_fields (d : datetime) : list N :=
  [year d; month d; day d; hour d; minute d; second d; microsecond d].

Fixpoint lex_compare (a b : list N) : comparison :=
  match a, b with
  | [], [] => Eq
  | [], _ => Lt
  | _, [] => Gt
  | x :: a', y :: b' =>
    match x ?= y with
    | Eq => lex_compare a' b'
    | c => c
    end
  end.

(** [a <= b] on dates *)
Definition date_leb (a b : datetime) : bool :=
  match lex_compare (datetime_fields a) (datetime_fields b) with
  | Gt => false
  | _ => true
  end.

(** [d.strftime('%d/%m')] *)
Definition strftime_dm (d : datetime) : str :=
  zfill 2 (str_of_N (day d)) ++ py "/" ++ zfill 2 (str_of_N (month d)).

(** [d.strftime('%d/%m/%Y')] *)
Definition strftime_dmY (d : datetime) : str :=
  strftime_dm d ++ py "/" ++ str_of_N (year d).

(** A row of the table, with the values given to [Purchase(...)] when it
    was added.  What the attribute [value] of the row is when a query has
    read it back is [loaded_value] below, not [value]. *)
Record Purchase := {
  id : Z;
  user_id : Z;
  product : str;
  value : float;
  category : str;
  date : datetime }.

(** The number that SQLite keeps for a float that is no NaN: the float
    itself, but zero for the negative zero. *)
Definition stored_real (x : float) : float :=
  match x with
  | S754_zero _ => S754_zero false
  | _ => x
  end.

(** [p.value] of a row read from the table: [None] when the stored value
    is NULL. *)
Definition loaded_value (p : Purchase) : option float :=
  if is_nan (value p) then None else Some (stored_real (value p)).

(** [format(v, '.{p}f')] of a value read from the table; [None] has no
    such format. *)
Definition format_loaded (p : nat) (v : option float) : res str :=
  match v with
  | Some x => Ok (format_f p x)
  | None => Raise TypeError
  end.

(** [sum(vs)] of values read from the table, from the start value on: a
    number and [None] cannot be added.  See [float_sum] for the order of
    the additions. *)
Fixpoint sum_loaded (acc : float) (vs : list (option float)) : res float :=
  match vs with
  | [] => Ok acc
  | Some x :: r => sum_loaded (float_add acc x) r
  | None :: _ => Raise TypeError
  end.

Definition py_sum (vs : list (option float)) : res float :=
  sum_loaded (S754_zero false) vs.

(** The integer primary key of a new row: one more than the largest. *)
Definition next_id (rows : list Purchase) : Z :=
  1 + fold_right Z.max 0%Z (map id rows).

(** [filter_by(user_id=u)] *)
Definition filter_by_user (u : Z) (rows : list Purchase) : list Purchase :=
  filter (fun p => user_id p = u) rows.

(** [order_by(Purchase.date.desc())]: newer rows first.  SQL leaves the
    order of rows of equal date open; the properties proved of the result,
    that it is sorted and has the same rows, hold for any such order. *)
Fixpoint insert_desc (p : Purchase) (l : list Purchase) : list Purchase :=
  match l with
  | [] => [p]
  | q :: r =>
    if date_leb (date q) (date p) then p :: l else q :: insert_desc p r
  end.

Definition order_by_date_desc (rows : list Purchase) : list Purchase :=
  fold_right insert_desc [] rows.

(** ** Bot state and what a handler does *)

(** A value kept in [context.user_data]: [None] or a text. *)
Inductive pyval :=
| PyNone
| PyStr (s : str).

Definition pyval_eqb (a b : pyval) : bool :=
  match a, b with
  | PyNone, PyNone => true
  | PyStr x, PyStr y => str_eqb x y
  | _, _ => false
  end.

(** [user_data] holds one dict per user; [purchases] is the table. *)
Record bot := {
  user_data : gmap Z (gmap string pyval);
  purchases : list Purchase }.

Inductive delivery := Reply | Edit.

(** An outbound message: [reply_text] or [edit_message_text] and their
    arguments. *)
Record message := {
  how : delivery;
  text : str;
  parse_mode : option str;
  reply_markup : list (list (str * str));
  disable_web_page_preview : bool }.

Inductive event :=
| SetState (user : Z) (v : pyval)
| HttpGet (url : str) (params : list (str * json))
| DbSelect (user : Z)
| DbInsert (row : Purchase)
| ChatCompletion (system_prompt user_prompt : str)
| AnswerCallback
| Send (m : message).

(** The answer to an HTTP request: no answer at all (time-out, connection
    error), or a status and a decoded body.  A body that cannot be decoded
    is outside the model. *)
Inductive http_result (A : Type) :=
| ConnectionFailed
| Response (status : N) (body : A).
Arguments ConnectionFailed {A}.
Arguments Response {A} status body.

(** What the world outside answers during one handler call.
    [openai_client] tells whether [OPENAI_API_KEY] was set; the body of the
    Shopee page is given as the [href] of every [a] element that has one,
    in document order; [openai] is the first completion, or [None] when the
    call raised. *)
Record Env := {
  openai_client : bool;
  DISCOUNT_API_KEY : json;
  deals_api : http_result json;
  shopee : http_result (list str);
  openai : option str;
  now : datetime }.

Record run (A : Type) := {
  result : res A;
  final : bot;
  trace : list event }.
Arguments result {A} r.
Arguments final {A} r.
Arguments trace {A} r.

Definition M (A : Type) : Type := bot -> run A.

#[global] Instance M_ret : MRet M := fun A a b =>
  {| result := Ok a; final := b; trace := [] |}.

#[global] Instance M_bind : MBind M := fun A B f m b =>
  let r := m b in
  match result r with
  | Ok a =>
    let r' := f a (final r) in
    {| result := result r'; final := final r'; trace := trace r ++ trace r' |}
  | Raise e => {| result := Raise e; final := final r; trace := trace r |}
  end.

Definition raise {A} (e : exn) : M A := fun b =>
  {| result := Raise e; final := b; trace := [] |}.

Definition lift {A} (r : res A) : M A :=
  match r with
  | Ok a => mret a
  | Raise e => raise e
  end.

Definition emit (e : event) : M unit := fun b =>
  {| result := Ok tt; final := b; trace := [e] |}.

(** [try: body except e: handler] *)
Definition try_except {A} (body : M A) (e : exn) (handler : M A) : M A :=
  fun b =>
    let r := body b in
    match result r with
    | Raise e' =>
      if exn_eqb e' e then
        let r' := handler (final r) in
        {| result := result r'; final := final r'; trace := trace r ++ trace r' |}
      else r
    | Ok _ => r
    end.

(** [context.user_data.get('state')] of a user *)
Definition pending (b : bot) (u : Z) : pyval :=
  default PyNone (default ∅ (user_data b !! u) !! "state"%string).

(** [context.user_data['state'] = v] of a user *)
Definition set_pending (u : Z) (v : pyval) (b : bot) : bot :=
  {| user_data :=
       <[u := <["state"%string := v]> (default ∅ (user_data b !! u))]> (user_data b);
     purchases := purchases b |}.

Definition get_state (u : Z) : M pyval := fun b =>
  {| result := Ok (pending b u); final := b; trace := [] |}.

Definition set_state (u : Z) (v : pyval) : M unit := fun b =>
  {| result := Ok tt; final := set_pending u v b; trace := [SetState u v] |}.

(** [session.query(Purchase).filter_by(user_id=u).all()], in table order,
    or [order_by(Purchase.date.desc())] when [ordered].  The value of a row
    of the result is read with [loaded_value]. *)
Definition query_purchases (u : Z) (ordered : bool) : M (list Purchase) := fun b =>
  let rows := filter_by_user u (purchases b) in
  {| result := Ok (if ordered then order_by_date_desc rows else rows);
     final := b;
     trace := [DbSelect u] |}.

(** [session.add(Purchase(...)); session.commit()]: the table assigns the
    key, and [date] defaults to the current time. *)
Definition session_add (u : Z) (produto : str) (valor : float) (categoria : str)
    (today : datetime) : M unit := fun b =>
  let row := {| id := next_id (purchases b); user_id := u; product := produto;
                value := valor; category := categoria; date := today |} in
  {| result := Ok tt;
     final := {| user_data := user_data b; purchases := purchases b ++ [row] |};
     trace := [DbInsert row] |}.

(** [requests.get(url, params=params)] followed by [raise_for_status()]:
    both failures are a [RequestException]. *)
Definition requests_get {A} (url : str) (params : list (str * json))
    (answer : http_result A) : M A :=
  emit (HttpGet url params) ;;
  match answer with
  | ConnectionFailed => raise RequestException
  | Response status body =>
    if (400 <=? status) && (status <? 600) then raise RequestException
    else mret body
  end.

Definition send (d : delivery) (t : str) (mode : option str)
    (markup : list (list (str * str))) (no_preview : bool) : M unit :=
  emit (Send {| how := d; text := t; parse_mode := mode;
                reply_markup := markup; disable_web_page_preview := no_preview |}).

(** [update.message.reply_text(t, parse_mode=mode)] *)
Definition reply_text (t : str) (mode : option str) : M unit :=
  send Reply t mode [] false.

(** [query.edit_message_text(t, parse_mode=mode)] *)
Definition edit_message_text (t : str) (mode : option str) (no_preview : bool) : M unit :=
  send Edit t mode [] no_preview.

Definition Markdown : option str := Some (py "Markdown").

(** The messages sent by a run, in order. *)
Fixpoint sent (t : list event) : list message :=
  match t with
  | [] => []
  | Send m :: r => m :: sent r
  | _ :: r => sent r
  end.

(** The calls a run makes to a remote service, to the table or to the
    chat: every event but a write to [user_data]. *)
Definition is_external (e : event) : bool :=
  match e with
  | SetState _ _ => false
  | _ => true
  end.


(** ** The clients and the handlers *)

Section Handlers.

(** Python's [repr] of a float, a list or a dict is not modelled: every
    property below holds whatever it prints. *)
Variable py_repr : json -> str.

(** [str(v)], as an f-string prints a value *)
Definition py_str (v : json) : str :=
  match v with
  | JNull => py "None"
  | JBool true => py "True"
  | JBool false => py "False"
  | JInt n => str_of_Z n
  | JStr s => s
  | _ => py_repr v
  end.

(** The body of the loop of [buscar_discount_api_real]: the text of one
    deal. *)
Definition format_deal (item : json) : res str :=
  deal ← py_get item (py "deal") (JObj []);
  title ← py_get deal (py "title") (JStr (py "Sem Título"));
  price ← py_get deal (py "price") (JStr (py "N/A"));
  discount ← py_get deal (py "discount_percentage") (JInt 0);
  provider ← py_get deal (py "provider") (JStr (py "Loja Desconhecida"));
  link ← py_get deal (py "url") (JStr (py "#"));
  pct ← py_format_f 1 discount;
  mret (py "🏷️ **" ++ py_str title ++ py "**" ++ nl
        ++ py "💰 Preço: $" ++ py_str price ++ py " | Desconto: " ++ pct ++ py "%" ++ nl
        ++ py "🏪 Loja: " ++ py_str provider ++ nl
        ++ py "[🔗 Ver Oferta](" ++ py_str link ++ py ")" ++ nl ++ nl).

Fixpoint format_deals (message_text : str) (deals : list json) : res str :=
  match deals with
  | [] => mret message_text
  | item :: r =>
    entry ← format_deal item;
    format_deals (message_text ++ entry) r
  end.

Definition no_deals : str :=
  py "Nenhuma promoção incrível encontrada no momento. Tente mais tarde!".

Definition deals_header : str :=
  py "✨ **Melhores Deals do Dia** ✨" ++ nl ++ nl.

Definition deals_error : str :=
  py "❌ Ocorreu um erro ao buscar as promoções. Verifique a chave da API.".

Definition buscar_discount_api_real (env : Env) : M str :=
  let url := py "https://api.discountapi.com/v2/deals" in
  let params := [(py "api_key", DISCOUNT_API_KEY env); (py "limit", JInt 5)] in
  try_except
    (data ← requests_get url params (deals_api env);
     deals ← lift (py_get data (py "deals") (JList []));
     if negb (truthy deals) then mret no_deals
     else
       items ← lift (py_iter deals);
       lift (format_deals deals_header items))
    RequestException
    (mret deals_error).

Definition shopee_url (termo : str) : str :=
  py "https://shopee.com.br/search?keyword=" ++ replace 32 (py "%20") termo.

Definition shopee_fallback (termo : str) : str :=
  let url := shopee_url termo in
  py "❌ O scraping da Shopee falhou ou não encontrou resultados para '" ++ termo ++ py "'." ++ nl
  ++ py "Isso é comum, pois a Shopee usa carregamento dinâmico (JavaScript)." ++ nl ++ nl
  ++ py "**Links Simulados (para demonstrar a funcionalidade):**" ++ nl
  ++ py "🔗 [Produto 1 - " ++ termo ++ py "](" ++ url ++ py ")" ++ nl
  ++ py "🔗 [Produto 2 - " ++ termo ++ py "](" ++ url ++ py ")" ++ nl.

(** [[a['href'] for a in ... if '/product/' in a['href']][:3]] *)
Definition product_links (hrefs : list str) : list str :=
  take 3 (filter (fun h => contains (py "/product/") h = true) hrefs).

Definition shopee_line (i : nat) (link : str) : str :=
  let full_link :=
    if startswith (py "/") link then py "https://shopee.com.br" ++ link else link in
  py "🔗 [Produto " ++ str_of_N (N.of_nat (i + 1)) ++ py "](" ++ full_link ++ py ")" ++ nl.

Definition shopee_results (termo : str) (links : list str) : str :=
  py "🛍️ **Resultados da Shopee para '" ++ termo ++ py "'** 🛍️" ++ nl ++ nl
  ++ concat (imap shopee_line links).

Definition shopee_error : str :=
  py "❌ Ocorreu um erro de conexão ao tentar buscar na Shopee.".

Definition buscar_shopee_scraping (env : Env) (termo : str) : M str :=
  let url := shopee_url termo in
  try_except
    (hrefs ← requests_get url [] (shopee env);
     let links := product_links hrefs in
     match links with
     | [] => mret (shopee_fallback termo)
     | _ => mret (shopee_results termo links)
     end)
    RequestException
    (mret shopee_error).

Definition ai_disabled : str :=
  py "❌ A funcionalidade de IA está desativada (chave da OpenAI não configurada).".

Definition ai_error : str :=
  py "❌ Ocorreu um erro ao consultar a Inteligência Artificial. Verifique sua chave ou limites de uso.".

Definition system_prompt : str :=
  py "Você é o FinanceBot, um assistente financeiro e de compras amigável. "
  ++ py "Sua função é analisar o histórico de gastos do usuário e responder a perguntas de forma útil e inteligente, **focando estritamente em gestão financeira, economia e análise de gastos**. "
  ++ py "Use os dados fornecidos para dar conselhos financeiros, identificar padrões de gastos ou responder a perguntas sobre orçamento. **Recuse-se educadamente a responder perguntas que não sejam sobre finanças ou o uso do bot.**"
  ++ py "Mantenha a resposta concisa e em português.".

Definition history_line (p : Purchase) : res str :=
  valor ← format_loaded 2 (loaded_value p);
  mret (py "- " ++ product p ++ py " (R$ " ++ valor ++ py ") na categoria "
        ++ category p ++ py " em " ++ strftime_dmY (date p)).

Definition context_data (rows : list Purchase) : res str :=
  match rows with
  | [] => mret (py "O usuário ainda não registrou nenhuma compra.")
  | _ =>
    lines ← mapM history_line rows;
    let history := join nl lines in
    total_spent ← py_sum (map loaded_value rows);
    mret (py "O usuário já gastou um total de R$ " ++ format_f 2 total_spent ++ py " em "
          ++ str_of_N (N.of_nat (length rows)) ++ py " compras. "
          ++ py "Aqui está o histórico detalhado:" ++ nl
          ++ history)
  end.

Definition user_prompt (rows : list Purchase) (prompt : str) : res str :=
  context ← context_data rows;
  mret (py "Contexto de gastos do usuário:" ++ nl ++ context ++ nl ++ nl
        ++ py "Pergunta do usuário: " ++ prompt).

(** The [try] covers the call of the completion service only: what the
    lines before it raise leaves the function. *)
Definition analisar_com_ia (env : Env) (u : Z) (prompt : str) : M str :=
  if negb (openai_client env) then mret ai_disabled
  else
    rows ← query_purchases u false;
    question ← lift (user_prompt rows prompt);
    emit (ChatCompletion system_prompt question) ;;
    match openai env with
    | Some content => mret content
    | None => mret ai_error
    end.

Definition keyboard : list (list (str * str)) :=
  [ [(py "💰 Melhores Deals (DiscountAPI)", py "deals")];
    [(py "🛍️ Buscar na Shopee", py "shopee_search")];
    [(py "💳 Adicionar Compra", py "add_purchase")];
    [(py "📊 Meus Gastos", py "my_expenses")];
    [(py "🧠 Perguntar à IA", py "ask_ai")];
    [(py "❓ Ajuda", py "help")] ].

Definition welcome : str :=
  py "Olá! Eu sou o FinanceBot. Escolha uma opção abaixo para começar a economizar e rastrear seus gastos:".

Definition start : M unit :=
  send Reply welcome None keyboard false.

Definition help_text : str :=
  py "❓ **Guia de Uso do FinanceBot** ❓" ++ nl ++ nl
  ++ py "**💰 Melhores Deals:** Busca as melhores promoções internacionais (em USD)." ++ nl
  ++ py "**🛍️ Buscar na Shopee:** Permite buscar produtos na Shopee. Você será solicitado a digitar o termo de busca." ++ nl
  ++ py "**💳 Adicionar Compra:** Registra uma compra. Use o formato:" ++ nl
  ++ py "   `Produto - Valor - Categoria` (Ex: `iPhone 15 - 5000 - Eletrônicos`)" ++ nl
  ++ py "**📊 Meus Gastos:** Mostra o resumo das suas compras registradas." ++ nl
  ++ py "**🧠 Perguntar à IA:** Use a IA para analisar seus gastos e tirar dúvidas financeiras." ++ nl.

Definition help_command : M unit :=
  reply_text help_text None.

Definition waiting_shopee_term : pyval := PyStr (py "waiting_shopee_term").
Definition waiting_purchase : pyval := PyStr (py "waiting_purchase").
Definition waiting_ai_prompt : pyval := PyStr (py "waiting_ai_prompt").

Definition analysing : str := py "🧠 Analisando sua pergunta com a IA...".

Definition purchase_saved (produto : str) (valor : float) (categoria : str) : str :=
  py "✅ Compra registrada com sucesso no banco de dados!" ++ nl
  ++ py "Produto: " ++ produto ++ nl
  ++ py "Valor: R$ " ++ format_f 2 valor ++ nl
  ++ py "Categoria: " ++ categoria.

Definition value_error : str :=
  py "❌ Formato de valor inválido. Use apenas números (ex: 5000 ou 5000.50).".

Definition format_error : str :=
  py "❌ Formato incorreto. Use: `Produto - Valor - Categoria`" ++ nl
  ++ py "Exemplo: `iPhone 15 - 5000 - Eletrônicos`".

Definition unrecognized : str :=
  py "Comando não reconhecido. Use /start para ver o menu principal ou /help para o guia de uso.".

(** [[p.strip() for p in text.split('-')]] *)
Definition purchase_fields (text : str) : list str :=
  map strip (split 45 text).

Definition handle_message (env : Env) (u : Z) (message_text : str) : M unit :=
  let text := strip message_text in
  state ← get_state u;
  if pyval_eqb state waiting_shopee_term then
    set_state u PyNone ;;
    result ← buscar_shopee_scraping env text;
    reply_text result Markdown
  else if pyval_eqb state waiting_purchase then
    set_state u PyNone ;;
    match purchase_fields text with
    | [produto; valor_str; categoria] =>
      match float_of_str (replace 44 (py ".") valor_str) with
      | Some valor =>
        session_add u produto valor categoria (now env) ;;
        reply_text (purchase_saved produto valor categoria) None
      | None => reply_text value_error None
      end
    | _ => reply_text format_error None
    end
  else if pyval_eqb state waiting_ai_prompt then
    set_state u PyNone ;;
    reply_text analysing None ;;
    result ← analisar_com_ia env u text;
    reply_text result None
  else if openai_client env then
    reply_text analysing None ;;
    result ← analisar_com_ia env u text;
    reply_text result None
  else
    reply_text unrecognized None.

Definition ask_search_term : str :=
  py "🛍️ Por favor, digite o termo que você deseja buscar na Shopee (Ex: 'Xiaomi 14').".

Definition ask_purchase : str :=
  py "💳 Para registrar uma compra, use o formato:" ++ nl
  ++ py "`Produto - Valor - Categoria`" ++ nl
  ++ py "Exemplo: `iPhone 15 - 5000 - Eletrônicos`".

Definition ask_question : str :=
  py "🧠 Qual sua pergunta? Você pode pedir uma análise dos seus gastos ou uma dica financeira geral." ++ nl
  ++ py "Ex: 'Em que categoria eu mais gastei?' ou 'Devo comprar um novo celular?'".

Definition no_purchases : str :=
  py "📊 Você ainda não registrou nenhuma compra no banco de dados.".

Definition expense_line (p : Purchase) : res str :=
  valor ← format_loaded 2 (loaded_value p);
  mret (py " - " ++ product p ++ py " (R$ " ++ valor ++ py ") - "
        ++ category p ++ py " (" ++ strftime_dm (date p) ++ py ")" ++ nl).

Definition expenses_summary (rows : list Purchase) : res str :=
  total_spent ← py_sum (map loaded_value rows);
  let num_purchases := length rows in
  let message_text :=
    py "📊 **Resumo dos Seus Gastos (Persistente)** 📊" ++ nl ++ nl
    ++ py "Total Gasto: **R$ " ++ format_f 2 total_spent ++ py "**" ++ nl
    ++ py "Número de Compras: **" ++ str_of_N (N.of_nat num_purchases) ++ py "**" ++ nl ++ nl
    ++ py "**Últimas Compras Registradas:**" ++ nl in
  lines ← mapM expense_line (take 5 rows);
  mret (message_text ++ concat lines).

Definition handle_callback (env : Env) (u : Z) (data : str) : M unit :=
  emit AnswerCallback ;;
  if str_eqb data (py "deals") then
    result ← buscar_discount_api_real env;
    edit_message_text result Markdown true
  else if str_eqb data (py "shopee_search") then
    set_state u waiting_shopee_term ;;
    edit_message_text ask_search_term None false
  else if str_eqb data (py "add_purchase") then
    set_state u waiting_purchase ;;
    edit_message_text ask_purchase None false
  else if str_eqb data (py "ask_ai") then
    if negb (openai_client env) then
      edit_message_text ai_disabled None false
    else
      set_state u waiting_ai_prompt ;;
      edit_message_text ask_question None false
  else if str_eqb data (py "my_expenses") then
    rows ← query_purchases u true;
    match rows with
    | [] => edit_message_text no_purchases None false
    | _ =>
      message_text ← lift (expenses_summary rows);
      edit_message_text message_text Markdown false
    end
  else if str_eqb data (py "help") then
    help_command
  else
    mret tt.

End Handlers.

Arguments py : simpl never.
Arguments pending : simpl never.
Arguments set_pending : simpl never.
Arguments strip : simpl never.
Arguments format_f : simpl never.
Arguments float_of_str : simpl never.
Arguments purchase_fields : simpl never.
Arguments next_id : simpl never.

(** What [buscar_shopee_scraping] returns, by the answer of the site. *)
Definition shopee_answer (env : Env) (termo : str) : str :=
  match shopee env with
  | ConnectionFailed => shopee_error
  | Response status hrefs =>
    if (400 <=? status) && (status <? 600) then shopee_error
    else match product_links hrefs with
         | [] => shopee_fallback termo
         | links => shopee_results termo links
         end
  end.

(** What [analisar_com_ia] returns, by the answer of the assistant. *)
Definition ai_answer (env : Env) : str :=
  if openai_client env then
    match openai env with
    | Some content => content
    | None => ai_error
    end
  else ai_disabled.

(** How many times the character [c] occurs in [s]. *)
Definition hyphens (c : chr) (s : str) : nat := count_occ N.eq_dec s c.

(** What [buscar_discount_api_real] returns or raises, by the answer of
    the service. *)
Definition deals_outcome (py_repr : json -> str) (env : Env) : res str :=
  match deals_api env with
  | ConnectionFailed => Ok deals_error
  | Response status data =>
    if (400 <=? status) && (status <? 600) then Ok deals_error
    else
      deals ← py_get data (py "deals") (JList []);
      if negb (truthy deals) then Ok no_deals
      else items ← py_iter deals; format_deals py_repr deals_header items
  end.


(** The texts that [handle_message] passes to [analisar_com_ia]: those
    received in the state [waiting_ai_prompt], and those received in no
    pending state when the assistant is configured. *)
Definition asks_assistant (env : Env) (state : pyval) : bool :=
  pyval_eqb state waiting_ai_prompt
  || (negb (pyval_eqb state waiting_shopee_term)
      && negb (pyval_eqb state waiting_purchase)
      && openai_client env).

(** An update, as [main] routes it: the commands [/start] and [/help], a
    text, the press of a button. *)
Inductive update :=
| Command_start
| Command_help
| Text (message_text : str)
| Callback (data : str).

Definition dispatch (py_repr : json -> str) (env : Env) (u : Z) (upd : update) : M unit :=
  match upd with
  | Command_start => start
  | Command_help => help_command
  | Text message_text => handle_message env u message_text
  | Callback data => handle_callback py_repr env u data
  end.

(** The updates are handled one after the other; a handler that raises
    leaves the state it has reached. *)
Fixpoint process (py_repr : json -> str) (inputs : list (Env * Z * update)) (b : bot) : bot :=
  match inputs with
  | [] => b
  | (env, u, upd) :: r => process py_repr r (final (dispatch py_repr env u upd b))
  end.

(** The four values the code gives to [state]. *)
Definition valid_state (v : pyval) : Prop :=
  v = PyNone ∨ v = waiting_shopee_term ∨ v = waiting_purchase ∨ v = waiting_ai_prompt.

(** The six keys of the menu. *)
Definition menu_keys : list str :=
  [py "deals"; py "shopee_search"; py "add_purchase"; py "my_expenses";
   py "ask_ai"; py "help"].

(** A message sent by [edit_message_text]. *)
Definition edited (t : str) (mode : option str) (no_preview : bool) : message :=
  {| how := Edit; text := t; parse_mode := mode;
     reply_markup := []; disable_web_page_preview := no_preview |}.

(** [p] is at least as recent as [q]. *)
Definition newer_first (p q : Purchase) : Prop :=
  date_leb (date q) (date p) = true.

Definition is_finite (x : float) : bool :=
  match x with
  | S754_zero _ | S754_finite _ _ _ => true
  | _ => false
  end.

(** A message sent by [reply_text] with no other argument. *)
Definition plain (t : str) : message :=
  {| how := Reply; text := t; parse_mode := None;
     reply_markup := []; disable_web_page_preview := false |}.

(** The trace starts by clearing the state of [u], and what follows are
    calls and messages only. *)
Definition clears_first (u : Z) (t : list event) : Prop :=
  ∃ rest, t = SetState u PyNone :: rest
          ∧ Forall (fun e => is_external e = true) rest.

(** An event that is no request to a site, no new row and no change of
    state. *)
Definition no_search_no_row (e : event) : Prop :=
  match e with
  | HttpGet _ _ | DbInsert _ | SetState _ _ => False
  | _ => True
  end.

(** The line of [my_expenses] for a row whose value is a number. *)
Definition expense_text (p : Purchase) : str :=
  py " - " ++ product p ++ py " (R$ " ++ format_f 2 (stored_real (value p)) ++ py ") - "
  ++ category p ++ py " (" ++ strftime_dm (date p) ++ py ")" ++ nl.

(** The line of the assistant's context for a row whose value is a
    number. *)
Definition history_text (p : Purchase) : str :=
  py "- " ++ product p ++ py " (R$ " ++ format_f 2 (stored_real (value p))
  ++ py ") na categoria "
  ++ category p ++ py " em " ++ strftime_dmY (date p).

(** The message that answers [my_expenses], by the rows read. *)
Definition expenses_answer (rows : list Purchase) : res message :=
  match rows with
  | [] => Ok (edited no_purchases None false)
  | _ =>
    match expenses_summary rows with
    | Ok message_text => Ok (edited message_text Markdown false)
    | Raise e => Raise e
    end
  end.

(** What [handle_message] does with a question: the notice, then the
    assistant and, when it returns, its answer. *)
Definition question_run (env : Env) (u : Z) (prompt : str) (b : bot) : run unit :=
  if openai_client env then
    match user_prompt (filter_by_user u (purchases b)) prompt with
    | Ok question =>
      {| result := Ok tt; final := b;
         trace := [Send (plain analysing); DbSelect u;
                   ChatCompletion system_prompt question;
                   Send (plain (ai_answer env))] |}
    | Raise e =>
      {| result := Raise e; final := b;
         trace := [Send (plain analysing); DbSelect u] |}
    end
  else
    {| result := Ok tt; final := b;
       trace := [Send (plain analysing); Send (plain ai_disabled)] |}.

(** ** Test values *)

Definition env0 : Env :=
  {| openai_client := false;
     DISCOUNT_API_KEY := JStr (py "k");
     deals_api := ConnectionFailed;
     shopee := ConnectionFailed;
     openai := None;
     now := {| year := 2024; month := 11; day := 3;
               hour := 10; minute := 30; second := 0; microsecond := 0 |} |}.

Definition bot0 : bot := {| user_data := ∅; purchases := [] |}.

(** User 7 has pressed "Adicionar Compra". *)
Definition bot_purchase : bot := set_pending 7 waiting_purchase bot0.

(** One deal of the test answers of the service. *)
Definition deal (n : Z) : json :=
  JObj [(py "deal",
         JObj [(py "title", JStr (py "Oferta " ++ str_of_Z n));
               (py "price", JInt (10 * n));
               (py "discount_percentage", JInt 50);
               (py "provider", JStr (py "Loja"));
               (py "url", JStr (py "https://loja.example/" ++ str_of_Z n))])].

Definition env_deals (n : nat) : Env :=
  {| openai_client := false;
     DISCOUNT_API_KEY := JStr (py "k");
     deals_api := Response 200 (JObj [(py "deals", JList (map deal (map Z.of_nat (seq 1 n))))]);
     shopee := ConnectionFailed;
     openai := None;
     now := now env0 |}.

(** Six purchases of user 7, one a day from the first of November 2024,
    and one of user 8. *)
Definition purchase (n : N) (u : Z) (produto valor categoria : string) : Purchase :=
  {| id := Z.of_N n; user_id := u; product := py produto;
     value := default S754_nan (float_of_str (py valor));
     category := py categoria;
     date := {| year := 2024; month := 11; day := n;
                hour := 12; minute := 0; second := 0; microsecond := 0 |} |}.

Definition bot_seven : bot :=
  {| user_data := ∅;
     purchases := [ purchase 1 7 "Livro" "10.5" "Lazer";
                    purchase 2 7 "Mercado" "20" "Casa";
                    purchase 3 7 "Bala" "0.1" "Lazer";
                    purchase 4 7 "Chiclete" "0.2" "Lazer";
                    purchase 5 7 "iPhone 15" "5000" "Eletrônicos";
                    purchase 6 7 "Café" "7.25" "Casa";
                    purchase 7 8 "Outro" "99" "Casa" ] |}.

(** The assistant is configured and answers. *)
Definition env_ai : Env :=
  {| openai_client := true;
     DISCOUNT_API_KEY := JStr (py "k");
     deals_api := ConnectionFailed;
     shopee := ConnectionFailed;
     openai := Some (py "Você ainda não registrou compras.");
     now := now env0 |}.

(** ** Further definitions for the statements *)

(** The rows a handler may add: trimmed product and category without a
    hyphen, and a value whose sign bit is clear. *)
Definition row_ok (row : Purchase) : Prop :=
  is_negative (value row) = false
  ∧ strip (product row) = product row ∧ ¬ In 45 (product row)
  ∧ strip (category row) = category row ∧ ¬ In 45 (category row).

(** The keys of the rows are 1, 2, 3, ... in the order of insertion. *)
Definition sequential (rows : list Purchase) : Prop :=
  map id rows = map Z.of_nat (seq 1 (length rows)).

Definition is_insert (e : event) : bool :=
  match e with
  | DbInsert _ => true
  | _ => false
  end.

(** Three updates: user 7 presses "Adicionar Compra" and sends an entry,
    user 8 sends [/start]. *)
Definition three_updates : list (Env * Z * update) :=
  [ (env0, 7%Z, Callback (py "add_purchase"));
    (env0, 7%Z, Text (py "Café - 7,25 - Casa"));
    (env0, 8%Z, Command_start) ].

(** A later time than the dates of all the rows of [bot_seven]. *)
Definition env_later : Env :=
  {| openai_client := true;
     DISCOUNT_API_KEY := JStr (py "k");
     deals_api := ConnectionFailed;
     shopee := ConnectionFailed;
     openai := None;
     now := {| year := 2024; month := 11; day := 20;
               hour := 9; minute := 0; second := 0; microsecond := 0 |} |}.

(** An answer of the service whose second deal has no discount to format. *)
Definition env_bad_deal : Env :=
  {| openai_client := false;
     DISCOUNT_API_KEY := JStr (py "k");
     deals_api := Response 200 (JObj [(py "deals",
       JList [deal 1;
              JObj [(py "deal", JObj [(py "discount_percentage", JNull)])];
              deal 3])]);
     shopee := ConnectionFailed;
     openai := None;
     now := now env0 |}.

(** An answer of the service with [null] for the deals. *)
Definition env_null_deals : Env :=
  {| openai_client := false;
     DISCOUNT_API_KEY := JStr (py "k");
     deals_api := Response 200 (JObj [(py "status", JStr (py "ok")); (py "deals", JNull)]);
     shopee := ConnectionFailed;
     openai := None;
     now := now env0 |}.

(** ** Tactics *)

Ltac run_handler :=
  unfold mbind, M_bind, mret, M_ret, get_state, set_state, session_add,
    query_purchases, reply_text, edit_message_text, send, emit, raise, lift;
  cbv beta; cbn [result final trace app].

Ltac in_state H :=
  rewrite H;
  repeat first
    [ progress change (pyval_eqb waiting_shopee_term waiting_shopee_term) with true
    | progress change (pyval_eqb waiting_purchase waiting_shopee_term) with false
    | progress change (pyval_eqb waiting_purchase waiting_purchase) with true
    | progress change (pyval_eqb waiting_ai_prompt waiting_shopee_term) with false
    | progress change (pyval_eqb waiting_ai_prompt waiting_purchase) with false
    | progress change (pyval_eqb waiting_ai_prompt waiting_ai_prompt) with true
    | progress change (pyval_eqb PyNone waiting_shopee_term) with false
    | progress change (pyval_eqb PyNone waiting_purchase) with false
    | progress change (pyval_eqb PyNone waiting_ai_prompt) with false ];
  cbv beta iota; cbn [result final trace app].

Ltac pick_key :=
  repeat match goal with
  | |- context [str_eqb (py ?a) (py ?b)] =>
    let v := eval vm_compute in (str_eqb (py a) (py b)) in
    change (str_eqb (py a) (py b)) with v
  end;
  cbv beta iota; cbn [result final trace app].

(** ** Python text: examples *)

Example split_iphone :
  map strip (split 45 (py "iPhone 15 - 5000 - Eletrônicos"))
  = [py "iPhone 15"; py "5000"; py "Eletrônicos"].
Proof. vm_compute. reflexivity. Qed.

Example split_empty : split 45 [] = [[]].
Proof. reflexivity. Qed.

Example split_keeps_empty_fields :
  split 45 (py "a-b--c") = [py "a"; py "b"; []; py "c"].
Proof. vm_compute. reflexivity. Qed.

Example strip_spaces : strip (py "  a b ") = py "a b".
Proof. vm_compute. reflexivity. Qed.

Example float_5000 :
  float_of_str (py "5000") = Some (S754_finite false 5497558138880000 (-40)).
Proof. vm_compute. reflexivity. Qed.

Example float_words : float_of_str (py "cinco mil") = None.
Proof. vm_compute. reflexivity. Qed.

Example float_comma : float_of_str (py "5000,50") = None.
Proof. vm_compute. reflexivity. Qed.

Example format_5000 :
  option_map (format_f 2) (float_of_str (py "5000")) = Some (py "5000.00").
Proof. vm_compute. reflexivity. Qed.

Example format_ties_to_even :
  option_map (format_f 2) (float_of_str (py "0.125")) = Some (py "0.12").
Proof. vm_compute. reflexivity. Qed.

Example format_binary_value :
  option_map (format_f 2) (float_of_str (py "2.675")) = Some (py "2.67").
Proof. vm_compute. reflexivity. Qed.

(** ** The bot state *)

Lemma pending_set_pending u v b : pending (set_pending u v b) u = v.
Proof.
  unfold pending, set_pending. cbn [user_data].
  rewrite lookup_insert_eq. cbn. rewrite lookup_insert_eq. reflexivity.
Qed.

Lemma pending_set_pending_ne u u' v b :
  u ≠ u' → pending (set_pending u v b) u' = pending b u'.
Proof.
  intros H. unfold pending, set_pending. cbn [user_data].
  rewrite lookup_insert_ne by exact H. reflexivity.
Qed.

Lemma purchases_set_pending u v b :
  purchases (set_pending u v b) = purchases b.
Proof. reflexivity. Qed.

Lemma pending_bot_purchase : pending bot_purchase 7 = waiting_purchase.
Proof. apply pending_set_pending. Qed.

(** The three pending states are three different values, none of them
    [None]. *)
Lemma states_distinct :
  pyval_eqb waiting_shopee_term waiting_shopee_term = true
  ∧ pyval_eqb waiting_purchase waiting_shopee_term = false
  ∧ pyval_eqb waiting_purchase waiting_purchase = true
  ∧ pyval_eqb waiting_ai_prompt waiting_shopee_term = false
  ∧ pyval_eqb waiting_ai_prompt waiting_purchase = false
  ∧ pyval_eqb waiting_ai_prompt waiting_ai_prompt = true
  ∧ pyval_eqb PyNone waiting_shopee_term = false
  ∧ pyval_eqb PyNone waiting_purchase = false
  ∧ pyval_eqb PyNone waiting_ai_prompt = false.
Proof. vm_compute. repeat split. Qed.

(** What [handle_message] does with a purchase entry, field by field. *)
Lemma handle_message_purchase env u message_text b :
  pending b u = waiting_purchase →
  handle_message env u message_text b =
  match purchase_fields (strip message_text) with
  | [produto; valor_str; categoria] =>
    match float_of_str (replace 44 (py ".") valor_str) with
    | Some valor =>
      let row := {| id := next_id (purchases b); user_id := u;
                    product := produto; value := valor;
                    category := categoria; date := now env |} in
      {| result := Ok tt;
         final := {| user_data := user_data (set_pending u PyNone b);
                     purchases := purchases b ++ [row] |};
         trace := [SetState u PyNone; DbInsert row;
                   Send (plain (purchase_saved produto valor categoria))] |}
    | None =>
      {| result := Ok tt; final := set_pending u PyNone b;
         trace := [SetState u PyNone; Send (plain value_error)] |}
    end
  | _ =>
    {| result := Ok tt; final := set_pending u PyNone b;
       trace := [SetState u PyNone; Send (plain format_error)] |}
  end.
Proof.
  intros H. unfold handle_message. run_handler. in_state H.
  destruct (purchase_fields (strip message_text)) as [|p [|v [|c [|x r]]]];
    try reflexivity.
  destruct (float_of_str (replace 44 (py ".") v)); reflexivity.
Qed.

(** ** Two decimal places *)

Lemma uint_digits_are_digits d : Forall (fun c => isdigit c = true) (uint_digits d).
Proof. induction d; cbn [uint_digits]; constructor; auto. Qed.

Lemma zfill_length w s : (w ≤ length (zfill w s))%nat.
Proof. unfold zfill. rewrite length_app, repeat_length. lia. Qed.

Lemma zfill_digits w s :
  Forall (fun c => isdigit c = true) s →
  Forall (fun c => isdigit c = true) (zfill w s).
Proof.
  intros H. unfold zfill. apply Forall_app. split; [|exact H].
  apply Forall_forall. intros c Hc. apply list_elem_of_In, repeat_spec in Hc. subst c. reflexivity.
Qed.

(** [fixed_point p n] has at least one digit, a point and [p] digits. *)
Lemma fixed_point_shape p n :
  ∃ whole frac,
    fixed_point (S p) n = whole ++ 46 :: frac
    ∧ whole ≠ [] ∧ length frac = S p
    ∧ Forall (fun c => isdigit c = true) (whole ++ frac).
Proof.
  unfold fixed_point.
  set (ds := zfill (S (S p)) (str_of_N (Z.to_N n))).
  assert (Hlen : (S (S p) ≤ length ds)%nat) by apply zfill_length.
  exists (take (length ds - S p) ds), (drop (length ds - S p) ds).
  split; [reflexivity|]. split; [|split].
  - intros E. apply (f_equal length) in E. rewrite length_take in E.
    cbn [length] in E. lia.
  - rewrite length_drop. lia.
  - rewrite take_drop. apply zfill_digits, uint_digits_are_digits.
Qed.

Lemma format_f_two_places x :
  is_finite x = true →
  ∃ whole frac,
    format_f 2 x = sign_str (is_negative x) ++ whole ++ 46 :: frac
    ∧ whole ≠ [] ∧ length frac = 2%nat
    ∧ Forall (fun c => isdigit c = true) (whole ++ frac).
Proof.
  destruct x as [s|s| |s m e]; cbn [is_finite]; try discriminate; intros _;
    unfold format_f; cbn [is_negative].
  - destruct (fixed_point_shape 1 0) as (w & f & E & H). exists w, f. rewrite E. auto.
  - match goal with |- context [fixed_point 2 ?n] =>
      destruct (fixed_point_shape 1 n) as (w & f & E & H) end.
    exists w, f. rewrite E. auto.
Qed.

(** ** Values read from the table *)

Lemma loaded_value_number p :
  value p ≠ S754_nan → loaded_value p = Some (stored_real (value p)).
Proof.
  unfold loaded_value. destruct (value p); cbn [is_nan]; congruence.
Qed.

(** A value whose sign bit is clear is read as it was written. *)
Lemma stored_real_not_negative x : is_negative x = false → stored_real x = x.
Proof. destruct x as [s|s| |s m e]; cbn; congruence. Qed.

Lemma stored_real_sign x : is_negative x = false → is_negative (stored_real x) = false.
Proof. intros H. rewrite (stored_real_not_negative _ H). exact H. Qed.

Lemma loaded_value_null p :
  value p = S754_nan → loaded_value p = None.
Proof. unfold loaded_value. intros ->. reflexivity. Qed.

(** Either every value reads as a number, or some value is NULL. *)
Lemma numbers_or_null (rows : list Purchase) :
  Forall (fun p => value p ≠ S754_nan) rows
  ∨ Exists (fun p => value p = S754_nan) rows.
Proof.
  induction rows as [|p r [IH|IH]].
  - left. constructor.
  - destruct (is_nan (value p)) eqn:E.
    + right. left. destruct (value p); cbn [is_nan] in E; congruence.
    + left. constructor; [|exact IH]. intros F. rewrite F in E. discriminate E.
  - right. right. exact IH.
Qed.

Lemma numbers_not_null (rows : list Purchase) :
  Forall (fun p => value p ≠ S754_nan) rows →
  Exists (fun p => value p = S754_nan) rows → False.
Proof.
  intros Hall Hex. rewrite Forall_forall in Hall. apply Exists_exists in Hex.
  destruct Hex as (p & Hp & E). exact (Hall p Hp E).
Qed.

Lemma sum_loaded_numbers rows acc :
  Forall (fun p => value p ≠ S754_nan) rows →
  sum_loaded acc (map loaded_value rows)
  = Ok (fold_left float_add (map (fun p => stored_real (value p)) rows) acc).
Proof.
  intros H. revert acc. induction H as [|p r Hp _ IH]; intros acc; [reflexivity|].
  cbn [map sum_loaded fold_left]. rewrite (loaded_value_number _ Hp). apply IH.
Qed.

Lemma sum_loaded_null rows acc :
  Exists (fun p => value p = S754_nan) rows →
  sum_loaded acc (map loaded_value rows) = Raise TypeError.
Proof.
  intros H. revert acc. induction rows as [|p r IH]; intros acc.
  - inversion H.
  - cbn [map sum_loaded]. destruct (loaded_value p) as [x|] eqn:E; [|reflexivity].
    apply IH. inversion H as [? ? Hp|? ? Hr]; subst; [|exact Hr].
    rewrite (loaded_value_null _ Hp) in E. discriminate E.
Qed.

(** When [sum] returns, the total is the left-to-right sum of the values
    as the table keeps them, which are the values themselves when no sign
    bit is set. *)
Lemma py_sum_total rows t :
  py_sum (map loaded_value rows) = Ok t →
  t = float_sum (map (fun p => stored_real (value p)) rows)
  ∧ (Forall (fun p => is_negative (value p) = false) rows →
     t = float_sum (map value rows)).
Proof.
  intros H. unfold py_sum in H.
  destruct (numbers_or_null rows) as [Hnum|Hnull];
    [|rewrite (sum_loaded_null _ _ Hnull) in H; discriminate H].
  rewrite (sum_loaded_numbers _ _ Hnum) in H. injection H as <-.
  split; [reflexivity|]. intros Hsign. unfold float_sum. f_equal.
  clear Hnum. induction Hsign as [|p r Hp _ IH]; [reflexivity|].
  cbn [map]. rewrite (stored_real_not_negative _ Hp), IH. reflexivity.
Qed.

Lemma mapM_cons {A B} (f : A → res B) x l :
  mapM f (x :: l)
  = match f x with
    | Ok y => match mapM f l with
              | Ok k => Ok (y :: k)
              | Raise e => Raise e
              end
    | Raise e => Raise e
    end.
Proof. reflexivity. Qed.

Lemma mapM_numbers {B} (f : Purchase → res B) (g : Purchase → B) rows :
  (∀ p, value p ≠ S754_nan → f p = Ok (g p)) →
  Forall (fun p => value p ≠ S754_nan) rows →
  mapM f rows = Ok (map g rows).
Proof.
  intros Hf H. induction H as [|p r Hp _ IH]; [reflexivity|].
  rewrite mapM_cons, (Hf _ Hp), IH. reflexivity.
Qed.

Lemma mapM_null {B} (f : Purchase → res B) rows :
  (∀ p, value p = S754_nan → f p = Raise TypeError) →
  (∀ p e, f p = Raise e → e = TypeError) →
  Exists (fun p => value p = S754_nan) rows →
  mapM f rows = Raise TypeError.
Proof.
  intros Hnull Hexn H. induction rows as [|p r IH]; [inversion H|].
  rewrite mapM_cons.
  destruct (f p) as [y|e] eqn:E; [|rewrite (Hexn _ _ E); reflexivity].
  rewrite IH; [reflexivity|].
  inversion H as [? ? Hp|? ? Hr]; subst; [|exact Hr].
  rewrite (Hnull _ Hp) in E. discriminate E.
Qed.

Lemma expense_line_number p :
  value p ≠ S754_nan → expense_line p = Ok (expense_text p).
Proof.
  intros H. unfold expense_line. rewrite (loaded_value_number _ H). reflexivity.
Qed.

Lemma history_line_number p :
  value p ≠ S754_nan → history_line p = Ok (history_text p).
Proof.
  intros H. unfold history_line. rewrite (loaded_value_number _ H). reflexivity.
Qed.

Lemma history_line_null p :
  value p = S754_nan → history_line p = Raise TypeError.
Proof.
  intros H. unfold history_line. rewrite (loaded_value_null _ H). reflexivity.
Qed.

Lemma history_line_raises p e : history_line p = Raise e → e = TypeError.
Proof.
  unfold history_line. destruct (loaded_value p); cbn [format_loaded];
    unfold mbind, res_bind, mret, res_ret; congruence.
Qed.

(** The summary of rows whose values are numbers: the left-to-right sum
    of all the values, the number of rows, and the lines of the first five
    rows. *)
Lemma expenses_summary_numbers rows :
  Forall (fun p => value p ≠ S754_nan) rows →
  expenses_summary rows
  = Ok (py "📊 **Resumo dos Seus Gastos (Persistente)** 📊" ++ nl ++ nl
        ++ py "Total Gasto: **R$ "
        ++ format_f 2 (float_sum (map (fun p => stored_real (value p)) rows))
        ++ py "**" ++ nl
        ++ py "Número de Compras: **" ++ str_of_N (N.of_nat (length rows))
        ++ py "**" ++ nl ++ nl
        ++ py "**Últimas Compras Registradas:**" ++ nl
        ++ concat (map expense_text (take 5 rows))).
Proof.
  intros H. unfold expenses_summary, py_sum.
  assert (H5 : Forall (fun p => value p ≠ S754_nan) (take 5 rows))
    by (apply Forall_take, H).
  rewrite (sum_loaded_numbers _ _ H).
  rewrite (mapM_numbers expense_line expense_text (take 5 rows) expense_line_number H5).
  unfold mbind, res_bind, mret, res_ret, float_sum. f_equal.
  rewrite <- !app_assoc. reflexivity.
Qed.

Lemma expenses_summary_null rows :
  Exists (fun p => value p = S754_nan) rows →
  expenses_summary rows = Raise TypeError.
Proof.
  intros H. unfold expenses_summary, py_sum. rewrite (sum_loaded_null _ _ H).
  reflexivity.
Qed.

(** The context of rows whose values are numbers. *)
Lemma context_data_numbers rows :
  Forall (fun p => value p ≠ S754_nan) rows →
  context_data rows
  = Ok match rows with
       | [] => py "O usuário ainda não registrou nenhuma compra."
       | _ =>
         py "O usuário já gastou um total de R$ "
         ++ format_f 2 (float_sum (map (fun p => stored_real (value p)) rows))
         ++ py " em "
         ++ str_of_N (N.of_nat (length rows)) ++ py " compras. "
         ++ py "Aqui está o histórico detalhado:" ++ nl
         ++ join nl (map history_text rows)
       end.
Proof.
  intros H. unfold context_data. destruct rows as [|p r]; [reflexivity|].
  rewrite (mapM_numbers history_line history_text _ history_line_number H).
  unfold py_sum. unfold mbind, res_bind.
  rewrite (sum_loaded_numbers _ _ H). reflexivity.
Qed.

Lemma context_data_null rows :
  Exists (fun p => value p = S754_nan) rows →
  context_data rows = Raise TypeError.
Proof.
  intros H. unfold context_data. destruct rows as [|p r]; [inversion H|].
  rewrite (mapM_null history_line _ history_line_null history_line_raises H).
  reflexivity.
Qed.

Lemma user_prompt_numbers rows prompt :
  Forall (fun p => value p ≠ S754_nan) rows →
  ∃ context,
    context_data rows = Ok context
    ∧ user_prompt rows prompt
      = Ok (py "Contexto de gastos do usuário:" ++ nl ++ context ++ nl ++ nl
            ++ py "Pergunta do usuário: " ++ prompt).
Proof.
  intros H. eexists. split; [apply (context_data_numbers _ H)|].
  unfold user_prompt. rewrite (context_data_numbers _ H). reflexivity.
Qed.

Lemma user_prompt_null rows prompt :
  Exists (fun p => value p = S754_nan) rows →
  user_prompt rows prompt = Raise TypeError.
Proof.
  intros H. unfold user_prompt. rewrite (context_data_null _ H). reflexivity.
Qed.

(** ** The clients never touch the bot state *)

Lemma buscar_shopee_scraping_run env termo b :
  buscar_shopee_scraping env termo b =
  {| result := Ok (shopee_answer env termo);
     final := b;
     trace := [HttpGet (shopee_url termo) []] |}.
Proof.
  unfold buscar_shopee_scraping, shopee_answer, try_except, requests_get.
  run_handler. destruct (shopee env) as [|status hrefs]; cbn; [reflexivity|].
  destruct ((400 <=? status) && (status <? 600)); cbn; [reflexivity|].
  destruct (product_links hrefs); reflexivity.
Qed.

Lemma analisar_com_ia_run env u prompt b :
  analisar_com_ia env u prompt b =
  if openai_client env then
    match user_prompt (filter_by_user u (purchases b)) prompt with
    | Ok question =>
      {| result := Ok (ai_answer env); final := b;
         trace := [DbSelect u; ChatCompletion system_prompt question] |}
    | Raise e => {| result := Raise e; final := b; trace := [DbSelect u] |}
    end
  else {| result := Ok ai_disabled; final := b; trace := [] |}.
Proof.
  unfold analisar_com_ia, ai_answer. destruct (openai_client env); cbn [negb].
  - run_handler.
    destruct (user_prompt (filter_by_user u (purchases b)) prompt) as [question|e];
      cbn [result final trace app]; [|reflexivity].
    destruct (openai env); reflexivity.
  - reflexivity.
Qed.

(** ** A question for the assistant *)

Lemma question_run_final env u prompt b :
  final (question_run env u prompt b) = b.
Proof.
  unfold question_run. destruct (openai_client env); [|reflexivity].
  destruct (user_prompt _ _); reflexivity.
Qed.

(** A question changes no state, searches nothing and adds no row. *)
Lemma question_run_quiet env u prompt b :
  let t := trace (question_run env u prompt b) in
  Forall no_search_no_row t
  ∧ Forall (fun e => is_external e = true) t
  ∧ filter is_insert t = [].
Proof.
  unfold question_run. destruct (openai_client env);
    [destruct (user_prompt _ _)|]; cbn [trace];
    (split; [repeat constructor|split; [repeat constructor|reflexivity]]).
Qed.

Lemma question_run_without_key env u prompt b :
  openai_client env = false →
  question_run env u prompt b
  = {| result := Ok tt; final := b;
       trace := [Send (plain analysing); Send (plain ai_disabled)] |}.
Proof. intros H. unfold question_run. rewrite H. reflexivity. Qed.

(** With a key and values that read as numbers: the notice, the query,
    the call with the context and the question, and the answer. *)
Lemma question_run_numbers env u prompt b :
  openai_client env = true →
  Forall (fun p => value p ≠ S754_nan) (filter_by_user u (purchases b)) →
  ∃ context,
    context_data (filter_by_user u (purchases b)) = Ok context
    ∧ question_run env u prompt b
      = {| result := Ok tt; final := b;
           trace := [Send (plain analysing); DbSelect u;
                     ChatCompletion system_prompt
                       (py "Contexto de gastos do usuário:" ++ nl ++ context ++ nl ++ nl
                        ++ py "Pergunta do usuário: " ++ prompt);
                     Send (plain match openai env with
                                 | Some content => content
                                 | None => ai_error
                                 end)] |}.
Proof.
  intros Hkey H. destruct (user_prompt_numbers _ prompt H) as (context & Hc & Hp).
  exists context. split; [exact Hc|].
  unfold question_run, ai_answer. rewrite Hkey, Hp. reflexivity.
Qed.

(** With a key and a value that is NULL: the notice and the query, and
    the [TypeError] of the format leaves the handler. *)
Lemma question_run_null env u prompt b :
  openai_client env = true →
  Exists (fun p => value p = S754_nan) (filter_by_user u (purchases b)) →
  question_run env u prompt b
  = {| result := Raise TypeError; final := b;
       trace := [Send (plain analysing); DbSelect u] |}.
Proof.
  intros Hkey H. unfold question_run. rewrite Hkey, (user_prompt_null _ prompt H).
  reflexivity.
Qed.

(** ** The four branches of [handle_message] *)

Lemma handle_message_shopee env u message_text b :
  pending b u = waiting_shopee_term →
  handle_message env u message_text b =
  {| result := Ok tt;
     final := set_pending u PyNone b;
     trace := [SetState u PyNone;
               HttpGet (shopee_url (strip message_text)) [];
               Send {| how := Reply;
                       text := shopee_answer env (strip message_text);
                       parse_mode := Markdown; reply_markup := [];
                       disable_web_page_preview := false |}] |}.
Proof.
  intros H. unfold handle_message. run_handler. in_state H.
  rewrite buscar_shopee_scraping_run. reflexivity.
Qed.

Lemma handle_message_ai env u message_text b :
  pending b u = waiting_ai_prompt →
  handle_message env u message_text b =
  let q := question_run env u (strip message_text) b in
  {| result := result q;
     final := set_pending u PyNone b;
     trace := SetState u PyNone :: trace q |}.
Proof.
  intros H. unfold handle_message. run_handler. in_state H.
  rewrite analisar_com_ia_run. unfold question_run, ai_answer.
  rewrite purchases_set_pending.
  destruct (openai_client env); [|reflexivity].
  destruct (user_prompt (filter_by_user u (purchases b)) (strip message_text));
    reflexivity.
Qed.

(** Any other state, [None] among them: the text is a question for the
    assistant when there is one. *)
Lemma handle_message_other env u message_text b :
  pyval_eqb (pending b u) waiting_shopee_term = false →
  pyval_eqb (pending b u) waiting_purchase = false →
  pyval_eqb (pending b u) waiting_ai_prompt = false →
  handle_message env u message_text b =
  if openai_client env then question_run env u (strip message_text) b
  else {| result := Ok tt; final := b; trace := [Send (plain unrecognized)] |}.
Proof.
  intros H1 H2 H3. unfold handle_message. run_handler.
  rewrite H1, H2, H3. cbv beta iota. cbn [result final trace app].
  destruct (openai_client env) eqn:E; [|reflexivity].
  rewrite analisar_com_ia_run, E. unfold question_run, ai_answer. rewrite E.
  destruct (user_prompt (filter_by_user u (purchases b)) (strip message_text));
    reflexivity.
Qed.

Lemma handle_message_none env u message_text b :
  pending b u = PyNone →
  handle_message env u message_text b =
  if openai_client env then question_run env u (strip message_text) b
  else {| result := Ok tt; final := b; trace := [Send (plain unrecognized)] |}.
Proof.
  intros H. apply handle_message_other; rewrite H; reflexivity.
Qed.

(** ** Rejecting a purchase entry *)

Lemma corrective_messages_differ : format_error ≠ value_error.
Proof. vm_compute. discriminate. Qed.

(** C2, with the state cleared: a text received while the user's state is
    [waiting_purchase] that has not three fields, or has three and a value
    that [float] refuses once its commas are periods, adds no row and is
    answered by one corrective message, the format error in the first case
    and the value error in the second; the only change is that this user's
    state is cleared to [None]. *)
Theorem purchase_entry_rejected env u message_text b :
  pending b u = waiting_purchase →
  let fields := purchase_fields (strip message_text) in
  (length fields ≠ 3%nat
   ∨ ∃ produto valor_str categoria,
       fields = [produto; valor_str; categoria]
       ∧ float_of_str (replace 44 (py ".") valor_str) = None) →
  let r := handle_message env u message_text b in
  result r = Ok tt
  ∧ purchases (final r) = purchases b
  ∧ trace r = [SetState u PyNone;
               Send (plain (if (length fields =? 3)%nat
                            then value_error else format_error))]
  ∧ format_error ≠ value_error
  ∧ final r = set_pending u PyNone b
  ∧ pending (final r) u = PyNone
  ∧ (∀ u', u ≠ u' → pending (final r) u' = pending b u').
Proof.
  intros Hstate fields Hbad r. subst r.
  rewrite (handle_message_purchase _ _ _ _ Hstate). fold fields.
  assert (E : ∀ t, final {| result := Ok tt; final := set_pending u PyNone b; trace := t |}
                   = set_pending u PyNone b) by reflexivity.
  destruct Hbad as [Hlen | (p & v & c & Hf & Hv)].
  - destruct fields as [|p [|v [|c [|x rest]]]]; cbn [length] in *;
      try lia; cbn [result final trace Nat.eqb];
      (split; [reflexivity|]; split; [reflexivity|]; split; [reflexivity|];
       split; [exact corrective_messages_differ|]; split; [reflexivity|];
       split; [apply pending_set_pending|];
       intros u' Hu; apply pending_set_pending_ne; exact Hu).
  - rewrite Hf, Hv. cbn [result final trace length Nat.eqb].
    split; [reflexivity|]; split; [reflexivity|]; split; [reflexivity|].
    split; [exact corrective_messages_differ|]; split; [reflexivity|].
    split; [apply pending_set_pending|].
    intros u' Hu. apply pending_set_pending_ne. exact Hu.
Qed.

Lemma purchase_entry_rejected_cinco_mil :
  let message_text := py "iPhone 15 - cinco mil - Eletrônicos" in
  let fields := purchase_fields (strip message_text) in
  let r := handle_message env0 7 message_text bot_purchase in
  (pending bot_purchase 7 = waiting_purchase
   ∧ fields = [py "iPhone 15"; py "cinco mil"; py "Eletrônicos"]
   ∧ float_of_str (replace 44 (py ".") (py "cinco mil")) = None)
  ∧ result r = Ok tt
  ∧ purchases (final r) = purchases bot_purchase
  ∧ trace r = [SetState 7 PyNone;
               Send (plain (if (length fields =? 3)%nat
                            then value_error else format_error))]
  ∧ format_error ≠ value_error
  ∧ final r = set_pending 7 PyNone bot_purchase
  ∧ pending (final r) 7 = PyNone
  ∧ (∀ u', 7%Z ≠ u' → pending (final r) u' = pending bot_purchase u').
Proof.
  intros message_text fields r.
  assert (H1 : pending bot_purchase 7 = waiting_purchase)
    by (vm_compute; reflexivity).
  assert (H2 : fields = [py "iPhone 15"; py "cinco mil"; py "Eletrônicos"])
    by (vm_compute; reflexivity).
  assert (H3 : float_of_str (replace 44 (py ".") (py "cinco mil")) = None)
    by (vm_compute; reflexivity).
  split; [split; [exact H1 | split; [exact H2 | exact H3]]|].
  apply (purchase_entry_rejected env0 7 message_text bot_purchase H1).
  right. exists (py "iPhone 15"), (py "cinco mil"), (py "Eletrônicos").
  split; [exact H2 | exact H3].
Defined.

(** C2 says that a rejected entry mutates no state; the rejected entry
    below changes the state of user 7 from [waiting_purchase] to [None]. *)
Lemma purchase_rejection_clears_state :
  let message_text := py "iPhone 15 - cinco mil - Eletrônicos" in
  let r := handle_message env0 7 message_text bot_purchase in
  purchase_fields (strip message_text)
    = [py "iPhone 15"; py "cinco mil"; py "Eletrônicos"]
  ∧ float_of_str (replace 44 (py ".") (py "cinco mil")) = None
  ∧ pending bot_purchase 7 = waiting_purchase
  ∧ sent (trace r) = [plain value_error]
  ∧ pending (final r) 7 = PyNone
  ∧ final r ≠ bot_purchase.
Proof.
  cbv zeta.
  split; [vm_compute; reflexivity|]. split; [vm_compute; reflexivity|].
  split; [vm_compute; reflexivity|]. split; [vm_compute; reflexivity|].
  split; [vm_compute; reflexivity|].
  intros E. apply (f_equal (fun x => pending x 7)) in E.
  vm_compute in E. discriminate E.
Qed.

(** ** The pending state is used once *)

(** C3: when a text arrives while the user's state is one of the three
    pending states, the first thing the handler does is to set the state to
    [None]; every call to a service, to the table or to the chat comes
    after it, and the state is not written again.  A second text of the same
    user is then the fall-through case, whatever the first text was: it
    searches nothing, adds no row and leaves the bot state as it is.
    Without a key it is answered by the unrecognized-command message.  With
    a key it is a question for the assistant: the notice is sent, and then
    the answer when the values of the user's rows read as numbers; when one
    of them is NULL, the [TypeError] of the format leaves the handler after
    the notice. *)
Theorem pending_state_consumed_once env u message_text b :
  pending b u = waiting_shopee_term
  ∨ pending b u = waiting_purchase
  ∨ pending b u = waiting_ai_prompt →
  let r := handle_message env u message_text b in
  clears_first u (trace r)
  ∧ pending (final r) u = PyNone
  ∧ ∀ env' message_text',
      let r' := handle_message env' u message_text' (final r) in
      let mine := filter_by_user u (purchases (final r)) in
      final r' = final r
      ∧ Forall no_search_no_row (trace r')
      ∧ (openai_client env' = false →
         result r' = Ok tt ∧ sent (trace r') = [plain unrecognized])
      ∧ (openai_client env' = true →
         Forall (fun p => value p ≠ S754_nan) mine →
         result r' = Ok tt
         ∧ sent (trace r') = [plain analysing;
                              plain match openai env' with
                                    | Some content => content
                                    | None => ai_error
                                    end])
      ∧ (openai_client env' = true →
         Exists (fun p => value p = S754_nan) mine →
         result r' = Raise TypeError ∧ sent (trace r') = [plain analysing]).
Proof.
  intros Hstate r.
  assert (Hfirst : clears_first u (trace r) ∧ pending (final r) u = PyNone).
  { subst r. destruct Hstate as [H | [H | H]].
    - rewrite (handle_message_shopee _ _ _ _ H). cbn [trace final].
      split; [|apply pending_set_pending].
      eexists. split; [reflexivity|]. repeat constructor.
    - rewrite (handle_message_purchase _ _ _ _ H).
      destruct (purchase_fields (strip message_text)) as [|p [|v [|c [|x t]]]];
        try (cbn [trace final]; split; [|apply pending_set_pending];
             eexists; split; [reflexivity|]; repeat constructor).
      destruct (float_of_str (replace 44 (py ".") v)); cbn [trace final].
      + split; [|apply (pending_set_pending u PyNone b)].
        eexists. split; [reflexivity|]. repeat constructor.
      + split; [|apply pending_set_pending].
        eexists. split; [reflexivity|]. repeat constructor.
    - rewrite (handle_message_ai _ _ _ _ H). cbn [trace final].
      split; [|apply pending_set_pending].
      eexists. split; [reflexivity|]. apply question_run_quiet. }
  destruct Hfirst as [Hc Hnone]. split; [exact Hc|]. split; [exact Hnone|].
  intros env' message_text' r' mine. subst r' mine.
  rewrite (handle_message_none _ _ _ _ Hnone).
  destruct (openai_client env') eqn:Hkey.
  - split; [apply question_run_final|].
    split; [apply question_run_quiet|]. split; [discriminate|]. split.
    + intros _ Hnum.
      destruct (question_run_numbers env' u (strip message_text') _ Hkey Hnum)
        as (context & _ & ->).
      split; reflexivity.
    + intros _ Hnull. rewrite (question_run_null _ _ _ _ Hkey Hnull).
      split; reflexivity.
  - cbn [final trace result sent]. split; [reflexivity|].
    split; [repeat constructor|]. split; [split; reflexivity|].
    split; discriminate.
Qed.

(** ** Hyphens in a purchase entry *)

Lemma split_length sep s :
  length (split sep s) = S (hyphens sep s).
Proof.
  unfold hyphens. induction s as [|c r IH]; [reflexivity|].
  cbn [split count_occ]. destruct (N.eqb_spec c sep) as [E|E].
  - destruct (N.eq_dec c sep); [|contradiction]. cbn [length]. rewrite IH. reflexivity.
  - destruct (N.eq_dec c sep); [contradiction|].
    destruct (split sep r) as [|f fs]; [discriminate IH|]. exact IH.
Qed.

Lemma split_fields_without_sep sep s :
  Forall (fun f => ¬ In sep f) (split sep s).
Proof.
  induction s as [|c r IH]; cbn [split].
  - constructor; [intros []|constructor].
  - destruct (N.eqb_spec c sep) as [E|E].
    + constructor; [intros []|exact IH].
    + destruct (split sep r) as [|f fs]; [repeat constructor; intros [H|[]]; auto|].
      inversion IH as [|? ? Hf Hfs]; subst. constructor; [|exact Hfs].
      intros [H|H]; auto.
Qed.

Lemma lstrip_keeps c s :
  isspace c = false → hyphens c (lstrip s) = hyphens c s.
Proof.
  intros Hc. unfold hyphens. induction s as [|x r IH]; [reflexivity|].
  cbn [lstrip]. destruct (isspace x) eqn:Hx; [|reflexivity].
  rewrite IH. cbn [count_occ].
  destruct (N.eq_dec x c); [congruence|reflexivity].
Qed.

Lemma strip_keeps c s :
  isspace c = false → hyphens c (strip s) = hyphens c s.
Proof.
  intros Hc. unfold strip, rstrip.
  unfold hyphens at 1. rewrite count_occ_rev. fold (hyphens c (lstrip (rev (lstrip s)))).
  rewrite (lstrip_keeps _ _ Hc). unfold hyphens at 1. rewrite count_occ_rev.
  apply lstrip_keeps, Hc.
Qed.

Lemma lstrip_incl c s : In c (lstrip s) → In c s.
Proof.
  induction s as [|x r IH]; cbn [lstrip]; [auto|].
  destruct (isspace x); [right; auto|auto].
Qed.

Lemma strip_incl c s : In c (strip s) → In c s.
Proof.
  unfold strip, rstrip. intros H.
  apply in_rev, lstrip_incl, in_rev in H. apply lstrip_incl, H.
Qed.

Lemma replace_comma_no_hyphen s : In 45 (replace 44 (py ".") s) → In 45 s.
Proof.
  induction s as [|x r IH]; cbn [replace]; [auto|].
  intros H. apply in_app_or in H. destruct H as [H|H]; [|right; auto].
  destruct (x =? 44); [|left; destruct H as [H|[]]; exact H].
  vm_compute in H. destruct H as [H|[]]. discriminate H.
Qed.

(** The fields of an entry with [n] hyphens are [n + 1]. *)
Lemma purchase_fields_length message_text :
  length (purchase_fields (strip message_text)) = S (hyphens 45 message_text).
Proof.
  unfold purchase_fields. rewrite length_map, split_length.
  rewrite strip_keeps; reflexivity.
Qed.

Lemma purchase_fields_without_hyphen message_text :
  Forall (fun f => ¬ In 45 f) (purchase_fields message_text).
Proof.
  unfold purchase_fields. apply Forall_map.
  eapply Forall_impl; [apply split_fields_without_sep|].
  intros f Hf Hin. apply Hf, strip_incl, Hin.
Qed.

(** ** The sign of a parsed number *)

Lemma binary_round_aux_sign sx mx ex lx :
  is_negative (binary_round_aux prec emax sx mx ex lx) = true → sx = true.
Proof.
  unfold binary_round_aux.
  destruct (shr_fexp prec emax mx ex lx) as [mrs' e'].
  destruct (shr_fexp prec emax _ e' loc_Exact) as [mrs'' e''].
  destruct (shr_m mrs''); cbn [is_negative]; try discriminate; auto.
  destruct (Z.leb e'' (Z.sub emax prec)); cbn [is_negative]; auto.
Qed.

Lemma binary_round_sign sx mx ex :
  is_negative (binary_round prec emax sx mx ex) = true → sx = true.
Proof.
  unfold binary_round. destruct (shl_align mx ex _) as [mz ez].
  apply binary_round_aux_sign.
Qed.

Lemma float_of_decimal_sign neg m e :
  is_negative (float_of_decimal neg m e) = true → neg = true.
Proof.
  destruct neg; [reflexivity|]. unfold float_of_decimal.
  destruct m as [|p]; [auto|].
  destruct (0 <=? e)%Z eqn:He.
  - assert (0 <= Z.pos p * 10 ^ e)%Z
      by (apply Z.mul_nonneg_nonneg; [lia | apply Z.pow_nonneg; lia]).
    destruct (Z.pos p * 10 ^ e)%Z as [|q|q] eqn:E; cbn [binary_normalize is_negative];
      [auto | apply binary_round_sign | lia].
  - destruct (SFdiv_core_binary prec emax (Z.pos p) 0 (10 ^ (- e)) 0) as [[q e'] l].
    apply binary_round_aux_sign.
Qed.

Lemma parse_unsigned_sign neg s x :
  parse_unsigned neg s = Some x → is_negative x = true → neg = true.
Proof.
  unfold parse_unsigned.
  destruct (str_eqb (map lower s) (py "inf") || str_eqb (map lower s) (py "infinity")).
  { intros [= <-]. auto. }
  destruct (str_eqb (map lower s) (py "nan")).
  { intros [= <-]. discriminate. }
  destruct (span_digits s) as [ip r1].
  destruct (match r1 with 46 :: t => span_digits t | _ => ([], r1) end) as [fp r2].
  destruct (ip ++ fp) as [|d ds]; [discriminate|].
  destruct (parse_exponent r2); [|discriminate].
  intros [= <-]. apply float_of_decimal_sign.
Qed.

Lemma parse_sign_negative s r : parse_sign s = (true, r) → s = 45 :: r.
Proof.
  destruct s as [|c t]; cbn [parse_sign]; [discriminate|].
  destruct c as [|p]; [discriminate|].
  do 6 (destruct p as [p|p|]; try discriminate).
  intros [= <-]. reflexivity.
Qed.

Lemma remove_underscores_incl prev s u c :
  remove_underscores prev s = Some u → In c u → In c s.
Proof.
  revert prev u. induction s as [|x r IH]; intros prev u; cbn [remove_underscores].
  - destruct (prev =? 95); [discriminate|]. intros [= <-] [].
  - destruct (x =? 95).
    + destruct (isdigit prev); [|discriminate]. intros H Hc. right. eapply IH; eauto.
    + destruct ((prev =? 95) && negb (isdigit x)); [discriminate|].
      destruct (remove_underscores x r) as [u'|] eqn:E; [|discriminate].
      intros [= <-] [Hc|Hc]; [left; exact Hc|right; eapply IH; eauto].
Qed.

Lemma ascii_lstrip_incl c s : In c (ascii_lstrip s) → In c s.
Proof.
  induction s as [|x r IH]; cbn [ascii_lstrip]; [auto|].
  destruct (ascii_isspace x); [right; auto|auto].
Qed.

Lemma ascii_strip_incl c s : In c (ascii_strip s) → In c s.
Proof.
  unfold ascii_strip. intros H.
  apply in_rev, ascii_lstrip_incl, in_rev in H. apply ascii_lstrip_incl, H.
Qed.

Lemma transform_no_hyphen s :
  In 45 (transform_decimal_and_space s) → In 45 s.
Proof.
  induction s as [|x r IH]; cbn [transform_decimal_and_space]; [auto|].
  destruct (x <? 127).
  { intros [H|H]; [left; exact H|right; auto]. }
  destruct (isspace x).
  { intros [H|H]; [discriminate H|right; auto]. }
  destruct (Py_UNICODE_TODECIMAL x) as [d|].
  - intros [H|H]; [lia|right; auto].
  - intros [H|[]]. discriminate H.
Qed.

Lemma to_ascii_no_hyphen s : In 45 (to_ascii s) → In 45 s.
Proof.
  unfold to_ascii. destruct (forallb _ s); [auto|apply transform_no_hyphen].
Qed.

(** [float] gives a number with the sign bit set only to a text that has
    a minus sign. *)
Lemma float_of_str_negative s x :
  float_of_str s = Some x → is_negative x = true → In 45 s.
Proof.
  unfold float_of_str. intros H Hneg.
  apply to_ascii_no_hyphen, ascii_strip_incl.
  destruct (ascii_strip (to_ascii s)) as [|c t]; [discriminate|].
  set (core := c :: t) in *.
  destruct (if existsb (N.eqb 95) core then remove_underscores 0 core else Some core)
    as [u|] eqn:Hu; [|discriminate].
  destruct (parse_sign u) as [neg r] eqn:Hs.
  pose proof (parse_unsigned_sign _ _ _ H Hneg) as ->.
  apply parse_sign_negative in Hs. subst u.
  destruct (existsb (N.eqb 95) core).
  - eapply remove_underscores_incl; [exact Hu|left; reflexivity].
  - injection Hu as <-. left. reflexivity.
Qed.

(** C10: while the user's state is [waiting_purchase], an entry written
    as product, value and category around two hyphens, in which the product,
    the value or the category has a hyphen of its own (a minus sign before
    the value is one), has more than three fields, is answered by the format
    error and adds no row; and whatever the text, a row added by this
    handler has a value whose sign bit is clear. *)
Theorem hyphenated_entry_rejected env u b :
  pending b u = waiting_purchase →
  (∀ produto valor categoria,
     In 45 produto ∨ In 45 valor ∨ In 45 categoria →
     let message_text := produto ++ py " - " ++ valor ++ py " - " ++ categoria in
     let r := handle_message env u message_text b in
     (3 < length (purchase_fields (strip message_text)))%nat
     ∧ sent (trace r) = [plain format_error]
     ∧ purchases (final r) = purchases b)
  ∧ (∀ message_text added,
       let r := handle_message env u message_text b in
       purchases (final r) = purchases b ++ added →
       Forall (fun row => is_negative (value row) = false) added).
Proof.
  intros Hstate. split.
  - intros produto valor categoria Hin message_text r.
    assert (Hlen : (3 < length (purchase_fields (strip message_text)))%nat).
    { rewrite purchase_fields_length. subst message_text. unfold hyphens.
      rewrite !count_occ_app.
      change (count_occ N.eq_dec (py " - ") 45) with 1%nat.
      destruct Hin as [Hin|[Hin|Hin]];
        apply (count_occ_In N.eq_dec) in Hin; lia. }
    split; [exact Hlen|]. subst r.
    rewrite (handle_message_purchase _ _ _ _ Hstate).
    destruct (purchase_fields (strip message_text)) as [|p [|v [|c [|x t]]]];
      cbn [length] in Hlen; try lia.
    split; reflexivity.
  - intros message_text added r. subst r.
    rewrite (handle_message_purchase _ _ _ _ Hstate).
    pose proof (purchase_fields_without_hyphen (strip message_text)) as Hno.
    assert (Hsame : purchases b = purchases b ++ added → Forall (fun row => is_negative (value row) = false) added).
    { intros E. rewrite <- (app_nil_r (purchases b)) in E at 1.
      apply app_inv_head in E. subst added. constructor. }
    destruct (purchase_fields (strip message_text)) as [|p [|v [|c [|x t]]]];
      try exact Hsame.
    destruct (float_of_str (replace 44 (py ".") v)) as [valor|] eqn:Hv;
      [|exact Hsame].
    cbn [final purchases]. intros E. apply app_inv_head in E. subst added.
    constructor; [|constructor]. cbn [value].
    destruct (is_negative valor) eqn:Hneg; [|reflexivity].
    exfalso. inversion Hno as [|? ? _ Hrest]; subst.
    inversion Hrest as [|? ? Hvno _]; subst.
    apply Hvno, replace_comma_no_hyphen.
    exact (float_of_str_negative _ _ Hv Hneg).
Qed.

Lemma hyphenated_entry_rejected_spider_man :
  let row := {| id := 1; user_id := 7; product := py "iPhone 15";
                value := S754_finite false 5497558138880000 (-40);
                category := py "Eletrônicos"; date := now env0 |} in
  pending bot_purchase 7 = waiting_purchase
  ∧ In 45 (py "Spider-Man")
  ∧ (let message_text := py "Spider-Man" ++ py " - " ++ py "50" ++ py " - " ++ py "Games" in
     let r := handle_message env0 7 message_text bot_purchase in
     (3 < length (purchase_fields (strip message_text)))%nat
     ∧ sent (trace r) = [plain format_error]
     ∧ purchases (final r) = purchases bot_purchase)
  ∧ purchases (final (handle_message env0 7 (py "iPhone 15 - 5000 - Eletrônicos")
                        bot_purchase))
    = purchases bot_purchase ++ [row]
  ∧ Forall (fun row => is_negative (value row) = false) [row].
Proof.
  intros row.
  assert (H1 : pending bot_purchase 7 = waiting_purchase)
    by (vm_compute; reflexivity).
  assert (H2 : In 45 (py "Spider-Man")) by (vm_compute; tauto).
  assert (H3 : purchases (final (handle_message env0 7
                 (py "iPhone 15 - 5000 - Eletrônicos") bot_purchase))
               = purchases bot_purchase ++ [row]) by (vm_compute; reflexivity).
  split; [exact H1|]. split; [exact H2|].
  destruct (hyphenated_entry_rejected env0 7 bot_purchase H1) as [Ha Hb].
  split; [|split].
  - exact (Ha (py "Spider-Man") (py "50") (py "Games") (or_introl H2)).
  - exact H3.
  - exact (Hb (py "iPhone 15 - 5000 - Eletrônicos") [row] H3).
Defined.

Example minus_fifty_rejected :
  sent (trace (handle_message env0 7 (py "Jogo - -50 - Games") bot_purchase))
  = [plain format_error].
Proof. vm_compute. reflexivity. Qed.

(** ** Registering a purchase *)

(** A value parsed from a field of a purchase entry that is no finite
    number is the positive infinity or a NaN. *)
Lemma parsed_value_not_finite v x :
  ¬ In 45 v → float_of_str (replace 44 (py ".") v) = Some x →
  is_finite x = false →
  x = S754_infinity false ∨ x = S754_nan.
Proof.
  intros Hv Hx Hfin.
  assert (Hsign : is_negative x = false).
  { destruct (is_negative x) eqn:E; [|reflexivity].
    exfalso. apply Hv, replace_comma_no_hyphen.
    exact (float_of_str_negative _ _ Hx E). }
  destruct x as [s|s| |s m e]; cbn [is_finite] in Hfin; try discriminate Hfin.
  - cbn [is_negative] in Hsign. subst s. left. reflexivity.
  - right. reflexivity.
Qed.

(** C1, with the values that are no finite number: a text received while
    the user's state is [waiting_purchase] that splits on the hyphen into
    three trimmed fields, the second of which [float] accepts once its
    commas are periods, adds exactly one row with these three values for
    this user, leaves the state at [None], and is answered by the one
    confirmation that repeats the product, the value under the format [.2f]
    and the category.  A finite value is printed with exactly two digits
    after the point; [float] also accepts the texts of infinity and of NaN
    and numbers beyond the range of a float, and these values are printed as
    [inf] and [nan].  The table keeps a NaN as NULL. *)
Theorem purchase_entry_registered env u message_text b
    produto valor_str categoria valor :
  pending b u = waiting_purchase →
  purchase_fields (strip message_text) = [produto; valor_str; categoria] →
  float_of_str (replace 44 (py ".") valor_str) = Some valor →
  let r := handle_message env u message_text b in
  let row := {| id := next_id (purchases b); user_id := u;
                product := produto; value := valor;
                category := categoria; date := now env |} in
  result r = Ok tt
  ∧ purchases (final r) = purchases b ++ [row]
  ∧ pending (final r) u = PyNone
  ∧ sent (trace r) =
      [plain (py "✅ Compra registrada com sucesso no banco de dados!" ++ nl
              ++ py "Produto: " ++ produto ++ nl
              ++ py "Valor: R$ " ++ format_f 2 valor ++ nl
              ++ py "Categoria: " ++ categoria)]
  ∧ (is_finite valor = true →
     ∃ whole frac,
       format_f 2 valor = whole ++ 46 :: frac
       ∧ whole ≠ [] ∧ length frac = 2%nat
       ∧ Forall (fun c => isdigit c = true) (whole ++ frac))
  ∧ (is_finite valor = false →
     format_f 2 valor = py "inf" ∨ format_f 2 valor = py "nan")
  ∧ loaded_value row = (if is_nan valor then None else Some valor).
Proof.
  intros Hstate Hfields Hvalue r row. subst r.
  rewrite (handle_message_purchase _ _ _ _ Hstate), Hfields, Hvalue.
  cbn [result final trace purchases sent].
  assert (Hv : ¬ In 45 valor_str).
  { pose proof (purchase_fields_without_hyphen (strip message_text)) as H.
    rewrite Hfields in H. inversion H as [|? ? _ H']; subst.
    inversion H' as [|? ? Hv _]; subst. exact Hv. }
  assert (Hsign : is_negative valor = false).
  { destruct (is_negative valor) eqn:Es; [|reflexivity].
    exfalso. apply Hv, replace_comma_no_hyphen.
    exact (float_of_str_negative _ _ Hvalue Es). }
  split; [reflexivity|]. split; [reflexivity|].
  split; [apply (pending_set_pending u PyNone b)|]. split; [reflexivity|].
  split; [|split].
  - intros Hfin. destruct (format_f_two_places _ Hfin) as (whole & frac & E & H).
    exists whole, frac. split; [|exact H]. rewrite E, Hsign. reflexivity.
  - intros Hfin.
    destruct (parsed_value_not_finite _ _ Hv Hvalue Hfin) as [-> | ->];
      [left|right]; reflexivity.
  - unfold loaded_value. cbn [value row].
    rewrite (stored_real_not_negative _ Hsign). reflexivity.
Qed.

Lemma purchase_entry_registered_iphone :
  let message_text := py "iPhone 15 - 5000 - Eletrônicos" in
  let valor := S754_finite false 5497558138880000 (-40) in
  let r := handle_message env0 7 message_text bot_purchase in
  let row := {| id := next_id (purchases bot_purchase); user_id := 7;
                product := py "iPhone 15"; value := valor;
                category := py "Eletrônicos"; date := now env0 |} in
  (pending bot_purchase 7 = waiting_purchase
   ∧ purchase_fields (strip message_text)
     = [py "iPhone 15"; py "5000"; py "Eletrônicos"]
   ∧ float_of_str (replace 44 (py ".") (py "5000")) = Some valor
   ∧ format_f 2 valor = py "5000.00")
  ∧ result r = Ok tt
  ∧ purchases (final r) = purchases bot_purchase ++ [row]
  ∧ pending (final r) 7 = PyNone
  ∧ sent (trace r) =
      [plain (py "✅ Compra registrada com sucesso no banco de dados!" ++ nl
              ++ py "Produto: " ++ py "iPhone 15" ++ nl
              ++ py "Valor: R$ " ++ format_f 2 valor ++ nl
              ++ py "Categoria: " ++ py "Eletrônicos")]
  ∧ (is_finite valor = true →
     ∃ whole frac,
       format_f 2 valor = whole ++ 46 :: frac
       ∧ whole ≠ [] ∧ length frac = 2%nat
       ∧ Forall (fun c => isdigit c = true) (whole ++ frac))
  ∧ (is_finite valor = false →
     format_f 2 valor = py "inf" ∨ format_f 2 valor = py "nan")
  ∧ loaded_value row = (if is_nan valor then None else Some valor).
Proof.
  intros message_text valor r row.
  assert (H1 : pending bot_purchase 7 = waiting_purchase)
    by (vm_compute; reflexivity).
  assert (H2 : purchase_fields (strip message_text)
               = [py "iPhone 15"; py "5000"; py "Eletrônicos"])
    by (vm_compute; reflexivity).
  assert (H3 : float_of_str (replace 44 (py ".") (py "5000")) = Some valor)
    by (vm_compute; reflexivity).
  split.
  - split; [exact H1 | split; [exact H2 | split; [exact H3 |]]].
    vm_compute. reflexivity.
  - exact (purchase_entry_registered env0 7 message_text bot_purchase
             _ _ _ _ H1 H2 H3).
Defined.

(** C1 says that the confirmation shows the value with two decimal
    places; the entry below has a numeric value field that [float] accepts,
    a number beyond the range of a float, and is confirmed with [inf]. *)
Lemma overflowing_value_prints_inf :
  let message_text := py "Cofre - 1e999 - Casa" in
  let r := handle_message env0 7 message_text bot_purchase in
  pending bot_purchase 7 = waiting_purchase
  ∧ purchase_fields (strip message_text) = [py "Cofre"; py "1e999"; py "Casa"]
  ∧ float_of_str (replace 44 (py ".") (py "1e999")) = Some (S754_infinity false)
  ∧ map value (purchases (final r)) = [S754_infinity false]
  ∧ sent (trace r)
    = [plain (py "✅ Compra registrada com sucesso no banco de dados!" ++ nl
              ++ py "Produto: Cofre" ++ nl
              ++ py "Valor: R$ inf" ++ nl
              ++ py "Categoria: Casa")]
  ∧ ¬ (∃ whole frac,
         format_f 2 (S754_infinity false) = whole ++ 46 :: frac
         ∧ length frac = 2%nat).
Proof.
  cbv zeta.
  split; [vm_compute; reflexivity|]. split; [vm_compute; reflexivity|].
  split; [vm_compute; reflexivity|]. split; [vm_compute; reflexivity|].
  split; [vm_compute; reflexivity|].
  intros (whole & frac & E & _).
  assert (H : In 46 (format_f 2 (S754_infinity false)))
    by (rewrite E; apply in_or_app; right; left; reflexivity).
  vm_compute in H. intuition discriminate.
Qed.

(** ** Commands *)

(** C9: [start] and [help_command] send the fixed menu and the fixed
    guide, one message each, whatever the bot state is, and leave the bot
    state, hence every user's pending state, as it was. *)
Theorem start_help_leave_state b :
  start b =
    {| result := Ok tt; final := b;
       trace := [Send {| how := Reply; text := welcome; parse_mode := None;
                         reply_markup := keyboard;
                         disable_web_page_preview := false |}] |}
  ∧ help_command b =
    {| result := Ok tt; final := b; trace := [Send (plain help_text)] |}
  ∧ (∀ u, pending (final (start b)) u = pending b u
          ∧ pending (final (help_command b)) u = pending b u)
  ∧ (∀ b', sent (trace (start b')) = sent (trace (start b))
           ∧ sent (trace (help_command b')) = sent (trace (help_command b))).
Proof.
  split; [reflexivity|]. split; [reflexivity|]. split.
  - intros u. split; reflexivity.
  - intros b'. split; reflexivity.
Qed.

Example start_menu_keys :
  map (map snd) keyboard
  = [[py "deals"]; [py "shopee_search"]; [py "add_purchase"];
     [py "my_expenses"]; [py "ask_ai"]; [py "help"]].
Proof. reflexivity. Qed.

(** ** Asking the assistant without a key *)

Lemma handle_callback_ask_ai py_repr env u b :
  handle_callback py_repr env u (py "ask_ai") b =
  if openai_client env
  then {| result := Ok tt;
          final := set_pending u waiting_ai_prompt b;
          trace := [AnswerCallback; SetState u waiting_ai_prompt;
                    Send (edited ask_question None false)] |}
  else {| result := Ok tt;
          final := b;
          trace := [AnswerCallback; Send (edited ai_disabled None false)] |}.
Proof.
  unfold handle_callback. run_handler. pick_key.
  destruct (openai_client env); reflexivity.
Qed.

(** ** The order of the purchases *)

Lemma lex_compare_antisym a b : lex_compare b a = CompOpp (lex_compare a b).
Proof.
  revert b. induction a as [|x a IH]; intros [|y b]; cbn [lex_compare]; try reflexivity.
  rewrite (N.compare_antisym x y).
  destruct (x ?= y); cbn [CompOpp]; [apply IH|reflexivity|reflexivity].
Qed.

Lemma lex_compare_trans a b c :
  lex_compare a b ≠ Gt → lex_compare b c ≠ Gt → lex_compare a c ≠ Gt.
Proof.
  revert b c. induction a as [|x a IH]; intros [|y b] [|z c]; cbn [lex_compare];
    try congruence.
  destruct (N.compare_spec x y), (N.compare_spec y z), (N.compare_spec x z);
    subst; try congruence; try lia; eauto.
Qed.

Lemma date_leb_total a b : date_leb a b = false → date_leb b a = true.
Proof.
  unfold date_leb. rewrite (lex_compare_antisym (datetime_fields a)).
  destruct (lex_compare _ _); cbn [CompOpp]; congruence.
Qed.

Lemma date_leb_trans a b c :
  date_leb a b = true → date_leb b c = true → date_leb a c = true.
Proof.
  unfold date_leb. intros H1 H2.
  pose proof (lex_compare_trans (datetime_fields a) (datetime_fields b) (datetime_fields c)) as T.
  destruct (lex_compare (datetime_fields a) (datetime_fields b)),
           (lex_compare (datetime_fields b) (datetime_fields c)),
           (lex_compare (datetime_fields a) (datetime_fields c));
    try discriminate; try reflexivity; exfalso; apply T; congruence.
Qed.

Lemma insert_desc_perm p l : Permutation (insert_desc p l) (p :: l).
Proof.
  induction l as [|q r IH]; cbn [insert_desc]; [reflexivity|].
  destruct (date_leb (date q) (date p)); [reflexivity|].
  rewrite IH. apply perm_swap.
Qed.

Lemma order_by_date_desc_perm rows : Permutation (order_by_date_desc rows) rows.
Proof.
  induction rows as [|p r IH]; cbn [order_by_date_desc fold_right]; [reflexivity|].
  rewrite insert_desc_perm. constructor. exact IH.
Qed.

Lemma insert_desc_sorted p l :
  StronglySorted newer_first l → StronglySorted newer_first (insert_desc p l).
Proof.
  induction l as [|q r IH]; cbn [insert_desc]; intros Hs.
  - repeat constructor.
  - inversion Hs as [|? ? Hr Hq]; subst.
    destruct (date_leb (date q) (date p)) eqn:E.
    + constructor; [exact Hs|]. constructor; [exact E|].
      eapply Forall_impl; [exact Hq|]. intros x Hx. unfold newer_first in *.
      eapply date_leb_trans; eauto.
    + constructor; [apply IH, Hr|].
      apply (Permutation_Forall (Permutation_sym (insert_desc_perm p r))).
      constructor; [|exact Hq]. apply date_leb_total, E.
Qed.

Lemma order_by_date_desc_sorted rows :
  StronglySorted newer_first (order_by_date_desc rows).
Proof.
  induction rows as [|p r IH]; cbn [order_by_date_desc fold_right].
  - constructor.
  - apply insert_desc_sorted, IH.
Qed.

Lemma strongly_sorted_app {A} (R : A → A → Prop) l1 l2 :
  StronglySorted R (l1 ++ l2) → ∀ x y, In x l1 → In y l2 → R x y.
Proof.
  induction l1 as [|a l1 IH]; cbn [app]; intros Hs x y Hx Hy; [destruct Hx|].
  inversion Hs as [|? ? Hrest Hall]; subst. destruct Hx as [<-|Hx].
  - rewrite Forall_forall in Hall. apply Hall, list_elem_of_In, in_or_app. right. exact Hy.
  - eapply IH; eauto.
Qed.

Lemma pending_state_consumed_once_example :
  (pending bot_purchase 7 = waiting_shopee_term
   ∨ pending bot_purchase 7 = waiting_purchase
   ∨ pending bot_purchase 7 = waiting_ai_prompt)
  ∧ (let r := handle_message env0 7 (py "Troco - nan - Casa") bot_purchase in
     clears_first 7 (trace r)
     ∧ pending (final r) 7 = PyNone
     ∧ ∀ env' message_text',
         let r' := handle_message env' 7 message_text' (final r) in
         let mine := filter_by_user 7 (purchases (final r)) in
         final r' = final r
         ∧ Forall no_search_no_row (trace r')
         ∧ (openai_client env' = false →
            result r' = Ok tt ∧ sent (trace r') = [plain unrecognized])
         ∧ (openai_client env' = true →
            Forall (fun p => value p ≠ S754_nan) mine →
            result r' = Ok tt
            ∧ sent (trace r') = [plain analysing;
                                 plain match openai env' with
                                       | Some content => content
                                       | None => ai_error
                                       end])
         ∧ (openai_client env' = true →
            Exists (fun p => value p = S754_nan) mine →
            result r' = Raise TypeError ∧ sent (trace r') = [plain analysing]))
  ∧ map value (filter_by_user 7
         (purchases (final (handle_message env0 7 (py "Troco - nan - Casa") bot_purchase))))
    = [S754_nan].
Proof.
  assert (H : pending bot_purchase 7 = waiting_shopee_term
              ∨ pending bot_purchase 7 = waiting_purchase
              ∨ pending bot_purchase 7 = waiting_ai_prompt)
    by (right; left; vm_compute; reflexivity).
  split; [exact H|]. split; [|vm_compute; reflexivity].
  exact (pending_state_consumed_once env0 7
           (py "Troco - nan - Casa") bot_purchase H).
Defined.

(** After the entry [Troco - nan - Casa] the value of the row of user 7
    is NULL: a question of this user gets the notice, and no answer. *)
Example question_after_nan_entry :
  let entry := handle_message env0 7 (py "Troco - nan - Casa") bot_purchase in
  let r := handle_message env_ai 7 (py "Quanto gastei?") (final entry) in
  result r = Raise TypeError
  ∧ trace r = [Send (plain analysing); DbSelect 7]
  ∧ final r = final entry.
Proof.
  cbv zeta. split; [vm_compute; reflexivity|]. split; [vm_compute; reflexivity|].
  rewrite handle_message_none by (vm_compute; reflexivity).
  apply question_run_final.
Qed.

(** ** My expenses *)

Lemma handle_callback_my_expenses py_repr env u b :
  handle_callback py_repr env u (py "my_expenses") b =
  let answer := expenses_answer (order_by_date_desc (filter_by_user u (purchases b))) in
  {| result := match answer with Ok _ => Ok tt | Raise e => Raise e end;
     final := b;
     trace := AnswerCallback :: DbSelect u
              :: match answer with Ok m => [Send m] | Raise _ => [] end |}.
Proof.
  unfold handle_callback. run_handler. pick_key. unfold expenses_answer.
  destruct (order_by_date_desc (filter_by_user u (purchases b))) as [|p l];
    [reflexivity|].
  destruct (expenses_summary (p :: l)); reflexivity.
Qed.

Lemma order_by_date_desc_numbers rows :
  Forall (fun p => value p ≠ S754_nan) rows →
  Forall (fun p => value p ≠ S754_nan) (order_by_date_desc rows).
Proof.
  apply Permutation_Forall, Permutation_sym, order_by_date_desc_perm.
Qed.

Lemma order_by_date_desc_null rows :
  Exists (fun p => value p = S754_nan) rows →
  Exists (fun p => value p = S754_nan) (order_by_date_desc rows).
Proof.
  rewrite !Exists_exists. intros (p & Hp & E). exists p. split; [|exact E].
  rewrite (order_by_date_desc_perm rows). exact Hp.
Qed.

(** The answer to [my_expenses]: the no-purchases text for a user without
    rows, the summary when the values of the rows read as numbers, and the
    [TypeError] of the sum when one of them is NULL. *)
Lemma expenses_answer_cases mine :
  let rows := order_by_date_desc mine in
  (mine = [] → expenses_answer rows = Ok (edited no_purchases None false))
  ∧ (mine ≠ [] → Forall (fun p => value p ≠ S754_nan) mine →
     expenses_answer rows
     = Ok (edited (py "📊 **Resumo dos Seus Gastos (Persistente)** 📊" ++ nl ++ nl
                   ++ py "Total Gasto: **R$ "
                   ++ format_f 2 (float_sum (map (fun p => stored_real (value p)) rows))
                   ++ py "**" ++ nl
                   ++ py "Número de Compras: **" ++ str_of_N (N.of_nat (length mine))
                   ++ py "**" ++ nl ++ nl
                   ++ py "**Últimas Compras Registradas:**" ++ nl
                   ++ concat (map expense_text (take 5 rows)))
                  Markdown false))
  ∧ (Exists (fun p => value p = S754_nan) mine →
     expenses_answer rows = Raise TypeError).
Proof.
  intros rows.
  pose proof (order_by_date_desc_perm mine : Permutation rows mine) as Hperm.
  split; [|split].
  - intros ->. reflexivity.
  - intros Hne Hnum. apply order_by_date_desc_numbers in Hnum. fold rows in Hnum.
    rewrite <- (Permutation_length Hperm). unfold expenses_answer.
    rewrite (expenses_summary_numbers _ Hnum).
    destruct rows as [|p l]; [|reflexivity].
    apply Permutation_nil in Hperm. congruence.
  - intros Hnull. apply order_by_date_desc_null in Hnull. fold rows in Hnull.
    unfold expenses_answer. rewrite (expenses_summary_null _ Hnull).
    destruct rows; [inversion Hnull|reflexivity].
Qed.

(** C6: user 7 registers the entry [Troco - nan - Casa]: [float] accepts
    [nan], the entry is confirmed, and the table keeps the value as NULL.
    The selection [my_expenses] of this user, who has one purchase, then
    raises the [TypeError] of [sum] and sends no message at all, where the
    claim says that the answer reports the total, the count and the last
    purchases. *)
Theorem my_expenses_after_nan_entry :
  let entry := handle_message env0 7 (py "Troco - nan - Casa") bot_purchase in
  let r := handle_callback (fun _ => []) env0 7 (py "my_expenses") (final entry) in
  pending bot_purchase 7 = waiting_purchase
  ∧ sent (trace entry)
    = [plain (py "✅ Compra registrada com sucesso no banco de dados!" ++ nl
              ++ py "Produto: Troco" ++ nl
              ++ py "Valor: R$ nan" ++ nl
              ++ py "Categoria: Casa")]
  ∧ map product (filter_by_user 7 (purchases (final entry))) = [py "Troco"]
  ∧ map loaded_value (filter_by_user 7 (purchases (final entry))) = [None]
  ∧ result r = Raise TypeError
  ∧ sent (trace r) = []
  ∧ final r = final entry.
Proof.
  cbv zeta.
  split; [vm_compute; reflexivity|]. split; [vm_compute; reflexivity|].
  split; [vm_compute; reflexivity|]. split; [vm_compute; reflexivity|].
  split; [vm_compute; reflexivity|]. split; [vm_compute; reflexivity|].
  rewrite handle_callback_my_expenses. reflexivity.
Qed.

(** X24: the selection [my_expenses] reads the rows of this user and of
    no other, newest first, and changes nothing.  With no row, the answer is
    the one message that no purchase was registered.  When the values of
    the rows read as numbers, it is the one summary with the sum of all the
    values as the table keeps them, added from left to right, under the
    format [.2f], the number of all the rows, and one line for each of the
    first five rows, every one of which is at least as recent as every row
    left out.  When a value is NULL, the handler raises and sends
    nothing. *)
Theorem my_expenses_report py_repr env u b :
  let r := handle_callback py_repr env u (py "my_expenses") b in
  let mine := filter (fun p => user_id p = u) (purchases b) in
  let rows := order_by_date_desc mine in
  let stored p := match value p with S754_zero _ => S754_zero false | _ => value p end in
  final r = b
  ∧ Permutation rows mine
  ∧ StronglySorted (fun p q => date_leb (date q) (date p) = true) rows
  ∧ (∀ p q, In p (take 5 rows) → In q (drop 5 rows) →
            date_leb (date q) (date p) = true)
  ∧ (mine = [] →
     result r = Ok tt
     ∧ sent (trace r)
       = [edited (py "📊 Você ainda não registrou nenhuma compra no banco de dados.")
                 None false])
  ∧ (mine ≠ [] → Forall (fun p => value p ≠ S754_nan) mine →
     result r = Ok tt
     ∧ sent (trace r)
       = [edited (py "📊 **Resumo dos Seus Gastos (Persistente)** 📊" ++ nl ++ nl
                  ++ py "Total Gasto: **R$ "
                  ++ format_f 2 (fold_left (SFadd 53 1024) (map stored rows)
                                           (S754_zero false))
                  ++ py "**" ++ nl
                  ++ py "Número de Compras: **"
                  ++ str_of_N (N.of_nat (length mine)) ++ py "**" ++ nl ++ nl
                  ++ py "**Últimas Compras Registradas:**" ++ nl
                  ++ concat (map (fun p =>
                                    py " - " ++ product p ++ py " (R$ "
                                    ++ format_f 2 (stored p) ++ py ") - "
                                    ++ category p ++ py " ("
                                    ++ strftime_dm (date p) ++ py ")" ++ nl)
                                 (take 5 rows)))
                 Markdown false])
  ∧ (Exists (fun p => value p = S754_nan) mine →
     result r = Raise TypeError ∧ sent (trace r) = []).
Proof.
  intros r mine rows stored. subst r. rewrite handle_callback_my_expenses.
  cbv zeta. cbn [result final trace].
  change (order_by_date_desc (filter_by_user u (purchases b))) with rows.
  pose proof (order_by_date_desc_sorted mine : StronglySorted newer_first rows)
    as Hsorted.
  destruct (expenses_answer_cases mine) as (Hnone & Hnum & Hnull).
  fold rows in Hnone, Hnum, Hnull.
  split; [reflexivity|]. split; [apply order_by_date_desc_perm|].
  split; [exact Hsorted|]. split; [|split; [|split]].
  - intros p q Hp Hq.
    apply (strongly_sorted_app newer_first (take 5 rows) (drop 5 rows));
      [rewrite take_drop; exact Hsorted | exact Hp | exact Hq].
  - intros E. rewrite (Hnone E). split; reflexivity.
  - intros Hne H. rewrite (Hnum Hne H). split; reflexivity.
  - intros H. rewrite (Hnull H). split; reflexivity.
Qed.

Lemma my_expenses_report_seven :
  let r := handle_callback (fun _ => []) env0 7 (py "my_expenses") bot_seven in
  let mine := filter (fun p => user_id p = 7%Z) (purchases bot_seven) in
  let rows := order_by_date_desc mine in
  let stored p := match value p with S754_zero _ => S754_zero false | _ => value p end in
  (mine ≠ [] ∧ Forall (fun p => value p ≠ S754_nan) mine)
  ∧ (result r = Ok tt
     ∧ sent (trace r)
       = [edited (py "📊 **Resumo dos Seus Gastos (Persistente)** 📊" ++ nl ++ nl
                  ++ py "Total Gasto: **R$ "
                  ++ format_f 2 (fold_left (SFadd 53 1024) (map stored rows)
                                           (S754_zero false))
                  ++ py "**" ++ nl
                  ++ py "Número de Compras: **"
                  ++ str_of_N (N.of_nat (length mine)) ++ py "**" ++ nl ++ nl
                  ++ py "**Últimas Compras Registradas:**" ++ nl
                  ++ concat (map (fun p =>
                                    py " - " ++ product p ++ py " (R$ "
                                    ++ format_f 2 (stored p) ++ py ") - "
                                    ++ category p ++ py " ("
                                    ++ strftime_dm (date p) ++ py ")" ++ nl)
                                 (take 5 rows)))
                 Markdown false])
  ∧ map product (take 5 rows)
    = [py "Café"; py "iPhone 15"; py "Chiclete"; py "Bala"; py "Mercado"]
  ∧ format_f 2 (fold_left (SFadd 53 1024) (map stored rows) (S754_zero false))
    = py "5038.05".
Proof.
  intros r mine rows stored.
  assert (H1 : mine ≠ []) by (vm_compute; discriminate).
  assert (H2 : Forall (fun p => value p ≠ S754_nan) mine)
    by (vm_compute; repeat constructor; discriminate).
  split; [split; [exact H1|exact H2]|].
  split; [|split; vm_compute; reflexivity].
  exact (proj1 (proj2 (proj2 (proj2 (proj2 (proj2
           (my_expenses_report (fun _ => []) env0 7 bot_seven)))))) H1 H2).
Defined.

Example my_expenses_of_user_7 :
  sent (trace (handle_callback (fun _ => []) env0 7 (py "my_expenses") bot_seven))
  = [edited (py "📊 **Resumo dos Seus Gastos (Persistente)** 📊" ++ nl ++ nl
             ++ py "Total Gasto: **R$ 5038.05**" ++ nl
             ++ py "Número de Compras: **6**" ++ nl ++ nl
             ++ py "**Últimas Compras Registradas:**" ++ nl
             ++ py " - Café (R$ 7.25) - Casa (06/11)" ++ nl
             ++ py " - iPhone 15 (R$ 5000.00) - Eletrônicos (05/11)" ++ nl
             ++ py " - Chiclete (R$ 0.20) - Lazer (04/11)" ++ nl
             ++ py " - Bala (R$ 0.10) - Lazer (03/11)" ++ nl
             ++ py " - Mercado (R$ 20.00) - Casa (02/11)" ++ nl)
            Markdown false].
Proof. vm_compute. reflexivity. Qed.

Example my_expenses_of_nobody :
  sent (trace (handle_callback (fun _ => []) env0 9 (py "my_expenses") bot_seven))
  = [edited (py "📊 Você ainda não registrou nenhuma compra no banco de dados.")
            None false].
Proof. vm_compute. reflexivity. Qed.

(** ** Searching Shopee *)

Lemma product_links_bound hrefs :
  (length (product_links hrefs) ≤ 3)%nat
  ∧ Forall (fun h => contains (py "/product/") h = true) (product_links hrefs)
  ∧ sublist (product_links hrefs) hrefs.
Proof.
  unfold product_links. split; [|split].
  - rewrite length_take. lia.
  - apply Forall_take, Forall_forall. intros h Hh.
    apply list_elem_of_filter in Hh. apply Hh.
  - etransitivity; [apply sublist_take|apply sublist_filter].
Qed.

Lemma fallback_is_not_a_result termo termo' links :
  shopee_fallback termo ≠ shopee_results termo' links.
Proof.
  intros E. apply (f_equal head) in E. vm_compute in E. discriminate E.
Qed.

(** C8: whatever the term, the search keeps at most three links, the
    first ones of the page whose [href] contains [/product/].  When it keeps
    none, the result is the notice that the scraping found nothing, followed
    by two placeholder links, both to the search URL built from the term;
    a result list never has this text. *)
Theorem shopee_search_links env termo b :
  let r := buscar_shopee_scraping env termo b in
  let url := py "https://shopee.com.br/search?keyword=" ++ replace 32 (py "%20") termo in
  (∀ hrefs,
     (length (product_links hrefs) ≤ 3)%nat
     ∧ Forall (fun h => contains (py "/product/") h = true) (product_links hrefs)
     ∧ sublist (product_links hrefs) hrefs)
  ∧ final r = b
  ∧ trace r = [HttpGet url []]
  ∧ result r =
      Ok match shopee env with
         | ConnectionFailed => shopee_error
         | Response status hrefs =>
           if (400 <=? status) && (status <? 600) then shopee_error
           else match product_links hrefs with
                | [] =>
                  py "❌ O scraping da Shopee falhou ou não encontrou resultados para '"
                  ++ termo ++ py "'." ++ nl
                  ++ py "Isso é comum, pois a Shopee usa carregamento dinâmico (JavaScript)."
                  ++ nl ++ nl
                  ++ py "**Links Simulados (para demonstrar a funcionalidade):**" ++ nl
                  ++ py "🔗 [Produto 1 - " ++ termo ++ py "](" ++ url ++ py ")" ++ nl
                  ++ py "🔗 [Produto 2 - " ++ termo ++ py "](" ++ url ++ py ")" ++ nl
                | links => shopee_results termo links
                end
         end
  ∧ (∀ termo' links, shopee_fallback termo ≠ shopee_results termo' links).
Proof.
  intros r url. subst r. rewrite buscar_shopee_scraping_run.
  cbn [result final trace].
  split; [apply product_links_bound|]. split; [reflexivity|].
  split; [reflexivity|]. split; [reflexivity|].
  apply fallback_is_not_a_result.
Qed.

Example shopee_nothing_found :
  let env := {| openai_client := false; DISCOUNT_API_KEY := JNull;
                deals_api := ConnectionFailed;
                shopee := Response 200 [py "/"; py "/cart"; py "https://help.shopee.com.br"];
                openai := None; now := now env0 |} in
  result (buscar_shopee_scraping env (py "xyz123") bot0)
  = Ok (py "❌ O scraping da Shopee falhou ou não encontrou resultados para 'xyz123'." ++ nl
        ++ py "Isso é comum, pois a Shopee usa carregamento dinâmico (JavaScript)." ++ nl ++ nl
        ++ py "**Links Simulados (para demonstrar a funcionalidade):**" ++ nl
        ++ py "🔗 [Produto 1 - xyz123](https://shopee.com.br/search?keyword=xyz123)" ++ nl
        ++ py "🔗 [Produto 2 - xyz123](https://shopee.com.br/search?keyword=xyz123)" ++ nl).
Proof. vm_compute. reflexivity. Qed.

Example shopee_four_products :
  let env := {| openai_client := false; DISCOUNT_API_KEY := JNull;
                deals_api := ConnectionFailed;
                shopee := Response 200 [py "/product/1/2"; py "/cart";
                                        py "https://shopee.com.br/product/3/4";
                                        py "/product/5/6"; py "/product/7/8"];
                openai := None; now := now env0 |} in
  result (buscar_shopee_scraping env (py "mi 14") bot0)
  = Ok (py "🛍️ **Resultados da Shopee para 'mi 14'** 🛍️" ++ nl ++ nl
        ++ py "🔗 [Produto 1](https://shopee.com.br/product/1/2)" ++ nl
        ++ py "🔗 [Produto 2](https://shopee.com.br/product/3/4)" ++ nl
        ++ py "🔗 [Produto 3](https://shopee.com.br/product/5/6)" ++ nl)
  ∧ trace (buscar_shopee_scraping env (py "mi 14") bot0)
    = [HttpGet (py "https://shopee.com.br/search?keyword=mi%2014") []].
Proof. vm_compute. split; reflexivity. Qed.

(** ** Deals *)

Lemma format_deal_not_request py_repr item :
  format_deal py_repr item ≠ Raise RequestException.
Proof.
  unfold format_deal, mbind, res_bind, mret, res_ret.
  destruct item; cbn [py_get]; try discriminate.
  destruct (default (JObj []) (assoc (py "deal") items)); cbn [py_get]; try discriminate.
  destruct (py_format_f 1 _) as [pct|e] eqn:E; [discriminate|].
  intros [= ->]. unfold py_format_f in E.
  destruct (default (JInt 0) _); try discriminate E.
  destruct (float_of_Z n); discriminate E.
Qed.

Lemma format_deals_not_request py_repr items acc :
  format_deals py_repr acc items ≠ Raise RequestException.
Proof.
  revert acc. induction items as [|item r IH]; intros acc; cbn [format_deals].
  - discriminate.
  - unfold mbind, res_bind.
    destruct (format_deal py_repr item) as [entry|e] eqn:E; [apply IH|].
    intros [= ->]. exact (format_deal_not_request _ _ E).
Qed.

Lemma deals_url_params env :
  ∃ url params,
    url = py "https://api.discountapi.com/v2/deals"
    ∧ params = [(py "api_key", DISCOUNT_API_KEY env); (py "limit", JInt 5)]
    ∧ ∀ py_repr b,
        buscar_discount_api_real py_repr env b =
        {| result := deals_outcome py_repr env;
           final := b;
           trace := [HttpGet url params] |}.
Proof.
  eexists _, _. split; [reflexivity|]. split; [reflexivity|].
  intros py_repr b.
  unfold buscar_discount_api_real, deals_outcome, try_except, requests_get.
  run_handler.
  destruct (deals_api env) as [|status data]; cbn; [reflexivity|].
  destruct ((400 <=? status) && (status <? 600)); cbn; [reflexivity|].
  unfold mbind, res_bind.
  destruct data as [ | | | | | |fields]; cbn [py_get]; try reflexivity.
  set (deals := default (JList []) (assoc (py "deals") fields)).
  cbn. destruct (truthy deals); cbn; [|reflexivity].
  destruct deals as [ | | | |s|l|o]; cbn [py_iter]; try reflexivity; cbn;
    match goal with |- context [format_deals py_repr deals_header ?l] =>
      set (items := l) end.
  all: pose proof (format_deals_not_request py_repr items deals_header) as Hno.
  all: destruct (format_deals py_repr deals_header items) as [m|e]; cbn;
    [reflexivity|].
  all: destruct e; try reflexivity; contradiction.
Qed.

Lemma handle_callback_deals py_repr env u b :
  handle_callback py_repr env u (py "deals") b =
  {| result := match deals_outcome py_repr env with
               | Ok _ => Ok tt
               | Raise e => Raise e
               end;
     final := b;
     trace := AnswerCallback
              :: HttpGet (py "https://api.discountapi.com/v2/deals")
                   [(py "api_key", DISCOUNT_API_KEY env); (py "limit", JInt 5)]
              :: match deals_outcome py_repr env with
                 | Ok message_text => [Send (edited message_text Markdown true)]
                 | Raise _ => []
                 end |}.
Proof.
  destruct (deals_url_params env) as (url & params & -> & -> & Hrun).
  unfold handle_callback. run_handler. pick_key. rewrite Hrun.
  cbn [result final trace].
  destruct (deals_outcome py_repr env); reflexivity.
Qed.






Example deals_time_out :
  sent (trace (handle_callback (fun _ => []) env0 7 (py "deals") bot0))
  = [edited (py "❌ Ocorreu um erro ao buscar as promoções. Verifique a chave da API.")
            Markdown true].
Proof. vm_compute. reflexivity. Qed.

Example deals_none :
  sent (trace (handle_callback (fun _ => []) (env_deals 0) 7 (py "deals") bot0))
  = [edited (py "Nenhuma promoção incrível encontrada no momento. Tente mais tarde!")
            Markdown true].
Proof. vm_compute. reflexivity. Qed.

Example deals_one :
  sent (trace (handle_callback (fun _ => []) (env_deals 1) 7 (py "deals") bot0))
  = [edited (py "✨ **Melhores Deals do Dia** ✨" ++ nl ++ nl
             ++ py "🏷️ **Oferta 1**" ++ nl
             ++ py "💰 Preço: $10 | Desconto: 50.0%" ++ nl
             ++ py "🏪 Loja: Loja" ++ nl
             ++ py "[🔗 Ver Oferta](https://loja.example/1)" ++ nl ++ nl)
            Markdown true].
Proof. vm_compute. reflexivity. Qed.

(** A discount that is [null] cannot be formatted: the [TypeError] is not
    caught, and the handler sends nothing. *)
Example deals_null_discount :
  let env := {| openai_client := false; DISCOUNT_API_KEY := JNull;
                deals_api := Response 200 (JObj [(py "deals",
                  JList [JObj [(py "deal",
                    JObj [(py "discount_percentage", JNull)])]])]);
                shopee := ConnectionFailed; openai := None; now := now env0 |} in
  let r := handle_callback (fun _ => []) env 7 (py "deals") bot0 in
  result r = Raise TypeError ∧ sent (trace r) = [].
Proof. vm_compute. split; reflexivity. Qed.

(** ** How many messages a handler sends *)

Lemma str_eqb_eq a b : str_eqb a b = true → a = b.
Proof.
  revert b. induction a as [|x a IH]; intros [|y b]; cbn [str_eqb];
    try discriminate; [reflexivity|].
  intros H. apply andb_prop in H. destruct H as [Hx Hr].
  apply N.eqb_eq in Hx. subst y. f_equal. apply IH, Hr.
Qed.

Lemma pyval_eqb_eq a b : pyval_eqb a b = true → a = b.
Proof.
  destruct a, b; cbn [pyval_eqb]; try discriminate; [reflexivity|].
  intros H. f_equal. apply str_eqb_eq, H.
Qed.

(** A question is answered by the notice and the answer whenever the
    handler returns, and it returns when the values read as numbers. *)
Lemma question_run_sent env u prompt b :
  let q := question_run env u prompt b in
  (result q = Ok tt → sent (trace q) = [plain analysing; plain (ai_answer env)])
  ∧ (Forall (fun p => value p ≠ S754_nan) (filter_by_user u (purchases b)) →
     result q = Ok tt).
Proof.
  cbv zeta. destruct (openai_client env) eqn:Hkey.
  - split.
    + unfold question_run. rewrite Hkey.
      destruct (user_prompt _ _); cbn [result trace sent]; [reflexivity|discriminate].
    + intros H. destruct (question_run_numbers env u prompt b Hkey H) as (c & _ & ->).
      reflexivity.
  - rewrite (question_run_without_key _ _ _ _ Hkey). unfold ai_answer. rewrite Hkey.
    split; reflexivity.
Qed.

Lemma handle_message_sent env u message_text b :
  let r := handle_message env u message_text b in
  (asks_assistant env (pending b u) = false →
   result r = Ok tt ∧ length (sent (trace r)) = 1%nat)
  ∧ (asks_assistant env (pending b u) = true →
     (result r = Ok tt → sent (trace r) = [plain analysing; plain (ai_answer env)])
     ∧ (Forall (fun p => value p ≠ S754_nan) (filter_by_user u (purchases b)) →
        result r = Ok tt)).
Proof.
  intros r. subst r.
  destruct (pyval_eqb (pending b u) waiting_shopee_term) eqn:E1.
  { apply pyval_eqb_eq in E1. rewrite (handle_message_shopee _ _ _ _ E1), E1.
    split; [split; reflexivity|discriminate]. }
  destruct (pyval_eqb (pending b u) waiting_purchase) eqn:E2.
  { apply pyval_eqb_eq in E2. rewrite (handle_message_purchase _ _ _ _ E2), E2.
    split; [|discriminate]. intros _.
    destruct (purchase_fields (strip message_text)) as [|p [|v [|c [|x t]]]];
      try (split; reflexivity).
    destruct (float_of_str (replace 44 (py ".") v)); split; reflexivity. }
  destruct (pyval_eqb (pending b u) waiting_ai_prompt) eqn:E3.
  { apply pyval_eqb_eq in E3. rewrite (handle_message_ai _ _ _ _ E3), E3.
    cbv zeta. cbn [result trace sent]. split; [discriminate|]. intros _.
    apply question_run_sent. }
  rewrite (handle_message_other _ _ _ _ E1 E2 E3). unfold asks_assistant.
  rewrite E1, E2, E3. cbn [negb andb orb].
  destruct (openai_client env).
  - split; [discriminate|]. intros _. apply question_run_sent.
  - split; [split; reflexivity|discriminate].
Qed.

Lemma handle_callback_sent py_repr env u data b :
  In data menu_keys →
  let r := handle_callback py_repr env u data b in
  (result r = Ok tt → length (sent (trace r)) = 1%nat)
  ∧ (data ≠ py "deals" → data ≠ py "my_expenses" → result r = Ok tt)
  ∧ (data = py "my_expenses" →
     Forall (fun p => value p ≠ S754_nan) (filter_by_user u (purchases b)) →
     result r = Ok tt).
Proof.
  intros Hin r. subst r. unfold menu_keys in Hin. cbn [In] in Hin.
  destruct Hin as [<-|[<-|[<-|[<-|[<-|[<-|[]]]]]]].
  - rewrite handle_callback_deals. cbn [result trace].
    split; [|split; [congruence|discriminate]].
    destruct (deals_outcome py_repr env); [reflexivity|discriminate].
  - split; [reflexivity|split; [reflexivity|discriminate]].
  - split; [reflexivity|split; [reflexivity|discriminate]].
  - rewrite handle_callback_my_expenses. cbv zeta. cbn [result trace].
    split; [|split; [congruence|]].
    + destruct (expenses_answer _); [reflexivity|discriminate].
    + intros _ H.
      destruct (expenses_answer_cases (filter_by_user u (purchases b)))
        as (Hnone & Hnum & _).
      destruct (filter_by_user u (purchases b)) as [|p l] eqn:E.
      * rewrite (Hnone eq_refl). reflexivity.
      * rewrite (Hnum ltac:(discriminate) H). reflexivity.
  - rewrite handle_callback_ask_ai.
    destruct (openai_client env); (split; [reflexivity|split; [reflexivity|discriminate]]).
  - split; [reflexivity|split; [reflexivity|discriminate]].
Qed.

(** C4, with two messages for a question: [start] and [help_command]
    always return and send exactly one message, and so does
    [handle_message] for a text that is not passed to the assistant.  A text
    passed to the assistant is answered by two messages whenever the handler
    returns, the notice that the question is being analysed and then the
    answer; and the handler returns when the values of the user's rows read
    as numbers.  A selection of one of the six keys of the menu sends
    exactly one message whenever its handler returns; the handlers of the
    keys other than [deals] and [my_expenses] always return, and the one of
    [my_expenses] returns when the values of the user's rows read as
    numbers. *)
Theorem messages_per_event :
  (∀ b, result (start b) = Ok tt ∧ length (sent (trace (start b))) = 1%nat
        ∧ result (help_command b) = Ok tt
        ∧ length (sent (trace (help_command b))) = 1%nat)
  ∧ (∀ env u message_text b,
       let r := handle_message env u message_text b in
       (asks_assistant env (pending b u) = false →
        result r = Ok tt ∧ length (sent (trace r)) = 1%nat)
       ∧ (asks_assistant env (pending b u) = true →
          (result r = Ok tt →
           sent (trace r) = [plain analysing; plain (ai_answer env)])
          ∧ (Forall (fun p => value p ≠ S754_nan) (filter_by_user u (purchases b)) →
             result r = Ok tt)))
  ∧ (∀ py_repr env u data b,
       In data menu_keys →
       let r := handle_callback py_repr env u data b in
       (result r = Ok tt → length (sent (trace r)) = 1%nat)
       ∧ (data ≠ py "deals" → data ≠ py "my_expenses" → result r = Ok tt)
       ∧ (data = py "my_expenses" →
          Forall (fun p => value p ≠ S754_nan) (filter_by_user u (purchases b)) →
          result r = Ok tt)).
Proof.
  split; [|split].
  - intros b. repeat split.
  - apply handle_message_sent.
  - apply handle_callback_sent.
Qed.

Lemma messages_per_event_question :
  let r := handle_message env_ai 7 (py "Quanto gastei?") bot_seven in
  (asks_assistant env_ai (pending bot_seven 7) = true
   ∧ Forall (fun p => value p ≠ S754_nan) (filter_by_user 7 (purchases bot_seven)))
  ∧ result r = Ok tt
  ∧ sent (trace r) = [plain analysing; plain (ai_answer env_ai)]
  ∧ ai_answer env_ai = py "Você ainda não registrou compras.".
Proof.
  intros r.
  assert (H1 : asks_assistant env_ai (pending bot_seven 7) = true)
    by (vm_compute; reflexivity).
  assert (H2 : Forall (fun p => value p ≠ S754_nan)
                      (filter_by_user 7 (purchases bot_seven)))
    by (vm_compute; repeat constructor; discriminate).
  destruct (proj2 (proj1 (proj2 messages_per_event) env_ai 7%Z
                     (py "Quanto gastei?") bot_seven) H1) as [Hsent Hret].
  split; [split; [exact H1|exact H2]|].
  split; [exact (Hret H2)|]. split; [exact (Hsent (Hret H2))|].
  vm_compute. reflexivity.
Defined.

(** C4 says that no handler sends more than one message; a question put
    to the assistant is answered by two. *)
Lemma ai_question_two_messages :
  let r := handle_message env_ai 7 (py "Quanto gastei?") bot0 in
  pending bot0 7 = PyNone
  ∧ result r = Ok tt
  ∧ sent (trace r)
    = [plain (py "🧠 Analisando sua pergunta com a IA...");
       plain (py "Você ainda não registrou compras.")]
  ∧ length (sent (trace r)) ≠ 1%nat.
Proof.
  cbv zeta. split; [vm_compute; reflexivity|].
  split; [vm_compute; reflexivity|].
  split; [vm_compute; reflexivity|]. vm_compute. discriminate.
Qed.

Example unknown_selection :
  sent (trace (handle_callback (fun _ => []) env0 7 (py "settings") bot0)) = [].
Proof. vm_compute. reflexivity. Qed.

(** ** The states a user can reach *)

Lemma pending_bot0 u : pending bot0 u = PyNone.
Proof. reflexivity. Qed.

Lemma pending_set_pending_cases u v b u' :
  (u' = u ∧ pending (set_pending u v b) u' = v)
  ∨ pending (set_pending u v b) u' = pending b u'.
Proof.
  destruct (Z.eq_dec u u') as [<-|Hne].
  - left. split; [reflexivity|apply pending_set_pending].
  - right. apply pending_set_pending_ne, Hne.
Qed.

Lemma handle_message_pending env u message_text b u' :
  let r := handle_message env u message_text b in
  pending (final r) u' = pending b u' ∨ pending (final r) u' = PyNone.
Proof.
  intros r. subst r.
  assert (Hset : pending (set_pending u PyNone b) u' = pending b u'
                 ∨ pending (set_pending u PyNone b) u' = PyNone).
  { destruct (pending_set_pending_cases u PyNone b u') as [[_ H]|H]; auto. }
  destruct (pyval_eqb (pending b u) waiting_shopee_term) eqn:E1.
  { apply pyval_eqb_eq in E1. rewrite (handle_message_shopee _ _ _ _ E1). exact Hset. }
  destruct (pyval_eqb (pending b u) waiting_purchase) eqn:E2.
  { apply pyval_eqb_eq in E2. rewrite (handle_message_purchase _ _ _ _ E2).
    destruct (purchase_fields (strip message_text)) as [|p [|v [|c [|x t]]]];
      try exact Hset.
    destruct (float_of_str (replace 44 (py ".") v)); exact Hset. }
  destruct (pyval_eqb (pending b u) waiting_ai_prompt) eqn:E3.
  { apply pyval_eqb_eq in E3. rewrite (handle_message_ai _ _ _ _ E3). exact Hset. }
  rewrite (handle_message_other _ _ _ _ E1 E2 E3). left.
  destruct (openai_client env); [rewrite question_run_final|]; reflexivity.
Qed.

Lemma handle_callback_final py_repr env u data b :
  let r := handle_callback py_repr env u data b in
  final r = b
  ∨ final r = set_pending u waiting_shopee_term b
  ∨ final r = set_pending u waiting_purchase b
  ∨ (openai_client env = true ∧ final r = set_pending u waiting_ai_prompt b).
Proof.
  intros r. subst r.
  destruct (deals_url_params env) as (url & params & -> & -> & Hrun).
  unfold handle_callback. run_handler.
  destruct (str_eqb data (py "deals")).
  { rewrite Hrun. cbn [result final trace].
    destruct (deals_outcome py_repr env); left; reflexivity. }
  destruct (str_eqb data (py "shopee_search")); [right; left; reflexivity|].
  destruct (str_eqb data (py "add_purchase")); [right; right; left; reflexivity|].
  destruct (str_eqb data (py "ask_ai")).
  { destruct (openai_client env); [right; right; right; split; reflexivity|].
    left. reflexivity. }
  destruct (str_eqb data (py "my_expenses")).
  { destruct (order_by_date_desc _); [left; reflexivity|].
    destruct (expenses_summary _); left; reflexivity. }
  destruct (str_eqb data (py "help")); left; reflexivity.
Qed.

Lemma dispatch_valid py_repr env u upd b :
  (∀ u', valid_state (pending b u')) →
  ∀ u', valid_state (pending (final (dispatch py_repr env u upd b)) u').
Proof.
  intros Hb u'. destruct upd as [| |message_text|data]; cbn [dispatch];
    [apply Hb | apply Hb | |].
  - destruct (handle_message_pending env u message_text b u') as [-> | ->];
      [apply Hb | left; reflexivity].
  - destruct (handle_callback_final py_repr env u data b) as [->|[->|[->|[_ ->]]]];
      [apply Hb | | |];
      match goal with |- valid_state (pending (set_pending _ ?v _) _) =>
        destruct (pending_set_pending_cases u v b u') as [[_ ->]| ->] end;
      try apply Hb; unfold valid_state; auto.
Qed.

(** Whatever the updates, the state of a user is [None] or one of the
    three pending states. *)
Lemma process_valid py_repr inputs u :
  valid_state (pending (process py_repr inputs bot0) u).
Proof.
  assert (H : ∀ b, (∀ u', valid_state (pending b u')) →
                   ∀ u', valid_state (pending (process py_repr inputs b) u')).
  { induction inputs as [|[[env v] upd] r IH]; intros b Hb; cbn [process];
      [exact Hb|]. apply IH, dispatch_valid, Hb. }
  apply H. intros u'. left. apply pending_bot0.
Qed.

Lemma dispatch_without_key py_repr env u upd b :
  openai_client env = false →
  (∀ u', pending b u' ≠ waiting_ai_prompt) →
  ∀ u', pending (final (dispatch py_repr env u upd b)) u' ≠ waiting_ai_prompt.
Proof.
  intros Hkey Hb u'. destruct upd as [| |message_text|data]; cbn [dispatch];
    [apply Hb | apply Hb | |].
  - destruct (handle_message_pending env u message_text b u') as [-> | ->];
      [apply Hb | discriminate].
  - destruct (handle_callback_final py_repr env u data b) as [->|[->|[->|[Hk _]]]];
      [apply Hb | | | congruence];
      match goal with |- pending (set_pending _ ?v _) _ ≠ _ =>
        destruct (pending_set_pending_cases u v b u') as [[_ ->]| ->] end;
      try apply Hb; vm_compute; discriminate.
Qed.

(** Without a key, no sequence of updates brings a user to the state
    [waiting_ai_prompt]. *)
Lemma process_without_key py_repr inputs u :
  Forall (fun i => openai_client (fst (fst i)) = false) inputs →
  pending (process py_repr inputs bot0) u ≠ waiting_ai_prompt.
Proof.
  assert (H : ∀ b, Forall (fun i => openai_client (fst (fst i)) = false) inputs →
                   (∀ u', pending b u' ≠ waiting_ai_prompt) →
                   ∀ u', pending (process py_repr inputs b) u' ≠ waiting_ai_prompt).
  { induction inputs as [|[[env v] upd] r IH]; intros b Hall Hb; cbn [process];
      [exact Hb|].
    inversion Hall as [|? ? Hi Hr]; subst. cbn [fst] in Hi.
    apply IH; [exact Hr|]. apply dispatch_without_key; assumption. }
  intros Hall. apply H; [exact Hall|]. intros u'. rewrite pending_bot0. discriminate.
Qed.

(** C7: without a key for the completion service, the selection [ask_ai]
    is answered by the one message that the assistant is disabled and
    changes nothing: a user whose state is [None] keeps it, and no state
    becomes [waiting_ai_prompt]; [analisar_com_ia] returns the same
    message at once, with no query and no call to the service; and as long
    as there is no key, no sequence of updates brings any user to the state
    [waiting_ai_prompt]. *)
Theorem ask_ai_without_key py_repr env u b prompt :
  openai_client env = false →
  let r := handle_callback py_repr env u (py "ask_ai") b in
  result r = Ok tt
  ∧ trace r = [AnswerCallback; Send (edited ai_disabled None false)]
  ∧ final r = b
  ∧ (pending b u = PyNone → pending (final r) u = PyNone)
  ∧ (∀ u', pending b u' ≠ waiting_ai_prompt →
           pending (final r) u' ≠ waiting_ai_prompt)
  ∧ analisar_com_ia env u prompt b =
      {| result := Ok ai_disabled; final := b; trace := [] |}
  ∧ (∀ inputs u',
       Forall (fun i => openai_client (fst (fst i)) = false) inputs →
       pending (process py_repr inputs bot0) u' ≠ waiting_ai_prompt).
Proof.
  intros Hkey r. subst r. rewrite handle_callback_ask_ai, Hkey.
  cbn [result final trace].
  split; [reflexivity|]. split; [reflexivity|]. split; [reflexivity|].
  split; [auto|]. split; [auto|].
  split; [rewrite analisar_com_ia_run, Hkey; reflexivity|].
  intros inputs u' Hall. apply process_without_key, Hall.
Qed.

Lemma ask_ai_without_key_example :
  openai_client env0 = false
  ∧ pending bot0 7 = PyNone
  ∧ (let r := handle_callback (fun _ => []) env0 7 (py "ask_ai") bot0 in
     result r = Ok tt
     ∧ trace r = [AnswerCallback; Send (edited ai_disabled None false)]
     ∧ final r = bot0
     ∧ (pending bot0 7 = PyNone → pending (final r) 7 = PyNone)
     ∧ (∀ u', pending bot0 u' ≠ waiting_ai_prompt →
              pending (final r) u' ≠ waiting_ai_prompt)
     ∧ analisar_com_ia env0 7 (py "Quanto gastei?") bot0 =
         {| result := Ok ai_disabled; final := bot0; trace := [] |}
     ∧ (∀ inputs u',
          Forall (fun i => openai_client (fst (fst i)) = false) inputs →
          pending (process (fun _ => []) inputs bot0) u' ≠ waiting_ai_prompt)).
Proof.
  split; [reflexivity|]. split; [vm_compute; reflexivity|].
  exact (ask_ai_without_key (fun _ => []) env0 7 bot0 (py "Quanto gastei?") eq_refl).
Defined.

(** * More properties of the handlers *)

(** ** Trimming *)

Lemma lstrip_spaces w s :
  Forall (fun c => isspace c = true) w → lstrip (w ++ s) = lstrip s.
Proof.
  induction 1 as [|c w Hc _ IH]; [reflexivity|].
  cbn [app lstrip]. rewrite Hc. exact IH.
Qed.

Lemma lstrip_cases s :
  lstrip s = [] ∨ ∃ c r, lstrip s = c :: r ∧ isspace c = false.
Proof.
  induction s as [|c r IH]; [left; reflexivity|].
  cbn [lstrip]. destruct (isspace c) eqn:E; [exact IH|].
  right. exists c, r. split; [reflexivity|exact E].
Qed.

Lemma lstrip_idem s : lstrip (lstrip s) = lstrip s.
Proof.
  destruct (lstrip_cases s) as [-> | (c & r & -> & Hc)]; [reflexivity|].
  cbn [lstrip]. rewrite Hc. reflexivity.
Qed.

Lemma lstrip_split s :
  ∃ w, s = w ++ lstrip s ∧ Forall (fun c => isspace c = true) w.
Proof.
  induction s as [|c r (w & E & Hw)]; [exists []; split; [reflexivity|constructor]|].
  cbn [lstrip]. destruct (isspace c) eqn:Hc.
  - exists (c :: w). split; [cbn [app]; f_equal; exact E|constructor; assumption].
  - exists []. split; [reflexivity|constructor].
Qed.

Lemma lstrip_before c p r :
  isspace c = false → lstrip (p ++ c :: r) = lstrip p ++ c :: r.
Proof.
  intros Hc. induction p as [|x p IH]; cbn [app lstrip].
  - rewrite Hc. reflexivity.
  - destruct (isspace x); [exact IH|reflexivity].
Qed.

Lemma rstrip_after c p r :
  isspace c = false → rstrip (p ++ c :: r) = p ++ c :: rstrip r.
Proof.
  intros Hc. unfold rstrip. rewrite rev_app_distr. cbn [rev].
  rewrite <- app_assoc. cbn [app]. rewrite (lstrip_before c _ _ Hc).
  rewrite rev_app_distr. cbn [rev]. rewrite rev_involutive, <- app_assoc.
  reflexivity.
Qed.

Lemma rstrip_spaces w s :
  Forall (fun c => isspace c = true) w → rstrip (s ++ w) = rstrip s.
Proof.
  intros Hw. unfold rstrip. rewrite rev_app_distr, lstrip_spaces; [reflexivity|].
  apply Forall_rev, Hw.
Qed.

Lemma rstrip_all_space w :
  Forall (fun c => isspace c = true) w → rstrip w = [].
Proof.
  intros Hw. rewrite <- (app_nil_l w), (rstrip_spaces _ _ Hw). reflexivity.
Qed.

(** A text is whitespace, its trimmed text, whitespace. *)
Lemma strip_split s :
  ∃ w1 w2, s = w1 ++ strip s ++ w2
           ∧ Forall (fun c => isspace c = true) w1
           ∧ Forall (fun c => isspace c = true) w2.
Proof.
  destruct (lstrip_split s) as (w1 & E1 & H1).
  destruct (lstrip_split (rev (lstrip s))) as (w2 & E2 & H2).
  exists w1, (rev w2). split; [|split; [exact H1|apply Forall_rev, H2]].
  unfold strip, rstrip. rewrite <- rev_app_distr, <- E2, rev_involutive. exact E1.
Qed.

Lemma lstrip_strip s : lstrip (strip s) = strip s.
Proof.
  destruct (lstrip_cases s) as [E | (c & r & E & Hc)]; unfold strip; rewrite E.
  - reflexivity.
  - rewrite <- (app_nil_l (c :: r)) at 1 2. rewrite (rstrip_after c [] r Hc).
    cbn [app lstrip]. rewrite Hc. reflexivity.
Qed.

Lemma rstrip_idem s : rstrip (rstrip s) = rstrip s.
Proof. unfold rstrip. rewrite rev_involutive, lstrip_idem. reflexivity. Qed.

Lemma strip_idem s : strip (strip s) = strip s.
Proof.
  unfold strip at 1. rewrite lstrip_strip. unfold strip. apply rstrip_idem.
Qed.

Lemma strip_between_spaces w1 w2 s :
  Forall (fun c => isspace c = true) w1 →
  Forall (fun c => isspace c = true) w2 →
  strip (w1 ++ s ++ w2) = strip s.
Proof.
  intros H1 H2. unfold strip. rewrite (lstrip_spaces _ _ H1).
  destruct (lstrip_cases s) as [E | (c & r & E & Hc)].
  - destruct (lstrip_split s) as (w & Es & Hw). rewrite E, app_nil_r in Es. subst w.
    rewrite (lstrip_spaces _ _ Hw), E.
    destruct (lstrip_cases w2) as [E2 | (c & r & E2 & Hc)]; rewrite E2; [reflexivity|].
    destruct (lstrip_split w2) as (w & Es & _). rewrite E2 in Es.
    rewrite Es in H2. apply Forall_app in H2. destruct H2 as [_ H2].
    inversion H2; congruence.
  - destruct (lstrip_split s) as (w & Es & Hw).
    rewrite Es at 1. rewrite <- app_assoc, (lstrip_spaces _ _ Hw), E.
    cbn [app lstrip]. rewrite Hc.
    change (c :: r ++ w2) with ((c :: r) ++ w2). apply rstrip_spaces, H2.
Qed.

Lemma strip_lstrip s : strip (lstrip s) = strip s.
Proof. unfold strip. rewrite lstrip_idem. reflexivity. Qed.

Lemma rstrip_split s :
  ∃ w, s = rstrip s ++ w ∧ Forall (fun c => isspace c = true) w.
Proof.
  destruct (lstrip_split (rev s)) as (w & E & Hw).
  exists (rev w). split; [|apply Forall_rev, Hw].
  unfold rstrip. rewrite <- rev_app_distr, <- E, rev_involutive. reflexivity.
Qed.

Lemma strip_rstrip s : strip (rstrip s) = strip s.
Proof.
  destruct (rstrip_split s) as (w & E & Hw).
  rewrite E at 2. symmetry. apply (strip_between_spaces [] w (rstrip s)); [constructor|exact Hw].
Qed.

Lemma rstrip_incl c s : In c (rstrip s) → In c s.
Proof. unfold rstrip. intros H. apply in_rev, lstrip_incl, in_rev in H. exact H. Qed.

(** ** Fields *)

Lemma split_app sep a b :
  split sep (a ++ sep :: b) = split sep a ++ split sep b.
Proof.
  induction a as [|x a IH]; cbn [app split].
  - rewrite N.eqb_refl. reflexivity.
  - destruct (x =? sep); [rewrite IH; reflexivity|].
    rewrite IH. destruct (split sep a) as [|f fs] eqn:E; [|reflexivity].
    pose proof (split_length sep a) as L. rewrite E in L. discriminate L.
Qed.

Lemma split_one sep f : ¬ In sep f → split sep f = [f].
Proof.
  induction f as [|x f IH]; intros H; cbn [split]; [reflexivity|].
  destruct (N.eqb_spec x sep) as [->|_]; [exfalso; apply H; left; reflexivity|].
  rewrite IH; [reflexivity|]. intros Hin. apply H. right. exact Hin.
Qed.

Lemma strip_entry produto valor categoria :
  strip (produto ++ 45 :: valor ++ 45 :: categoria)
  = lstrip produto ++ 45 :: valor ++ 45 :: rstrip categoria.
Proof.
  unfold strip. rewrite (lstrip_before 45 produto _ eq_refl).
  change (lstrip produto ++ 45 :: valor ++ 45 :: categoria)
    with (lstrip produto ++ (45 :: valor) ++ 45 :: categoria).
  rewrite app_assoc, (rstrip_after 45 _ categoria eq_refl), <- app_assoc.
  reflexivity.
Qed.

(** An entry written as three parts around two hyphens, the parts having
    no hyphen, has these parts, trimmed, as its fields. *)
Lemma purchase_fields_of_entry produto valor categoria :
  ¬ In 45 produto → ¬ In 45 valor → ¬ In 45 categoria →
  purchase_fields (strip (produto ++ 45 :: valor ++ 45 :: categoria))
  = [strip produto; strip valor; strip categoria].
Proof.
  intros Hp Hv Hc. rewrite strip_entry. unfold purchase_fields.
  rewrite !split_app.
  rewrite (split_one 45 (lstrip produto)), (split_one 45 valor),
          (split_one 45 (rstrip categoria)).
  - cbn [app map]. rewrite strip_lstrip, strip_rstrip. reflexivity.
  - intros H. apply Hc, rstrip_incl, H.
  - exact Hv.
  - intros H. apply Hp, lstrip_incl, H.
Qed.

(** ** What a text can add to the table *)

Lemma parsed_value_not_negative v x :
  ¬ In 45 v → float_of_str (replace 44 (py ".") v) = Some x →
  is_negative x = false.
Proof.
  intros Hv Hx. destruct (is_negative x) eqn:E; [|reflexivity].
  exfalso. apply Hv, replace_comma_no_hyphen.
  exact (float_of_str_negative _ _ Hx E).
Qed.

Lemma purchase_fields_trimmed message_text :
  Forall (fun f => strip f = f) (purchase_fields message_text).
Proof.
  unfold purchase_fields. apply Forall_map, Forall_forall. intros f _.
  apply strip_idem.
Qed.

(** What [handle_message] leaves behind: the row it has added, if any,
    and the states. *)
Lemma handle_message_added env u message_text b :
  let r := handle_message env u message_text b in
  (∀ u', u ≠ u' → pending (final r) u' = pending b u')
  ∧ ∃ added,
      purchases (final r) = purchases b ++ added
      ∧ (length added ≤ 1)%nat
      ∧ Forall (fun row => id row = next_id (purchases b) ∧ user_id row = u
                           ∧ date row = now env ∧ row_ok row) added
      ∧ filter is_insert (trace r) = map DbInsert added.
Proof.
  intros r. subst r.
  assert (Hset : ∀ (e : res unit) t, let r := {| result := e; final := set_pending u PyNone b;
                                    trace := SetState u PyNone :: t |} in
            filter is_insert t = [] →
            (∀ u', u ≠ u' → pending (final r) u' = pending b u')
            ∧ ∃ added, purchases (final r) = purchases b ++ added
                ∧ (length added ≤ 1)%nat
                ∧ Forall (fun row => id row = next_id (purchases b) ∧ user_id row = u
                           ∧ date row = now env ∧ row_ok row) added
                ∧ filter is_insert (trace r) = map DbInsert added).
  { intros e t r Ht. subst r. cbn [final trace]. split.
    - intros u' Hu. apply pending_set_pending_ne, Hu.
    - exists []. rewrite app_nil_r. cbn [length map].
      split; [reflexivity|]. split; [lia|]. split; [constructor|].
      rewrite filter_cons. cbn. exact Ht. }
  destruct (pyval_eqb (pending b u) waiting_shopee_term) eqn:E1.
  { apply pyval_eqb_eq in E1. rewrite (handle_message_shopee _ _ _ _ E1).
    apply Hset. reflexivity. }
  destruct (pyval_eqb (pending b u) waiting_purchase) eqn:E2.
  { apply pyval_eqb_eq in E2. rewrite (handle_message_purchase _ _ _ _ E2).
    pose proof (purchase_fields_without_hyphen (strip message_text)) as Hno.
    pose proof (purchase_fields_trimmed (strip message_text)) as Htr.
    destruct (purchase_fields (strip message_text)) as [|p [|v [|c [|x t]]]];
      try (apply Hset; reflexivity).
    destruct (float_of_str (replace 44 (py ".") v)) as [valor|] eqn:Hv;
      [|apply Hset; reflexivity].
    cbn [final trace purchases]. split.
    - intros u' Hu. apply (pending_set_pending_ne u u' PyNone b Hu).
    - eexists [_]. split; [reflexivity|]. cbn [length]. split; [lia|].
      inversion Hno as [|? ? Hp Hno']; subst.
      inversion Hno' as [|? ? Hv' Hno'']; subst.
      inversion Hno'' as [|? ? Hc _]; subst.
      inversion Htr as [|? ? Tp Htr']; subst.
      inversion Htr' as [|? ? _ Htr'']; subst.
      inversion Htr'' as [|? ? Tc _]; subst.
      split; [|reflexivity].
      constructor; [|constructor]. unfold row_ok.
      cbn [id user_id date value product category].
      split; [reflexivity|]. split; [reflexivity|]. split; [reflexivity|].
      split; [exact (parsed_value_not_negative _ _ Hv' Hv)|].
      split; [exact Tp|]. split; [exact Hp|]. split; [exact Tc|exact Hc]. }
  destruct (pyval_eqb (pending b u) waiting_ai_prompt) eqn:E3.
  { apply pyval_eqb_eq in E3. rewrite (handle_message_ai _ _ _ _ E3).
    apply Hset. apply question_run_quiet. }
  rewrite (handle_message_other _ _ _ _ E1 E2 E3).
  assert (Hq : final (if openai_client env
                      then question_run env u (strip message_text) b
                      else {| result := Ok tt; final := b;
                              trace := [Send (plain unrecognized)] |}) = b
               ∧ filter is_insert
                   (trace (if openai_client env
                           then question_run env u (strip message_text) b
                           else {| result := Ok tt; final := b;
                                   trace := [Send (plain unrecognized)] |})) = []).
  { destruct (openai_client env); [|split; reflexivity].
    split; [apply question_run_final|apply question_run_quiet]. }
  destruct Hq as [-> ->]. split; [reflexivity|].
  exists []. rewrite app_nil_r. cbn [length map].
  split; [reflexivity|]. split; [lia|]. split; [constructor|]. reflexivity.
Qed.

(** ** What a button can change *)

Lemma str_eqb_refl a : str_eqb a a = true.
Proof. induction a as [|x a IH]; [reflexivity|]. cbn [str_eqb]. rewrite N.eqb_refl. exact IH. Qed.

Lemma str_eqb_neq a b : a ≠ b → str_eqb a b = false.
Proof.
  intros H. destruct (str_eqb a b) eqn:E; [|reflexivity].
  exfalso. apply H, str_eqb_eq, E.
Qed.

Lemma handle_callback_trace py_repr env u data b :
  let r := handle_callback py_repr env u data b in
  (∃ rest, trace r = AnswerCallback :: rest)
  ∧ filter is_insert (trace r) = [].
Proof.
  intros r. subst r.
  destruct (deals_url_params env) as (url & params & -> & -> & Hrun).
  unfold handle_callback. run_handler.
  destruct (str_eqb data (py "deals")).
  { rewrite Hrun. cbn [result final trace].
    destruct (deals_outcome py_repr env); split; try (eexists; reflexivity); reflexivity. }
  destruct (str_eqb data (py "shopee_search"));
    [split; [eexists; reflexivity|reflexivity]|].
  destruct (str_eqb data (py "add_purchase"));
    [split; [eexists; reflexivity|reflexivity]|].
  destruct (str_eqb data (py "ask_ai")).
  { destruct (openai_client env); split; try (eexists; reflexivity); reflexivity. }
  destruct (str_eqb data (py "my_expenses")).
  { destruct (order_by_date_desc _); [|destruct (expenses_summary _)];
      split; try (eexists; reflexivity); reflexivity. }
  destruct (str_eqb data (py "help")); split; try (eexists; reflexivity); reflexivity.
Qed.

Lemma handle_callback_unchanged py_repr env u data b :
  data ≠ py "shopee_search" → data ≠ py "add_purchase" → data ≠ py "ask_ai" →
  final (handle_callback py_repr env u data b) = b.
Proof.
  intros H1 H2 H3.
  destruct (deals_url_params env) as (url & params & -> & -> & Hrun).
  unfold handle_callback. run_handler.
  rewrite (str_eqb_neq _ _ H1), (str_eqb_neq _ _ H2), (str_eqb_neq _ _ H3).
  destruct (str_eqb data (py "deals")).
  { rewrite Hrun. cbn [result final trace].
    destruct (deals_outcome py_repr env); reflexivity. }
  destruct (str_eqb data (py "my_expenses")).
  { destruct (order_by_date_desc _); [|destruct (expenses_summary _)]; reflexivity. }
  destruct (str_eqb data (py "help")); reflexivity.
Qed.

Lemma handle_callback_table py_repr env u data b :
  let r := handle_callback py_repr env u data b in
  purchases (final r) = purchases b
  ∧ ∀ u', u ≠ u' → pending (final r) u' = pending b u'.
Proof.
  intros r. subst r.
  destruct (handle_callback_final py_repr env u data b) as [->|[->|[->|[_ ->]]]];
    (split; [reflexivity|]); intros u' Hu;
    try reflexivity; apply pending_set_pending_ne, Hu.
Qed.

(** ** The table over a sequence of updates *)

Lemma dispatch_added py_repr env u upd b :
  let r := dispatch py_repr env u upd b in
  ∃ added,
    purchases (final r) = purchases b ++ added
    ∧ (length added ≤ 1)%nat
    ∧ Forall (fun row => id row = next_id (purchases b) ∧ user_id row = u
                         ∧ row_ok row) added.
Proof.
  intros r. subst r. destruct upd as [| |message_text|data]; cbn [dispatch].
  - exists []. rewrite app_nil_r. repeat constructor.
  - exists []. rewrite app_nil_r. repeat constructor.
  - destruct (handle_message_added env u message_text b) as (_ & added & E & L & F & _).
    exists added. split; [exact E|]. split; [exact L|].
    eapply Forall_impl; [exact F|]. intros row (H1 & H2 & _ & H4). auto.
  - exists []. rewrite app_nil_r.
    split; [apply (handle_callback_table py_repr env u data b)|].
    repeat constructor.
Qed.

Lemma handle_message_clears env u message_text b :
  valid_state (pending b u) →
  pending (final (handle_message env u message_text b)) u = PyNone.
Proof.
  intros [Hs | [Hs | [Hs | Hs]]].
  - rewrite (handle_message_none _ _ _ _ Hs).
    destruct (openai_client env); [rewrite question_run_final|]; exact Hs.
  - rewrite (handle_message_shopee _ _ _ _ Hs). apply pending_set_pending.
  - rewrite (handle_message_purchase _ _ _ _ Hs).
    destruct (purchase_fields (strip message_text)) as [|p [|v [|c [|x t]]]];
      try apply pending_set_pending.
    destruct (float_of_str (replace 44 (py ".") v));
      [apply (pending_set_pending u PyNone b)|apply pending_set_pending].
  - rewrite (handle_message_ai _ _ _ _ Hs). apply pending_set_pending.
Qed.

(** ** Entries that are accepted *)

(** X1: while the user's state is [waiting_purchase], an entry written as
    product, value and category around two hyphens, none of the three with
    a hyphen of its own and the trimmed value accepted by [float] once its
    commas are periods, adds the row of the trimmed product, the value and
    the trimmed category, and is answered by the confirmation. *)
Theorem well_formed_entry_registered env u b produto valor categoria x :
  pending b u = waiting_purchase →
  ¬ In 45 produto → ¬ In 45 valor → ¬ In 45 categoria →
  float_of_str (replace 44 (py ".") (strip valor)) = Some x →
  let r := handle_message env u (produto ++ py "-" ++ valor ++ py "-" ++ categoria) b in
  let row := {| id := next_id (purchases b); user_id := u;
                product := strip produto; value := x;
                category := strip categoria; date := now env |} in
  purchases (final r) = purchases b ++ [row]
  ∧ pending (final r) u = PyNone
  ∧ sent (trace r) = [plain (purchase_saved (strip produto) x (strip categoria))].
Proof.
  intros Hstate Hp Hv Hc Hx r row. subst r.
  rewrite (handle_message_purchase _ _ _ _ Hstate).
  change (produto ++ py "-" ++ valor ++ py "-" ++ categoria)
    with (produto ++ 45 :: valor ++ 45 :: categoria).
  rewrite (purchase_fields_of_entry _ _ _ Hp Hv Hc), Hx.
  cbn [final trace purchases sent].
  split; [reflexivity|]. split; [apply (pending_set_pending u PyNone b)|reflexivity].
Qed.

Lemma well_formed_entry_registered_cafe :
  let x := S754_finite false 8162774324609024 (-50) in
  pending bot_purchase 7 = waiting_purchase
  ∧ float_of_str (replace 44 (py ".") (strip (py " 7,25 "))) = Some x
  ∧ (let r := handle_message env0 7
                (py "  Café " ++ py "-" ++ py " 7,25 " ++ py "-" ++ py " Casa") bot_purchase in
     let row := {| id := next_id (purchases bot_purchase); user_id := 7;
                   product := strip (py "  Café "); value := x;
                   category := strip (py " Casa"); date := now env0 |} in
     purchases (final r) = purchases bot_purchase ++ [row]
     ∧ pending (final r) 7 = PyNone
     ∧ sent (trace r)
       = [plain (purchase_saved (strip (py "  Café ")) x (strip (py " Casa")))])
  ∧ purchase_saved (strip (py "  Café ")) x (strip (py " Casa"))
    = py "✅ Compra registrada com sucesso no banco de dados!" ++ nl
      ++ py "Produto: Café" ++ nl ++ py "Valor: R$ 7.25" ++ nl ++ py "Categoria: Casa".
Proof.
  intros x.
  assert (H1 : pending bot_purchase 7 = waiting_purchase) by (vm_compute; reflexivity).
  assert (H2 : float_of_str (replace 44 (py ".") (strip (py " 7,25 "))) = Some x)
    by (vm_compute; reflexivity).
  split; [exact H1|]. split; [exact H2|]. split.
  - apply (well_formed_entry_registered env0 7 bot_purchase
             (py "  Café ") (py " 7,25 ") (py " Casa") x H1); try exact H2;
      vm_compute; intuition discriminate.
  - vm_compute. reflexivity.
Defined.

(** X2: while the user's state is [waiting_purchase], a text adds a row
    exactly when it has two hyphens and [float] accepts its middle field
    once its commas are periods. *)
Theorem row_added_iff env u message_text b :
  pending b u = waiting_purchase →
  let r := handle_message env u message_text b in
  (∃ row, purchases (final r) = purchases b ++ [row])
  ↔ (hyphens 45 message_text = 2%nat
     ∧ ∃ produto valor_str categoria x,
         purchase_fields (strip message_text) = [produto; valor_str; categoria]
         ∧ float_of_str (replace 44 (py ".") valor_str) = Some x).
Proof.
  intros Hstate r. subst r. rewrite (handle_message_purchase _ _ _ _ Hstate).
  pose proof (purchase_fields_length message_text) as Hlen.
  assert (Hnot : ¬ ∃ row, purchases (set_pending u PyNone b) = purchases b ++ [row]).
  { intros (row & E). rewrite purchases_set_pending in E. apply (f_equal length) in E.
    rewrite length_app in E. cbn [length] in E. lia. }
  destruct (purchase_fields (strip message_text)) as [|p [|v [|c [|y t]]]] eqn:Ef;
    cbn [length] in Hlen.
  1-3, 5: cbn [final]; split; [intros H; exfalso; exact (Hnot H)|];
    intros (H2 & p' & v' & c' & x & E & _); try discriminate E; lia.
  destruct (float_of_str (replace 44 (py ".") v)) as [valor|] eqn:Hv.
  - cbn [final purchases]. split.
    + intros _. split; [lia|]. exists p, v, c, valor. split; [reflexivity|exact Hv].
    + intros _. eexists. reflexivity.
  - cbn [final]. split; [intros H; exfalso; exact (Hnot H)|].
    intros (_ & p' & v' & c' & x & E & Hx). injection E as <- <- <-. congruence.
Qed.

Lemma row_added_iff_cafe :
  pending bot_purchase 7 = waiting_purchase
  ∧ ((∃ row, purchases (final (handle_message env0 7 (py "Café - 7,25 - Casa") bot_purchase))
             = purchases bot_purchase ++ [row])
     ↔ (hyphens 45 (py "Café - 7,25 - Casa") = 2%nat
        ∧ ∃ produto valor_str categoria x,
            purchase_fields (strip (py "Café - 7,25 - Casa"))
            = [produto; valor_str; categoria]
            ∧ float_of_str (replace 44 (py ".") valor_str) = Some x)).
Proof.
  assert (H1 : pending bot_purchase 7 = waiting_purchase) by (vm_compute; reflexivity).
  split; [exact H1|].
  exact (row_added_iff env0 7 (py "Café - 7,25 - Casa") bot_purchase H1).
Defined.

(** X3: [handle_message] does the same with a text and with the text
    between any whitespace. *)
Theorem surrounding_whitespace_ignored env u b w1 w2 message_text :
  Forall (fun c => isspace c = true) w1 →
  Forall (fun c => isspace c = true) w2 →
  handle_message env u (w1 ++ message_text ++ w2) b
  = handle_message env u message_text b.
Proof.
  intros H1 H2. unfold handle_message. rewrite (strip_between_spaces _ _ _ H1 H2).
  reflexivity.
Qed.

Lemma surrounding_whitespace_ignored_tabs :
  Forall (fun c => isspace c = true) [9; 160]
  ∧ Forall (fun c => isspace c = true) [10; 8195]
  ∧ handle_message env0 7 ([9; 160] ++ py "Café - 7,25 - Casa" ++ [10; 8195]) bot_purchase
    = handle_message env0 7 (py "Café - 7,25 - Casa") bot_purchase.
Proof.
  assert (H1 : Forall (fun c => isspace c = true) [9; 160]) by (repeat constructor).
  assert (H2 : Forall (fun c => isspace c = true) [10; 8195]) by (repeat constructor).
  split; [exact H1|]. split; [exact H2|].
  exact (surrounding_whitespace_ignored env0 7 bot_purchase _ _ _ H1 H2).
Defined.

(** ** What a handler leaves alone *)

(** X4: a text of user [u] leaves the state of every other user and the
    rows already in the table as they are; it adds at most one row, a row of
    [u] dated now, and inserts nothing that is not in the table afterwards;
    and when the state of [u] was one of the four values the code uses, it
    is [None] afterwards. *)
Theorem text_changes_only_sender env u message_text b :
  let r := handle_message env u message_text b in
  (∀ u', u ≠ u' → pending (final r) u' = pending b u')
  ∧ (∃ added,
       purchases (final r) = purchases b ++ added
       ∧ (length added ≤ 1)%nat
       ∧ Forall (fun row => user_id row = u ∧ date row = now env) added
       ∧ filter is_insert (trace r) = map DbInsert added)
  ∧ (∀ u', u ≠ u' →
       filter_by_user u' (purchases (final r)) = filter_by_user u' (purchases b))
  ∧ (valid_state (pending b u) → pending (final r) u = PyNone).
Proof.
  intros r.
  destruct (handle_message_added env u message_text b) as (Hp & added & E & L & F & T).
  fold r in Hp, E, T. split; [exact Hp|]. split; [|split].
  - exists added. split; [exact E|]. split; [exact L|]. split; [|exact T].
    eapply Forall_impl; [exact F|]. intros row (_ & H2 & H3 & _). auto.
  - intros u' Hu. rewrite E. unfold filter_by_user. rewrite filter_app.
    rewrite <- (app_nil_r (filter _ (purchases b))) at 2. f_equal.
    clear E T L. induction F as [|row added (_ & Hrow & _) _ IH]; [reflexivity|].
    rewrite filter_cons. destruct (decide (user_id row = u')); [congruence|exact IH].
  - intros Hvalid. apply handle_message_clears, Hvalid.
Qed.

(** X5: whatever its key, the press of a button by user [u] is answered
    first, adds no row and leaves the table and the state of every other
    user as they are; a key other than [shopee_search], [add_purchase] and
    [ask_ai] leaves the whole bot state as it is, also when the handler
    raises. *)
Theorem button_changes_only_state py_repr env u data b :
  let r := handle_callback py_repr env u data b in
  (∃ rest, trace r = AnswerCallback :: rest)
  ∧ filter is_insert (trace r) = []
  ∧ purchases (final r) = purchases b
  ∧ (∀ u', u ≠ u' → pending (final r) u' = pending b u')
  ∧ (data ≠ py "shopee_search" → data ≠ py "add_purchase" → data ≠ py "ask_ai" →
     final r = b).
Proof.
  intros r.
  destruct (handle_callback_trace py_repr env u data b) as [H1 H2].
  destruct (handle_callback_table py_repr env u data b) as [H3 H4].
  split; [exact H1|]. split; [exact H2|]. split; [exact H3|]. split; [exact H4|].
  apply handle_callback_unchanged.
Qed.

(** ** Selection, then text *)

(** X6: after the button [shopee_search], whatever the state was before,
    the next text of the user is the search term: one request to the search
    URL of the trimmed text, one answer in Markdown, the state back at
    [None], and the table as it was. *)
Theorem search_flow py_repr env env' u message_text b :
  let b1 := final (handle_callback py_repr env u (py "shopee_search") b) in
  let r := handle_message env' u message_text b1 in
  pending b1 u = waiting_shopee_term
  ∧ result r = Ok tt
  ∧ trace r = [SetState u PyNone;
               HttpGet (py "https://shopee.com.br/search?keyword="
                        ++ replace 32 (py "%20") (strip message_text)) [];
               Send {| how := Reply;
                       text := shopee_answer env' (strip message_text);
                       parse_mode := Markdown; reply_markup := [];
                       disable_web_page_preview := false |}]
  ∧ pending (final r) u = PyNone
  ∧ purchases (final r) = purchases b.
Proof.
  intros b1 r.
  assert (Hb1 : b1 = set_pending u waiting_shopee_term b) by reflexivity.
  assert (Hs : pending b1 u = waiting_shopee_term)
    by (rewrite Hb1; apply pending_set_pending).
  split; [exact Hs|]. subst r. rewrite (handle_message_shopee _ _ _ _ Hs).
  cbn [result trace final]. split; [reflexivity|]. split; [reflexivity|].
  split; [apply pending_set_pending|]. rewrite Hb1. reflexivity.
Qed.

(** X7: after the button [add_purchase], whatever the state was before,
    an entry of three parts without a hyphen of their own, whose trimmed
    value [float] accepts once its commas are periods, is registered: the
    table gets the row of the trimmed parts, and the state is back at
    [None]. *)
Theorem purchase_flow py_repr env env' u b produto valor categoria x :
  ¬ In 45 produto → ¬ In 45 valor → ¬ In 45 categoria →
  float_of_str (replace 44 (py ".") (strip valor)) = Some x →
  let b1 := final (handle_callback py_repr env u (py "add_purchase") b) in
  let r := handle_message env' u (produto ++ py "-" ++ valor ++ py "-" ++ categoria) b1 in
  purchases (final r)
  = purchases b ++ [{| id := next_id (purchases b); user_id := u;
                       product := strip produto; value := x;
                       category := strip categoria; date := now env' |}]
  ∧ pending (final r) u = PyNone
  ∧ sent (trace r) = [plain (purchase_saved (strip produto) x (strip categoria))].
Proof.
  intros Hp Hv Hc Hx b1 r.
  assert (Hb1 : b1 = set_pending u waiting_purchase b) by reflexivity.
  assert (Hs : pending b1 u = waiting_purchase)
    by (rewrite Hb1; apply pending_set_pending).
  subst r. rewrite (handle_message_purchase _ _ _ _ Hs).
  change (produto ++ py "-" ++ valor ++ py "-" ++ categoria)
    with (produto ++ 45 :: valor ++ 45 :: categoria).
  rewrite (purchase_fields_of_entry _ _ _ Hp Hv Hc), Hx.
  cbn [final trace purchases sent]. rewrite Hb1, purchases_set_pending.
  split; [reflexivity|].
  split; [apply (pending_set_pending u PyNone (set_pending u waiting_purchase b))|reflexivity].
Qed.

Lemma purchase_flow_cafe :
  let x := S754_finite false 8162774324609024 (-50) in
  (¬ In 45 (py "Café ") ∧ ¬ In 45 (py " 7,25 ") ∧ ¬ In 45 (py " Casa"))
  ∧ float_of_str (replace 44 (py ".") (strip (py " 7,25 "))) = Some x
  ∧ (let b1 := final (handle_callback (fun _ => []) env0 7 (py "add_purchase") bot_seven) in
     let r := handle_message env0 7
                (py "Café " ++ py "-" ++ py " 7,25 " ++ py "-" ++ py " Casa") b1 in
     purchases (final r)
     = purchases bot_seven ++ [{| id := next_id (purchases bot_seven); user_id := 7;
                                  product := strip (py "Café "); value := x;
                                  category := strip (py " Casa"); date := now env0 |}]
     ∧ pending (final r) 7 = PyNone
     ∧ sent (trace r)
       = [plain (purchase_saved (strip (py "Café ")) x (strip (py " Casa")))])
  ∧ next_id (purchases bot_seven) = 8%Z.
Proof.
  intros x.
  assert (Hp : ¬ In 45 (py "Café ")) by (vm_compute; intuition discriminate).
  assert (Hv : ¬ In 45 (py " 7,25 ")) by (vm_compute; intuition discriminate).
  assert (Hc : ¬ In 45 (py " Casa")) by (vm_compute; intuition discriminate).
  assert (Hx : float_of_str (replace 44 (py ".") (strip (py " 7,25 "))) = Some x)
    by (vm_compute; reflexivity).
  split; [auto|]. split; [exact Hx|]. split; [|vm_compute; reflexivity].
  exact (purchase_flow (fun _ => []) env0 env0 7 bot_seven _ _ _ x Hp Hv Hc Hx).
Defined.

(** ** Keys *)

Lemma max_seq n :
  fold_right Z.max 0%Z (map Z.of_nat (seq 1 n)) = Z.of_nat n.
Proof.
  induction n as [|n IH]; [reflexivity|].
  rewrite seq_S, map_app, fold_right_app. cbn [map fold_right Nat.add].
  assert (G : ∀ l a, (0 <= a)%Z →
            fold_right Z.max a l = Z.max a (fold_right Z.max 0%Z l)).
  { induction l as [|x l IHl]; intros a Ha; cbn [fold_right]; [lia|].
    rewrite (IHl a Ha). lia. }
  rewrite G by lia. rewrite IH. lia.
Qed.

Lemma next_id_sequential rows :
  sequential rows → next_id rows = Z.of_nat (S (length rows)).
Proof.
  unfold sequential, next_id. intros ->. rewrite max_seq. lia.
Qed.

Lemma sequential_add rows row :
  sequential rows → id row = next_id rows → sequential (rows ++ [row]).
Proof.
  intros Hs Hid. pose proof (next_id_sequential _ Hs) as Hn.
  unfold sequential in *. rewrite map_app, length_app. cbn [length map].
  replace (length rows + 1)%nat with (S (length rows)) by lia.
  rewrite seq_S, map_app. cbn [map]. rewrite Hid, Hn, <- Hs.
  reflexivity.
Qed.

(** ** The sign of a sum *)





(** ** The table over a sequence of updates *)

Lemma process_added py_repr inputs b :
  ∃ added,
    purchases (process py_repr inputs b) = purchases b ++ added
    ∧ Forall row_ok added
    ∧ (sequential (purchases b) → sequential (purchases (process py_repr inputs b))).
Proof.
  revert b. induction inputs as [|[[env u] upd] inputs IH]; intros b; cbn [process].
  - exists []. rewrite app_nil_r. split; [reflexivity|]. split; [constructor|auto].
  - destruct (dispatch_added py_repr env u upd b) as (a1 & E1 & L1 & F1).
    destruct (IH (final (dispatch py_repr env u upd b))) as (a2 & E2 & F2 & S2).
    exists (a1 ++ a2). rewrite E2, E1, <- app_assoc. split; [reflexivity|]. split.
    + apply Forall_app. split; [|exact F2].
      eapply Forall_impl; [exact F1|]. intros row (_ & _ & H). exact H.
    + intros Hs. rewrite app_assoc, <- E1, <- E2. apply S2. rewrite E1.
      destruct a1 as [|row [|row' a1]].
      * rewrite app_nil_r. exact Hs.
      * inversion F1 as [|? ? (Hid & _) _]; subst. apply sequential_add; assumption.
      * cbn [length] in L1. lia.
Qed.

(** X8: whatever the updates, the table only grows: the rows it had stay
    where they were, unchanged, and every row added has a trimmed product
    and a trimmed category without a hyphen and a value whose sign bit is
    clear. *)
Theorem purchases_only_grow py_repr inputs b :
  ∃ added,
    purchases (process py_repr inputs b) = purchases b ++ added
    ∧ (∀ i row, purchases b !! i = Some row →
                purchases (process py_repr inputs b) !! i = Some row)
    ∧ Forall (fun row =>
                is_negative (value row) = false
                ∧ strip (product row) = product row ∧ ¬ In 45 (product row)
                ∧ strip (category row) = category row ∧ ¬ In 45 (category row))
             added.
Proof.
  destruct (process_added py_repr inputs b) as (added & E & F & _).
  exists added. split; [exact E|]. split; [|exact F].
  intros i row Hi. rewrite E. apply lookup_app_l_Some, Hi.
Qed.

(** X9: when the keys of the table are 1, 2, 3, ... in the order of
    insertion, they still are after any updates; no two rows share a key. *)
Theorem purchase_ids_sequential py_repr inputs b :
  map id (purchases b) = map Z.of_nat (seq 1 (length (purchases b))) →
  let rows := purchases (process py_repr inputs b) in
  map id rows = map Z.of_nat (seq 1 (length rows))
  ∧ NoDup (map id rows).
Proof.
  intros Hs rows.
  destruct (process_added py_repr inputs b) as (_ & _ & _ & S).
  pose proof (S Hs) as H. fold rows in H. unfold sequential in H.
  split; [exact H|]. rewrite H. apply NoDup_fmap; [intros x y; lia|apply NoDup_seq].
Qed.


Lemma purchase_ids_sequential_example :
  map id (purchases bot_seven) = map Z.of_nat (seq 1 (length (purchases bot_seven)))
  ∧ (let rows := purchases (process (fun _ => []) three_updates bot_seven) in
     map id rows = map Z.of_nat (seq 1 (length rows))
     ∧ NoDup (map id rows))
  ∧ map id (purchases (process (fun _ => []) three_updates bot_seven))
    = [1; 2; 3; 4; 5; 6; 7; 8]%Z.
Proof.
  assert (H : map id (purchases bot_seven)
              = map Z.of_nat (seq 1 (length (purchases bot_seven))))
    by (vm_compute; reflexivity).
  split; [exact H|]. split; [|vm_compute; reflexivity].
  exact (purchase_ids_sequential (fun _ => []) three_updates bot_seven H).
Defined.


(** ** A registered purchase in the report *)

Lemma filter_by_user_app u rows row :
  filter_by_user u (rows ++ [row])
  = filter_by_user u rows ++ (if decide (user_id row = u) then [row] else []).
Proof.
  unfold filter_by_user. rewrite filter_app. reflexivity.
Qed.

Lemma lex_compare_refl a : lex_compare a a = Eq.
Proof.
  induction a as [|x a IH]; [reflexivity|]. cbn [lex_compare].
  rewrite N.compare_refl. exact IH.
Qed.

(** A row newer than all the others is the first of the sorted rows. *)
Lemma newest_first_is_head rows mine row :
  Permutation rows (mine ++ [row]) →
  StronglySorted newer_first rows →
  Forall (fun old => date_leb (date row) (date old) = false) mine →
  head rows = Some row.
Proof.
  intros Hperm Hsorted Hold.
  destruct rows as [|h t].
  { apply Permutation_nil in Hperm. destruct mine; discriminate Hperm. }
  cbn [head]. f_equal.
  assert (Hh : In h (mine ++ [row])).
  { apply (Permutation_in _ Hperm). left. reflexivity. }
  apply in_app_or in Hh. destruct Hh as [Hh | [Hh | []]]; [|symmetry; exact Hh].
  exfalso. rewrite Forall_forall in Hold. apply list_elem_of_In, Hold in Hh.
  assert (Hrow : In row (h :: t)).
  { apply (Permutation_in _ (Permutation_sym Hperm)), in_or_app. right. left. reflexivity. }
  destruct Hrow as [<- | Hrow].
  - unfold date_leb in Hh. rewrite lex_compare_refl in Hh. discriminate Hh.
  - inversion Hsorted as [|? ? _ Hall]; subst.
    rewrite Forall_forall in Hall. apply list_elem_of_In, Hall in Hrow.
    unfold newer_first in Hrow. congruence.
Qed.

(** X11: when a purchase with a value that is a number is registered at
    a time later than the dates of all the rows the user already has, all
    with values that read as numbers, [my_expenses] then reports one row
    more, and the first line of its list is the line of the new row. *)
Theorem newest_purchase_listed_first py_repr env env' u message_text b
    produto valor_str categoria valor :
  pending b u = waiting_purchase →
  purchase_fields (strip message_text) = [produto; valor_str; categoria] →
  float_of_str (replace 44 (py ".") valor_str) = Some valor →
  valor ≠ S754_nan →
  Forall (fun old => date_leb (now env) (date old) = false ∧ value old ≠ S754_nan)
         (filter_by_user u (purchases b)) →
  let row := {| id := next_id (purchases b); user_id := u;
                product := produto; value := valor;
                category := categoria; date := now env |} in
  let b' := final (handle_message env u message_text b) in
  let rows := order_by_date_desc (filter_by_user u (purchases b')) in
  let r := handle_callback py_repr env' u (py "my_expenses") b' in
  head rows = Some row
  ∧ length rows = S (length (filter_by_user u (purchases b)))
  ∧ result r = Ok tt
  ∧ ∃ total rest,
      sent (trace r)
      = [edited (py "📊 **Resumo dos Seus Gastos (Persistente)** 📊" ++ nl ++ nl
                 ++ py "Total Gasto: **R$ " ++ total ++ py "**" ++ nl
                 ++ py "Número de Compras: **"
                 ++ str_of_N (N.of_nat (S (length (filter_by_user u (purchases b)))))
                 ++ py "**" ++ nl ++ nl
                 ++ py "**Últimas Compras Registradas:**" ++ nl
                 ++ (py " - " ++ produto ++ py " (R$ " ++ format_f 2 valor ++ py ") - "
                     ++ categoria ++ py " (" ++ strftime_dm (now env) ++ py ")" ++ nl)
                 ++ rest)
                Markdown false].
Proof.
  intros Hstate Hfields Hvalue Hnan Hold row b' rows r.
  assert (Hb' : purchases b' = purchases b ++ [row]).
  { subst b'. rewrite (handle_message_purchase _ _ _ _ Hstate), Hfields, Hvalue.
    reflexivity. }
  assert (Hmine : filter_by_user u (purchases b') = filter_by_user u (purchases b) ++ [row]).
  { rewrite Hb', filter_by_user_app. cbn [user_id row].
    destruct (decide (u = u)); [reflexivity|contradiction]. }
  pose proof (order_by_date_desc_perm (filter_by_user u (purchases b'))) as Hperm.
  pose proof (order_by_date_desc_sorted (filter_by_user u (purchases b'))) as Hsorted.
  fold rows in Hperm, Hsorted. rewrite Hmine in Hperm.
  assert (Hhead : head rows = Some row).
  { apply (newest_first_is_head _ _ _ Hperm Hsorted).
    eapply Forall_impl; [exact Hold|]. intros old [H _]. exact H. }
  assert (Hlen : length rows = S (length (filter_by_user u (purchases b))))
    by (rewrite (Permutation_length Hperm), length_app; cbn [length]; lia).
  split; [exact Hhead|]. split; [exact Hlen|].
  destruct (expenses_answer_cases (filter_by_user u (purchases b'))) as (_ & Hnum & _).
  fold rows in Hnum.
  assert (Hanswer := Hnum
    ltac:(rewrite Hmine; destruct (filter_by_user u (purchases b)); discriminate)
    ltac:(rewrite Hmine; apply Forall_app; split;
          [eapply Forall_impl; [exact Hold|]; intros old [_ H]; exact H
          |constructor; [exact Hnan|constructor]])).
  subst r. rewrite handle_callback_my_expenses. cbv zeta. fold rows.
  rewrite Hanswer. cbn [result trace sent]. split; [reflexivity|].
  rewrite <- (Permutation_length (order_by_date_desc_perm _)). fold rows.
  rewrite Hlen.
  destruct rows as [|h t]; [discriminate Hhead|]. injection Hhead as ->.
  assert (Hsign : is_negative valor = false).
  { pose proof (purchase_fields_without_hyphen (strip message_text)) as H.
    rewrite Hfields in H. inversion H as [|? ? _ H']; subst.
    inversion H' as [|? ? Hv _]; subst.
    exact (parsed_value_not_negative _ _ Hv Hvalue). }
  exists (format_f 2 (float_sum (map (fun p => stored_real (value p)) (row :: t)))),
         (concat (map expense_text (take 4 t))).
  change (take 5 (row :: t)) with (row :: take 4 t). cbn [map concat].
  unfold expense_text at 1. subst row. cbn [product value category date].
  rewrite (stored_real_not_negative _ Hsign). reflexivity.
Qed.

Lemma newest_purchase_listed_first_example :
  let b := set_pending 7 waiting_purchase bot_seven in
  let valor := S754_finite false 8162774324609024 (-50) in
  let row := {| id := next_id (purchases b); user_id := 7;
                product := py "Pão"; value := valor;
                category := py "Casa"; date := now env_later |} in
  (pending b 7 = waiting_purchase
   ∧ purchase_fields (strip (py "Pão - 7,25 - Casa")) = [py "Pão"; py "7,25"; py "Casa"]
   ∧ float_of_str (replace 44 (py ".") (py "7,25")) = Some valor
   ∧ valor ≠ S754_nan
   ∧ Forall (fun old => date_leb (now env_later) (date old) = false
                        ∧ value old ≠ S754_nan)
            (filter_by_user 7 (purchases b)))
  ∧ (let b' := final (handle_message env_later 7 (py "Pão - 7,25 - Casa") b) in
     let rows := order_by_date_desc (filter_by_user 7 (purchases b')) in
     let r := handle_callback (fun _ => []) env0 7 (py "my_expenses") b' in
     head rows = Some row
     ∧ length rows = S (length (filter_by_user 7 (purchases b)))
     ∧ result r = Ok tt
     ∧ ∃ total rest,
         sent (trace r)
         = [edited (py "📊 **Resumo dos Seus Gastos (Persistente)** 📊" ++ nl ++ nl
                    ++ py "Total Gasto: **R$ " ++ total ++ py "**" ++ nl
                    ++ py "Número de Compras: **"
                    ++ str_of_N (N.of_nat (S (length (filter_by_user 7 (purchases b)))))
                    ++ py "**" ++ nl ++ nl
                    ++ py "**Últimas Compras Registradas:**" ++ nl
                    ++ (py " - " ++ py "Pão" ++ py " (R$ " ++ format_f 2 valor ++ py ") - "
                        ++ py "Casa" ++ py " (" ++ strftime_dm (now env_later) ++ py ")" ++ nl)
                    ++ rest)
                   Markdown false]).
Proof.
  intros b valor row.
  assert (H1 : pending b 7 = waiting_purchase) by (vm_compute; reflexivity).
  assert (H2 : purchase_fields (strip (py "Pão - 7,25 - Casa"))
               = [py "Pão"; py "7,25"; py "Casa"]) by (vm_compute; reflexivity).
  assert (H3 : float_of_str (replace 44 (py ".") (py "7,25")) = Some valor)
    by (vm_compute; reflexivity).
  assert (H4 : valor ≠ S754_nan) by discriminate.
  assert (H5 : Forall (fun old => date_leb (now env_later) (date old) = false
                                  ∧ value old ≠ S754_nan)
                      (filter_by_user 7 (purchases b)))
    by (vm_compute; repeat constructor; discriminate).
  split; [auto 6|].
  exact (newest_purchase_listed_first (fun _ => []) env_later env0 7
           (py "Pão - 7,25 - Casa") b _ _ _ _ H1 H2 H3 H4 H5).
Defined.

(** X12: the report of [my_expenses] to a user lists rows of this user
    only, and is the same before and after any update of another user. *)
Theorem my_expenses_ignores_other_users py_repr env env' u u' upd b :
  u ≠ u' →
  let before := handle_callback py_repr env u (py "my_expenses") b in
  let after := handle_callback py_repr env u (py "my_expenses")
                 (final (dispatch py_repr env' u' upd b)) in
  trace after = trace before
  ∧ Forall (fun row => user_id row = u)
           (order_by_date_desc (filter_by_user u (purchases b))).
Proof.
  intros Hu before after. subst before after.
  rewrite !handle_callback_my_expenses. cbn [trace].
  destruct (dispatch_added py_repr env' u' upd b) as (added & -> & _ & F).
  assert (Hf : filter_by_user u (purchases b ++ added) = filter_by_user u (purchases b)).
  { unfold filter_by_user. rewrite filter_app.
    rewrite <- (app_nil_r (filter _ (purchases b))) at 2. f_equal.
    induction F as [|row added (_ & Hrow & _) _ IH]; [reflexivity|].
    rewrite filter_cons. destruct (decide (user_id row = u)); [congruence|exact IH]. }
  rewrite Hf. split; [reflexivity|].
  apply (Permutation_Forall (Permutation_sym (order_by_date_desc_perm _))).
  apply Forall_forall. intros row Hrow. apply list_elem_of_filter in Hrow. apply Hrow.
Qed.

Lemma my_expenses_ignores_other_users_example :
  7%Z ≠ 8%Z
  ∧ (let b := set_pending 8 waiting_purchase bot_seven in
     let before := handle_callback (fun _ => []) env0 7 (py "my_expenses") b in
     let after := handle_callback (fun _ => []) env0 7 (py "my_expenses")
                    (final (dispatch (fun _ => []) env_later 8
                              (Text (py "Pão - 7,25 - Casa")) b)) in
     trace after = trace before
     ∧ Forall (fun row => user_id row = 7%Z)
              (order_by_date_desc (filter_by_user 7 (purchases b))))
  ∧ length (purchases (final (dispatch (fun _ => []) env_later 8
              (Text (py "Pão - 7,25 - Casa")) (set_pending 8 waiting_purchase bot_seven))))
    = 8%nat.
Proof.
  assert (H : 7%Z ≠ 8%Z) by discriminate.
  split; [exact H|]. split; [|vm_compute; reflexivity].
  exact (my_expenses_ignores_other_users (fun _ => []) env0 env_later 7 8
           (Text (py "Pão - 7,25 - Casa")) (set_pending 8 waiting_purchase bot_seven) H).
Defined.

(** ** The assistant *)

(** X13: with a key, [analisar_com_ia] reads the rows of the user and
    changes nothing.  When the values of these rows read as numbers, it
    calls the completion service once and returns the completion, or the
    error message when the call failed; the user message of the call is the
    context followed by the question, and for a user without rows the
    context says that nothing was registered.  When one of the values is
    NULL, it raises a [TypeError] after the query and calls no service.
    What it does is the same for two tables that agree on the rows of this
    user. *)
Theorem assistant_sees_only_own_rows env u prompt b :
  openai_client env = true →
  let r := analisar_com_ia env u prompt b in
  let mine := filter (fun p => user_id p = u) (purchases b) in
  final r = b
  ∧ (Forall (fun p => value p ≠ S754_nan) mine →
     result r = Ok (match openai env with Some content => content | None => ai_error end)
     ∧ ∃ context,
         trace r = [DbSelect u;
                    ChatCompletion system_prompt
                      (py "Contexto de gastos do usuário:" ++ nl ++ context ++ nl ++ nl
                       ++ py "Pergunta do usuário: " ++ prompt)]
         ∧ (mine = [] → context = py "O usuário ainda não registrou nenhuma compra."))
  ∧ (Exists (fun p => value p = S754_nan) mine →
     result r = Raise TypeError ∧ trace r = [DbSelect u])
  ∧ (∀ b', filter (fun p => user_id p = u) (purchases b') = mine →
           trace (analisar_com_ia env u prompt b') = trace r
           ∧ result (analisar_com_ia env u prompt b') = result r).
Proof.
  intros Hkey r mine. subst r. rewrite analisar_com_ia_run, Hkey.
  change (filter_by_user u (purchases b)) with mine.
  split; [destruct (user_prompt mine prompt); reflexivity|]. split; [|split].
  - intros Hnum. destruct (user_prompt_numbers mine prompt Hnum) as (context & Hc & ->).
    unfold ai_answer. rewrite Hkey. cbn [result trace]. split; [reflexivity|].
    exists context. split; [reflexivity|].
    intros E. rewrite E in Hc. unfold context_data, mret, res_ret in Hc.
    injection Hc as <-. reflexivity.
  - intros Hnull. rewrite (user_prompt_null mine prompt Hnull). split; reflexivity.
  - intros b' Hb'. rewrite analisar_com_ia_run, Hkey.
    change (filter_by_user u (purchases b')) with (filter (fun p => user_id p = u) (purchases b')).
    rewrite Hb'. destruct (user_prompt mine prompt); split; reflexivity.
Qed.

Lemma assistant_sees_only_own_rows_example :
  let r := analisar_com_ia env_ai 8 (py "Quanto gastei?") bot_seven in
  let mine := filter (fun p => user_id p = 8%Z) (purchases bot_seven) in
  (openai_client env_ai = true
   ∧ Forall (fun p => value p ≠ S754_nan) mine)
  ∧ (result r = Ok (match openai env_ai with Some content => content | None => ai_error end)
     ∧ ∃ context,
         trace r = [DbSelect 8;
                    ChatCompletion system_prompt
                      (py "Contexto de gastos do usuário:" ++ nl ++ context ++ nl ++ nl
                       ++ py "Pergunta do usuário: " ++ py "Quanto gastei?")]
         ∧ (mine = [] → context = py "O usuário ainda não registrou nenhuma compra."))
  ∧ trace r
    = [DbSelect 8;
       ChatCompletion system_prompt
         (py "Contexto de gastos do usuário:" ++ nl
          ++ py "O usuário já gastou um total de R$ 99.00 em 1 compras. "
          ++ py "Aqui está o histórico detalhado:" ++ nl
          ++ py "- Outro (R$ 99.00) na categoria Casa em 07/11/2024" ++ nl ++ nl
          ++ py "Pergunta do usuário: Quanto gastei?")].
Proof.
  intros r mine.
  assert (H1 : openai_client env_ai = true) by reflexivity.
  assert (H2 : Forall (fun p => value p ≠ S754_nan) mine)
    by (vm_compute; repeat constructor; discriminate).
  split; [split; [exact H1|exact H2]|]. split; [|vm_compute; reflexivity].
  exact (proj1 (proj2 (assistant_sees_only_own_rows env_ai 8 (py "Quanto gastei?")
                         bot_seven H1)) H2).
Defined.

Example assistant_context_of_user_8 :
  context_data (filter_by_user 8 (purchases bot_seven))
  = Ok (py "O usuário já gastou um total de R$ 99.00 em 1 compras. "
        ++ py "Aqui está o histórico detalhado:" ++ nl
        ++ py "- Outro (R$ 99.00) na categoria Casa em 07/11/2024").
Proof. vm_compute. reflexivity. Qed.

(** ** Deals that cannot be formatted *)

Lemma format_deals_raises py_repr items acc :
  Exists (fun item => ∃ e, format_deal py_repr item = Raise e) items →
  ∃ e, format_deals py_repr acc items = Raise e.
Proof.
  intros H. revert acc. induction H as [item items (e & He) | item items _ IH];
    intros acc; cbn [format_deals]; unfold mbind, res_bind.
  - rewrite He. exists e. reflexivity.
  - destruct (format_deal py_repr item) as [entry|e]; [apply IH|exists e; reflexivity].
Qed.

(** X14: when the service answers with a list of deals one of which cannot
    be formatted (it is no dict, its [deal] is no dict, or its discount is
    no number), the handler of [deals] raises an error that is not caught,
    sends no message at all, not even for the deals before it, and leaves
    the bot state as it is. *)
Theorem bad_deal_aborts_reply py_repr env u b status fields items :
  deals_api env = Response status (JObj fields) →
  (400 <=? status) && (status <? 600) = false →
  assoc (py "deals") fields = Some (JList items) →
  Exists (fun item => ∃ e, format_deal py_repr item = Raise e) items →
  let r := handle_callback py_repr env u (py "deals") b in
  (∃ e, result r = Raise e ∧ e ≠ RequestException)
  ∧ sent (trace r) = []
  ∧ final r = b.
Proof.
  intros Hapi Hs Hd Hbad r. subst r. rewrite handle_callback_deals.
  cbn [result final trace].
  assert (Hout : ∃ e, deals_outcome py_repr env = Raise e ∧ e ≠ RequestException).
  { unfold deals_outcome. rewrite Hapi, Hs. unfold mbind, res_bind. cbn [py_get].
    rewrite Hd. cbn [from_option Datatypes.id].
    destruct items as [|i items']; [inversion Hbad|]. cbn [truthy negb py_iter].
    destruct (format_deals_raises py_repr _ deals_header Hbad) as (e & He).
    exists e. split; [exact He|]. intros ->.
    exact (format_deals_not_request _ _ _ He). }
  destruct Hout as (e & -> & Hne). split; [exists e; auto|]. split; reflexivity.
Qed.

Lemma bad_deal_aborts_reply_example :
  let items := [deal 1; JObj [(py "deal", JObj [(py "discount_percentage", JNull)])]; deal 3] in
  (deals_api env_bad_deal = Response 200 (JObj [(py "deals", JList items)])
   ∧ Exists (fun item => ∃ e, format_deal (fun _ => []) item = Raise e) items)
  ∧ (let r := handle_callback (fun _ => []) env_bad_deal 7 (py "deals") bot0 in
     (∃ e, result r = Raise e ∧ e ≠ RequestException)
     ∧ sent (trace r) = []
     ∧ final r = bot0)
  ∧ result (handle_callback (fun _ => []) env_bad_deal 7 (py "deals") bot0)
    = Raise TypeError.
Proof.
  intros items.
  assert (H : Exists (fun item => ∃ e, format_deal (fun _ => []) item = Raise e) items).
  { right. left. exists TypeError. vm_compute. reflexivity. }
  split; [split; [reflexivity|exact H]|]. split; [|vm_compute; reflexivity].
  exact (bad_deal_aborts_reply (fun _ => []) env_bad_deal 7 bot0 200
           [(py "deals", JList items)] items eq_refl eq_refl eq_refl H).
Defined.

(** X15: when the answer of the service has no [deals], or has a value
    for it that Python takes as false ([null], [0], [false], an empty text,
    list or dict), the handler of [deals] answers with the no-deals message
    and formats nothing. *)
Theorem deals_missing_or_false py_repr env u b status fields :
  deals_api env = Response status (JObj fields) →
  (400 <=? status) && (status <? 600) = false →
  truthy (default (JList []) (assoc (py "deals") fields)) = false →
  let r := handle_callback py_repr env u (py "deals") b in
  result r = Ok tt
  ∧ sent (trace r) = [edited no_deals Markdown true]
  ∧ final r = b.
Proof.
  intros Hapi Hs Hd r. subst r. rewrite handle_callback_deals.
  assert (Hout : deals_outcome py_repr env = Ok no_deals).
  { unfold deals_outcome. rewrite Hapi, Hs. unfold mbind, res_bind. cbn [py_get].
    rewrite Hd. reflexivity. }
  rewrite Hout. cbn [result final trace sent]. repeat split.
Qed.

Lemma deals_missing_or_false_example :
  (deals_api env_null_deals
   = Response 200 (JObj [(py "status", JStr (py "ok")); (py "deals", JNull)])
   ∧ truthy (default (JList []) (assoc (py "deals")
               [(py "status", JStr (py "ok")); (py "deals", JNull)])) = false)
  ∧ (let r := handle_callback (fun _ => []) env_null_deals 7 (py "deals") bot0 in
     result r = Ok tt
     ∧ sent (trace r) = [edited no_deals Markdown true]
     ∧ final r = bot0).
Proof.
  split; [split; reflexivity|].
  exact (deals_missing_or_false (fun _ => []) env_null_deals 7 bot0 200
           [(py "status", JStr (py "ok")); (py "deals", JNull)]
           eq_refl eq_refl eq_refl).
Defined.

(** X16: a deal that is a dict without the key [deal] is formatted with
    the default of every field: no title, price N/A, discount 0.0, unknown
    store, and the link [#]. *)
Theorem deal_without_details py_repr fields :
  assoc (py "deal") fields = None →
  format_deal py_repr (JObj fields)
  = Ok (py "🏷️ **Sem Título**" ++ nl
        ++ py "💰 Preço: $N/A | Desconto: 0.0%" ++ nl
        ++ py "🏪 Loja: Loja Desconhecida" ++ nl
        ++ py "[🔗 Ver Oferta](#)" ++ nl ++ nl).
Proof.
  intros H. unfold format_deal, mbind, res_bind, mret, res_ret. cbn [py_get].
  rewrite H. vm_compute. reflexivity.
Qed.

Lemma deal_without_details_example :
  assoc (py "deal") [(py "id", JInt 3); (py "title", JStr (py "x"))] = None
  ∧ format_deal (fun _ => []) (JObj [(py "id", JInt 3); (py "title", JStr (py "x"))])
    = Ok (py "🏷️ **Sem Título**" ++ nl
          ++ py "💰 Preço: $N/A | Desconto: 0.0%" ++ nl
          ++ py "🏪 Loja: Loja Desconhecida" ++ nl
          ++ py "[🔗 Ver Oferta](#)" ++ nl ++ nl).
Proof.
  split; [reflexivity|].
  exact (deal_without_details (fun _ => [])
           [(py "id", JInt 3); (py "title", JStr (py "x"))] eq_refl).
Defined.

(** ** The search URL *)

Lemma replace_without old new s :
  ¬ In old s → replace old new s = s.
Proof.
  induction s as [|c r IH]; intros H; cbn [replace]; [reflexivity|].
  destruct (N.eqb_spec c old) as [->|_]; [exfalso; apply H; left; reflexivity|].
  cbn [app]. f_equal. apply IH. intros Hin. apply H. right. exact Hin.
Qed.

Lemma replace_removes old new s :
  ¬ In old new → ¬ In old (replace old new s).
Proof.
  intros Hn. induction s as [|c r IH]; cbn [replace]; [intros []|].
  intros H. apply in_app_or in H. destruct H as [H|H]; [|exact (IH H)].
  destruct (N.eqb_spec c old) as [->|Hc]; [exact (Hn H)|].
  destruct H as [H|[]]. congruence.
Qed.

Lemma replace_app old new a b :
  replace old new (a ++ b) = replace old new a ++ replace old new b.
Proof.
  induction a as [|c a IH]; [reflexivity|].
  cbn [app replace]. rewrite IH, app_assoc. reflexivity.
Qed.

(** X17: the search URL has no space: every space of the term is written
    [%20]; nothing else is encoded, so that a term without a space is
    appended to the address as it is. *)
Theorem search_url_has_no_space termo :
  ¬ In 32 (shopee_url termo)
  ∧ (¬ In 32 termo →
     shopee_url termo = py "https://shopee.com.br/search?keyword=" ++ termo)
  ∧ (∀ a b, shopee_url (a ++ 32 :: b)
            = shopee_url a ++ py "%20" ++ replace 32 (py "%20") b).
Proof.
  unfold shopee_url. split; [|split].
  - intros H. apply in_app_or in H. destruct H as [H|H].
    + vm_compute in H. intuition discriminate.
    + revert H. apply replace_removes. vm_compute. intuition discriminate.
  - intros H. rewrite (replace_without _ _ _ H). reflexivity.
  - intros a b. rewrite replace_app. cbn [replace]. rewrite N.eqb_refl, <- !app_assoc.
    reflexivity.
Qed.

(** ** Buttons and keys *)

(** X18: every button of the menu sent by [start] has a branch in
    [handle_callback]: pressing it gives exactly one message whenever the
    handler returns; the handler returns for every button but [deals] and
    [my_expenses], and for [my_expenses] when the values of the user's rows
    read as numbers. *)
Theorem every_button_is_handled py_repr env u b label data :
  In (label, data) (concat keyboard) →
  let r := handle_callback py_repr env u data b in
  (result r = Ok tt → length (sent (trace r)) = 1%nat)
  ∧ (data ≠ py "deals" → data ≠ py "my_expenses" → result r = Ok tt)
  ∧ (data = py "my_expenses" →
     Forall (fun p => value p ≠ S754_nan) (filter_by_user u (purchases b)) →
     result r = Ok tt).
Proof.
  intros Hin. apply handle_callback_sent.
  apply (in_map snd) in Hin. exact Hin.
Qed.

Lemma every_button_is_handled_example :
  let r := handle_callback (fun _ => []) env0 7 (py "my_expenses") bot_seven in
  (In (py "📊 Meus Gastos", py "my_expenses") (concat keyboard)
   ∧ Forall (fun p => value p ≠ S754_nan) (filter_by_user 7 (purchases bot_seven)))
  ∧ result r = Ok tt
  ∧ length (sent (trace r)) = 1%nat.
Proof.
  intros r.
  assert (H : In (py "📊 Meus Gastos", py "my_expenses") (concat keyboard))
    by (do 3 right; left; reflexivity).
  assert (H2 : Forall (fun p => value p ≠ S754_nan)
                      (filter_by_user 7 (purchases bot_seven)))
    by (vm_compute; repeat constructor; discriminate).
  destruct (every_button_is_handled (fun _ => []) env0 7 bot_seven _ _ H)
    as (Hone & _ & Hret).
  split; [split; [exact H|exact H2]|].
  split; [exact (Hret eq_refl H2)|exact (Hone (Hret eq_refl H2))].
Defined.

(** X19: a key that is none of the six keys of the menu is acknowledged
    and otherwise ignored: no message, no change of state. *)
Theorem unknown_key_ignored py_repr env u data b :
  ¬ In data menu_keys →
  handle_callback py_repr env u data b
  = {| result := Ok tt; final := b; trace := [AnswerCallback] |}.
Proof.
  intros H. unfold menu_keys in H. cbn [In] in H.
  unfold handle_callback. run_handler.
  rewrite !str_eqb_neq; [reflexivity|..]; intros ->; apply H; tauto.
Qed.

Lemma unknown_key_ignored_example :
  ¬ In (py "settings") menu_keys
  ∧ handle_callback (fun _ => []) env0 7 (py "settings") bot_purchase
    = {| result := Ok tt; final := bot_purchase; trace := [AnswerCallback] |}.
Proof.
  assert (H : ¬ In (py "settings") menu_keys) by (vm_compute; intuition discriminate).
  split; [exact H|].
  exact (unknown_key_ignored (fun _ => []) env0 7 (py "settings") bot_purchase H).
Defined.

(** ** One decimal point *)

Lemma span_digits_spec s d t :
  span_digits s = (d, t) → s = d ++ t ∧ Forall (fun c => isdigit c = true) d.
Proof.
  revert d t. induction s as [|c r IH]; intros d t; cbn [span_digits].
  - intros [= <- <-]. split; [reflexivity|constructor].
  - destruct (isdigit c) eqn:Hc.
    + destruct (span_digits r) as [d' t'] eqn:E. intros [= <- <-].
      destruct (IH d' t' eq_refl) as [-> Hd]. split; [reflexivity|].
      constructor; assumption.
    + intros [= <- <-]. split; [reflexivity|constructor].
Qed.

(** Neither a point nor a question mark. *)
Lemma digits_plain d c :
  Forall (fun c => isdigit c = true) d → In c d → c ≠ 46 ∧ c ≠ 63.
Proof.
  intros Hd Hin. rewrite Forall_forall in Hd. apply list_elem_of_In, Hd in Hin.
  split; intros ->; discriminate Hin.
Qed.

Lemma word_plain s w c :
  str_eqb (map lower s) w = true → ¬ In 46 w → ¬ In 63 w →
  In c s → c ≠ 46 ∧ c ≠ 63.
Proof.
  intros E H46 H63 Hin. apply str_eqb_eq in E. subst w.
  split; intros ->; [apply H46|apply H63];
    exact (in_map lower _ _ Hin).
Qed.

Lemma parse_sign_cases s :
  parse_sign s = (false, s)
  ∨ ∃ g r, (g = 45 ∨ g = 43) ∧ s = g :: r ∧ snd (parse_sign s) = r.
Proof.
  destruct s as [|g r]; [left; reflexivity|].
  destruct g as [|p]; [left; reflexivity|].
  do 6 (destruct p as [p|p|]; try (left; reflexivity));
    right; eexists _, r; (split; [|split; reflexivity]); auto.
Qed.

Lemma parse_exponent_plain s e c :
  parse_exponent s = Some e → In c s → c ≠ 46 ∧ c ≠ 63.
Proof.
  unfold parse_exponent. destruct s as [|x r]; [intros _ []|].
  destruct ((x =? 101) || (x =? 69)) eqn:Hx; [|discriminate].
  destruct (parse_sign r) as [neg r1] eqn:Hs.
  destruct (span_digits r1) as [d t] eqn:Hd.
  destruct d as [|d0 d]; [discriminate|]. destruct t; [|discriminate].
  intros _. apply span_digits_spec in Hd. destruct Hd as [Hr1 Hdig].
  rewrite app_nil_r in Hr1. subst r1.
  intros [<- | Hin].
  - split; intros ->; discriminate Hx.
  - destruct (parse_sign_cases r) as [Hr | (g & r' & Hg & -> & Hr)];
      rewrite Hs in Hr; cbn [snd] in Hr.
    + injection Hr as _ <-. exact (digits_plain _ _ Hdig Hin).
    + subst r'. destruct Hin as [<- | Hin]; [|exact (digits_plain _ _ Hdig Hin)].
      destruct Hg as [-> | ->]; split; discriminate.
Qed.

Lemma hyphens_none c s : (∀ x, In x s → x ≠ c) → hyphens c s = 0%nat.
Proof.
  intros H. unfold hyphens. apply count_occ_not_In. intros Hin. exact (H c Hin eq_refl).
Qed.

Lemma hyphens_app c a b : hyphens c (a ++ b) = (hyphens c a + hyphens c b)%nat.
Proof. unfold hyphens. apply count_occ_app. Qed.

(** A literal that [float] accepts has at most one point and no question
    mark. *)
Lemma parse_unsigned_one_point neg s x :
  parse_unsigned neg s = Some x →
  (hyphens 46 s ≤ 1)%nat ∧ ¬ In 63 s.
Proof.
  unfold parse_unsigned.
  destruct (str_eqb (map lower s) (py "inf")) eqn:E1.
  { intros _. assert (H : ∀ c, In c s → c ≠ 46 ∧ c ≠ 63).
    { intros c. apply (word_plain _ _ _ E1); vm_compute; intuition discriminate. }
    split; [rewrite hyphens_none; [lia|intros c Hc; apply H, Hc]|].
    intros Hin. apply H in Hin. tauto. }
  destruct (str_eqb (map lower s) (py "infinity")) eqn:E2.
  { intros _. assert (H : ∀ c, In c s → c ≠ 46 ∧ c ≠ 63).
    { intros c. apply (word_plain _ _ _ E2); vm_compute; intuition discriminate. }
    split; [rewrite hyphens_none; [lia|intros c Hc; apply H, Hc]|].
    intros Hin. apply H in Hin. tauto. }
  cbn [orb].
  destruct (str_eqb (map lower s) (py "nan")) eqn:E3.
  { intros _. assert (H : ∀ c, In c s → c ≠ 46 ∧ c ≠ 63).
    { intros c. apply (word_plain _ _ _ E3); vm_compute; intuition discriminate. }
    split; [rewrite hyphens_none; [lia|intros c Hc; apply H, Hc]|].
    intros Hin. apply H in Hin. tauto. }
  destruct (span_digits s) as [ip r1] eqn:Hip.
  apply span_digits_spec in Hip. destruct Hip as [-> Hipd].
  assert (Hpoint : ∃ fp r2,
            match r1 with 46 :: t => span_digits t | _ => ([], r1) end = (fp, r2)
            ∧ Forall (fun c => isdigit c = true) fp
            ∧ (r1 = fp ++ r2 ∧ fp = [] ∨ r1 = 46 :: fp ++ r2)).
  { destruct r1 as [|c t].
    - exists [], []. split; [reflexivity|]. split; [constructor|left; auto].
    - destruct (N.eq_dec c 46) as [->|Hc].
      + destruct (span_digits t) as [fp r2] eqn:Hfp.
        apply span_digits_spec in Hfp. destruct Hfp as [-> Hfpd].
        exists fp, r2. auto.
      + exists [], (c :: t). split; [|split; [constructor|left; auto]].
        destruct c as [|p]; [reflexivity|].
        do 6 (destruct p as [p|p|]; try reflexivity). contradiction. }
  destruct Hpoint as (fp & r2 & -> & Hfpd & Hr1).
  destruct (ip ++ fp) as [|d0 ds]; [discriminate|].
  destruct (parse_exponent r2) as [e|] eqn:He; [|discriminate].
  intros _.
  assert (Hip0 : hyphens 46 ip = 0%nat ∧ ¬ In 63 ip).
  { split; [apply hyphens_none; intros c Hc; apply (digits_plain _ _ Hipd Hc)|].
    intros Hin. apply (digits_plain _ _ Hipd) in Hin. tauto. }
  assert (Hfp0 : hyphens 46 fp = 0%nat ∧ ¬ In 63 fp).
  { split; [apply hyphens_none; intros c Hc; apply (digits_plain _ _ Hfpd Hc)|].
    intros Hin. apply (digits_plain _ _ Hfpd) in Hin. tauto. }
  assert (Hr20 : hyphens 46 r2 = 0%nat ∧ ¬ In 63 r2).
  { split; [apply hyphens_none; intros c Hc; apply (parse_exponent_plain _ _ _ He Hc)|].
    intros Hin. apply (parse_exponent_plain _ _ _ He) in Hin. tauto. }
  destruct Hip0 as [Ci Ni], Hfp0 as [Cf Nf], Hr20 as [Cr Nr].
  destruct Hr1 as [[-> ->] | ->].
  - cbn [app]. rewrite hyphens_app, Ci, Cr. split; [lia|].
    intros Hin. apply in_app_or in Hin. tauto.
  - change (46 :: fp ++ r2) with ([46] ++ fp ++ r2).
    rewrite !hyphens_app, Ci, Cf, Cr. split; [cbn; lia|].
    intros Hin. apply in_app_or in Hin. destruct Hin as [Hin|Hin]; [tauto|].
    apply in_app_or in Hin. destruct Hin as [[Hin|[]]|Hin]; [discriminate Hin|].
    apply in_app_or in Hin. tauto.
Qed.

Lemma remove_underscores_keeps prev s u c :
  c ≠ 95 → remove_underscores prev s = Some u → hyphens c s = hyphens c u.
Proof.
  intros Hc. revert prev u. unfold hyphens.
  induction s as [|x r IH]; intros prev u; cbn [remove_underscores].
  - destruct (prev =? 95); [discriminate|]. intros [= <-]. reflexivity.
  - destruct (N.eqb_spec x 95) as [->|Hx].
    + destruct (isdigit prev); [|discriminate]. intros H. cbn [count_occ].
      destruct (N.eq_dec 95 c); [congruence|]. eapply IH, H.
    + destruct ((prev =? 95) && negb (isdigit x)); [discriminate|].
      destruct (remove_underscores x r) as [u'|] eqn:E; [|discriminate].
      intros [= <-]. cbn [count_occ]. rewrite (IH _ _ E). reflexivity.
Qed.

Lemma ascii_lstrip_keeps c s :
  ascii_isspace c = false → hyphens c (ascii_lstrip s) = hyphens c s.
Proof.
  intros Hc. unfold hyphens. induction s as [|x r IH]; [reflexivity|].
  cbn [ascii_lstrip]. destruct (ascii_isspace x) eqn:Hx; [|reflexivity].
  rewrite IH. cbn [count_occ]. destruct (N.eq_dec x c); [congruence|reflexivity].
Qed.

Lemma ascii_strip_keeps c s :
  ascii_isspace c = false → hyphens c (ascii_strip s) = hyphens c s.
Proof.
  intros Hc. unfold ascii_strip, hyphens. rewrite count_occ_rev.
  fold (hyphens c (ascii_lstrip (rev (ascii_lstrip s)))).
  rewrite (ascii_lstrip_keeps _ _ Hc). unfold hyphens. rewrite count_occ_rev.
  apply ascii_lstrip_keeps, Hc.
Qed.

Lemma transform_points s :
  (hyphens 46 s ≤ hyphens 46 (transform_decimal_and_space s))%nat
  ∨ In 63 (transform_decimal_and_space s).
Proof.
  unfold hyphens. induction s as [|x r IH]; [left; reflexivity|].
  cbn [transform_decimal_and_space].
  destruct (N.ltb_spec x 127) as [Hx|Hx].
  { destruct IH as [IH|IH]; [left|right; right; exact IH].
    cbn [count_occ]. destruct (N.eq_dec x 46); lia. }
  assert (H46 : x ≠ 46) by lia.
  destruct (isspace x).
  { destruct IH as [IH|IH]; [left|right; right; exact IH].
    cbn [count_occ]. destruct (N.eq_dec x 46); [contradiction|].
    destruct (N.eq_dec 32 46); [discriminate|exact IH]. }
  destruct (Py_UNICODE_TODECIMAL x) as [d|]; [|right; left; reflexivity].
  destruct IH as [IH|IH]; [left|right; right; exact IH].
  cbn [count_occ]. destruct (N.eq_dec x 46); [contradiction|].
  destruct (N.eq_dec (48 + d) 46); [lia|exact IH].
Qed.

(** A text that [float] accepts has at most one point. *)
Lemma float_of_str_one_point s x :
  float_of_str s = Some x → (hyphens 46 s ≤ 1)%nat.
Proof.
  unfold float_of_str. intros H.
  assert (Hcore : (hyphens 46 (ascii_strip (to_ascii s)) ≤ 1)%nat
                  ∧ hyphens 63 (ascii_strip (to_ascii s)) = 0%nat).
  { destruct (ascii_strip (to_ascii s)) as [|c t]; [discriminate|].
    set (core := c :: t) in *.
    destruct (if existsb (N.eqb 95) core then remove_underscores 0 core else Some core)
      as [u|] eqn:Hu; [|discriminate].
    destruct (parse_sign u) as [neg r] eqn:Hs.
    destruct (parse_unsigned_one_point _ _ _ H) as [Hp Hq].
    assert (Hu' : (hyphens 46 u ≤ 1)%nat ∧ hyphens 63 u = 0%nat).
    { apply (count_occ_not_In N.eq_dec) in Hq. fold (hyphens 63 r) in Hq.
      destruct (parse_sign_cases u) as [Hr | (g & r' & Hg & -> & Hr)];
        rewrite Hs in Hr; cbn [snd] in Hr.
      - injection Hr as _ <-. auto.
      - subst r'. change (g :: r) with ([g] ++ r). rewrite !hyphens_app, Hq.
        destruct Hg as [-> | ->]; cbn; split; lia. }
    destruct (existsb (N.eqb 95) core).
    - rewrite (remove_underscores_keeps _ _ _ 46 ltac:(discriminate) Hu),
              (remove_underscores_keeps _ _ _ 63 ltac:(discriminate) Hu). exact Hu'.
    - injection Hu as <-. exact Hu'. }
  rewrite !ascii_strip_keeps in Hcore by reflexivity.
  destruct Hcore as [Hp Hq]. unfold to_ascii in Hp, Hq.
  destruct (forallb (fun c => c <? 128) s); [exact Hp|].
  destruct (transform_points s) as [Ht | Ht]; [lia|].
  apply (count_occ_In N.eq_dec) in Ht. fold (hyphens 63 (transform_decimal_and_space s)) in Ht.
  lia.
Qed.

Lemma replace_comma_points s :
  hyphens 46 (replace 44 (py ".") s) = (hyphens 44 s + hyphens 46 s)%nat.
Proof.
  unfold hyphens. induction s as [|c r IH]; [reflexivity|].
  cbn [replace]. rewrite count_occ_app, IH. cbn [count_occ].
  destruct (N.eqb_spec c 44) as [->|Hc].
  - change (count_occ N.eq_dec (py ".") 46) with 1%nat.
    destruct (N.eq_dec 44 44); [|contradiction].
    destruct (N.eq_dec 44 46); [discriminate|]. lia.
  - cbn [count_occ]. destruct (N.eq_dec c 44); [contradiction|].
    destruct (N.eq_dec c 46); lia.
Qed.

(** X20: while the user's state is [waiting_purchase], an entry of three
    fields whose value has two or more decimal separators, commas or points,
    as in 1.000,50, is answered by the value error and adds no row. *)
Theorem two_separators_rejected env u message_text b produto valor_str categoria :
  pending b u = waiting_purchase →
  purchase_fields (strip message_text) = [produto; valor_str; categoria] →
  (2 ≤ hyphens 44 valor_str + hyphens 46 valor_str)%nat →
  let r := handle_message env u message_text b in
  sent (trace r) = [plain value_error]
  ∧ purchases (final r) = purchases b.
Proof.
  intros Hstate Hfields Hsep r. subst r.
  rewrite (handle_message_purchase _ _ _ _ Hstate), Hfields.
  destruct (float_of_str (replace 44 (py ".") valor_str)) as [x|] eqn:Hx.
  - apply float_of_str_one_point in Hx. rewrite replace_comma_points in Hx. lia.
  - split; reflexivity.
Qed.

Lemma two_separators_rejected_example :
  (pending bot_purchase 7 = waiting_purchase
   ∧ purchase_fields (strip (py "TV - 1.000,50 - Casa"))
     = [py "TV"; py "1.000,50"; py "Casa"]
   ∧ (2 ≤ hyphens 44 (py "1.000,50") + hyphens 46 (py "1.000,50"))%nat)
  ∧ (let r := handle_message env0 7 (py "TV - 1.000,50 - Casa") bot_purchase in
     sent (trace r) = [plain value_error]
     ∧ purchases (final r) = purchases bot_purchase).
Proof.
  assert (H1 : pending bot_purchase 7 = waiting_purchase) by (vm_compute; reflexivity).
  assert (H2 : purchase_fields (strip (py "TV - 1.000,50 - Casa"))
               = [py "TV"; py "1.000,50"; py "Casa"]) by (vm_compute; reflexivity).
  assert (H3 : (2 ≤ hyphens 44 (py "1.000,50") + hyphens 46 (py "1.000,50"))%nat)
    by (vm_compute; lia).
  split; [auto|].
  exact (two_separators_rejected env0 7 _ bot_purchase _ _ _ H1 H2 H3).
Defined.

(** ** More on the states and the flows *)

(** X21: when the state of every user is [None] or one of the three
    pending states, it still is after any updates. *)
Theorem states_stay_valid py_repr inputs b :
  (∀ u, valid_state (pending b u)) →
  ∀ u, valid_state (pending (process py_repr inputs b) u).
Proof.
  revert b. induction inputs as [|[[env v] upd] r IH]; intros b Hb; cbn [process];
    [exact Hb|]. apply IH, dispatch_valid, Hb.
Qed.

Lemma states_stay_valid_example :
  (∀ u, valid_state (pending bot_purchase u))
  ∧ (∀ u, valid_state (pending (process (fun _ => []) three_updates bot_purchase) u))
  ∧ pending (process (fun _ => []) three_updates bot_purchase) 7 = PyNone.
Proof.
  assert (H : ∀ u, valid_state (pending bot_purchase u)).
  { intros u. unfold bot_purchase.
    destruct (pending_set_pending_cases 7 waiting_purchase bot0 u) as [[_ ->] | ->].
    - right. right. left. reflexivity.
    - left. reflexivity. }
  split; [exact H|]. split; [|vm_compute; reflexivity].
  exact (states_stay_valid (fun _ => []) three_updates bot_purchase H).
Defined.

(** X22: with a key, after the button [ask_ai] the next text of the user
    is the question, and the state is back at [None] and the table as it
    was.  When the values of the user's rows read as numbers, the handler
    sends the notice, queries the rows of the user, calls the completion
    service once with the context and the trimmed text as the question, and
    sends the answer.  When one of the values is NULL, the handler raises a
    [TypeError] after the notice and the query, with no call and no
    answer. *)
Theorem question_flow py_repr env env' u message_text b :
  openai_client env = true → openai_client env' = true →
  let b1 := final (handle_callback py_repr env u (py "ask_ai") b) in
  let r := handle_message env' u message_text b1 in
  let mine := filter_by_user u (purchases b) in
  pending b1 u = waiting_ai_prompt
  ∧ pending (final r) u = PyNone
  ∧ purchases (final r) = purchases b
  ∧ (Forall (fun p => value p ≠ S754_nan) mine →
     result r = Ok tt
     ∧ ∃ context,
         context_data mine = Ok context
         ∧ trace r = [SetState u PyNone;
                      Send (plain analysing);
                      DbSelect u;
                      ChatCompletion system_prompt
                        (py "Contexto de gastos do usuário:" ++ nl ++ context ++ nl ++ nl
                         ++ py "Pergunta do usuário: " ++ strip message_text);
                      Send (plain (match openai env' with
                                   | Some content => content
                                   | None => ai_error
                                   end))])
  ∧ (Exists (fun p => value p = S754_nan) mine →
     result r = Raise TypeError
     ∧ trace r = [SetState u PyNone; Send (plain analysing); DbSelect u]).
Proof.
  intros Hkey Hkey' b1 r mine.
  assert (Hb1 : b1 = set_pending u waiting_ai_prompt b).
  { subst b1. rewrite handle_callback_ask_ai, Hkey. reflexivity. }
  assert (Hs : pending b1 u = waiting_ai_prompt)
    by (rewrite Hb1; apply pending_set_pending).
  split; [exact Hs|]. subst r. rewrite (handle_message_ai _ _ _ _ Hs).
  cbv zeta. cbn [trace final result].
  split; [apply pending_set_pending|]. split; [rewrite Hb1; reflexivity|].
  assert (Hm : filter_by_user u (purchases b1) = mine) by (rewrite Hb1; reflexivity).
  split.
  - intros Hnum. rewrite <- Hm in Hnum.
    destruct (question_run_numbers env' u (strip message_text) b1 Hkey' Hnum)
      as (context & Hc & ->).
    cbn [result trace]. split; [reflexivity|]. exists context.
    split; [rewrite <- Hm; exact Hc|reflexivity].
  - intros Hnull. rewrite <- Hm in Hnull.
    rewrite (question_run_null env' u (strip message_text) b1 Hkey' Hnull).
    split; reflexivity.
Qed.

Lemma question_flow_example :
  let b1 := final (handle_callback (fun _ => []) env_ai 8 (py "ask_ai") bot_seven) in
  let r := handle_message env_later 8 (py " Quanto gastei? ") b1 in
  let mine := filter_by_user 8 (purchases bot_seven) in
  (openai_client env_ai = true ∧ openai_client env_later = true
   ∧ Forall (fun p => value p ≠ S754_nan) mine)
  ∧ (result r = Ok tt
     ∧ ∃ context,
         context_data mine = Ok context
         ∧ trace r = [SetState 8 PyNone;
                      Send (plain analysing);
                      DbSelect 8;
                      ChatCompletion system_prompt
                        (py "Contexto de gastos do usuário:" ++ nl ++ context ++ nl ++ nl
                         ++ py "Pergunta do usuário: " ++ strip (py " Quanto gastei? "));
                      Send (plain (match openai env_later with
                                   | Some content => content
                                   | None => ai_error
                                   end))])
  ∧ strip (py " Quanto gastei? ") = py "Quanto gastei?".
Proof.
  intros b1 r mine.
  assert (H : Forall (fun p => value p ≠ S754_nan) mine)
    by (vm_compute; repeat constructor; discriminate).
  split; [split; [reflexivity|split; [reflexivity|exact H]]|].
  split; [|vm_compute; reflexivity].
  exact (proj1 (proj2 (proj2 (proj2
           (question_flow (fun _ => []) env_ai env_later 8 (py " Quanto gastei? ")
              bot_seven eq_refl eq_refl)))) H).
Defined.

Lemma float_of_str_empty : float_of_str [] = None.
Proof. reflexivity. Qed.

Lemma strip_all_space w :
  Forall (fun c => isspace c = true) w → strip w = [].
Proof.
  intros H. rewrite <- (app_nil_r w). change (w ++ []) with (w ++ [] ++ []).
  rewrite (strip_between_spaces w [] [] H); [reflexivity|constructor].
Qed.

(** X23: while the user's state is [waiting_purchase], an entry with
    nothing but whitespace between its two hyphens is answered by the value
    error and adds no row. *)
Theorem empty_value_rejected env u b produto blank categoria :
  pending b u = waiting_purchase →
  ¬ In 45 produto → ¬ In 45 categoria →
  Forall (fun c => isspace c = true) blank →
  let r := handle_message env u (produto ++ py "-" ++ blank ++ py "-" ++ categoria) b in
  sent (trace r) = [plain value_error]
  ∧ purchases (final r) = purchases b
  ∧ pending (final r) u = PyNone.
Proof.
  intros Hstate Hp Hc Hblank r. subst r.
  assert (Hb : ¬ In 45 blank).
  { intros Hin. rewrite Forall_forall in Hblank.
    apply list_elem_of_In, Hblank in Hin. discriminate Hin. }
  rewrite (handle_message_purchase _ _ _ _ Hstate).
  change (produto ++ py "-" ++ blank ++ py "-" ++ categoria)
    with (produto ++ 45 :: blank ++ 45 :: categoria).
  rewrite (purchase_fields_of_entry _ _ _ Hp Hb Hc), (strip_all_space _ Hblank).
  cbn [replace]. rewrite float_of_str_empty. cbn [trace final sent].
  split; [reflexivity|]. split; [reflexivity|apply pending_set_pending].
Qed.

Lemma empty_value_rejected_example :
  (pending bot_purchase 7 = waiting_purchase
   ∧ ¬ In 45 (py "Café ") ∧ ¬ In 45 (py " Casa")
   ∧ Forall (fun c => isspace c = true) (py "  "))
  ∧ (let r := handle_message env0 7
                (py "Café " ++ py "-" ++ py "  " ++ py "-" ++ py " Casa") bot_purchase in
     sent (trace r) = [plain value_error]
     ∧ purchases (final r) = purchases bot_purchase
     ∧ pending (final r) 7 = PyNone).
Proof.
  assert (H1 : pending bot_purchase 7 = waiting_purchase) by (vm_compute; reflexivity).
  assert (H2 : ¬ In 45 (py "Café ")) by (vm_compute; intuition discriminate).
  assert (H3 : ¬ In 45 (py " Casa")) by (vm_compute; intuition discriminate).
  assert (H4 : Forall (fun c => isspace c = true) (py "  "))
    by (vm_compute; repeat constructor).
  split; [auto|].
  exact (empty_value_rejected env0 7 bot_purchase _ _ _ H1 H2 H3 H4).
Defined.
